(** * Scraping engine of the launcher add-on (lib/ael/scrapers.py)

    A shallow embedding of the decision engine ([ScrapeStrategy]), of the
    provider base class ([Scraper]) with its disk cache and error counter,
    and of the BIOS filter ([FilterROM]), followed by the properties of the
    written specification that were checked against them.

    Conventions of the embedding.
    - Python values that travel through caches and candidates are [pyval].
    - A Python [dict] whose order is visible (the cache maps, which are
      serialised) is an association list with the update discipline of a
      [dict]; dictionaries indexed by asset id are [gmap string _].
    - A method that mutates [self] takes the object and returns the new one;
      an exception is a [Raise] result next to the state reached so far.
    - Collaborators that live outside the file (title cleaning, the launcher,
      dialogs, the concrete scrapers' network operations) are parameters.
      Calls that reach the outside world are recorded in an event log.
    - Attributes the file reads on [self] without assigning them
      ([self.pdialogger], [self.platform], [self.launcher]) are fields of
      the object.  A global name the module does not define
      ([text_format_ROM_title], [FileName], [fs_export_ROM_NFO],
      [xbmcgui], ...) raises [NameError] where it is evaluated, and
      [datetime.now], an attribute the imported module [datetime] does not
      have, raises [AttributeError]. *)

From Stdlib Require Import ZArith Ascii Bool Lia.
From Stdlib Require Import Permutation.
From stdpp Require Import base gmap strings list fin_maps sorting.

Set Warnings "-register-all".
Local Open Scope Z_scope.

(** ** Python values and exceptions *)

Inductive exn : Type :=
  | TypeError | ValueError | KeyError | IndexError
  | AttributeError | NameError | AddonError | IOError.

Inductive result (A : Type) : Type :=
  | Ok (a : A)
  | Raise (e : exn).
Arguments Ok {A} a.
Arguments Raise {A} e.

Inductive pyval : Type :=
  | PNone
  | PBool (b : bool)
  | PInt (z : Z)
  | PStr (s : string)
  | PList (l : list pyval)
  | PDict (d : list (string * pyval)).

(** [bool(x)] *)
Definition truthy (v : pyval) : bool :=
  match v with
  | PNone => false
  | PBool b => b
  | PInt z => negb (z =? 0)
  | PStr s => negb (String.eqb s "")
  | PList l => match l with [] => false | _ => true end
  | PDict d => match d with [] => false | _ => true end
  end.

(** [x is None] *)
Definition is_None (v : pyval) : bool :=
  match v with PNone => true | _ => false end.

(** *** [dict] operations on an association list *)

Abbreviation pydict := (list (string * pyval)).

(** [k in d] *)
Fixpoint dict_mem (k : string) (d : pydict) : bool :=
  match d with
  | [] => false
  | (k', _) :: d' => if String.eqb k k' then true else dict_mem k d'
  end.

(** [d[k]], [KeyError] on a missing key *)
Fixpoint dict_get (k : string) (d : pydict) : result pyval :=
  match d with
  | [] => Raise KeyError
  | (k', v) :: d' => if String.eqb k k' then Ok v else dict_get k d'
  end.

(** [d[k] = v]: an existing key keeps its position, a new key goes last *)
Fixpoint dict_set (k : string) (v : pyval) (d : pydict) : pydict :=
  match d with
  | [] => [(k, v)]
  | (k', v') :: d' =>
      if String.eqb k k' then (k', v) :: d' else (k', v') :: dict_set k v d'
  end.

(** [del d[k]], [KeyError] on a missing key *)
Definition dict_del (k : string) (d : pydict) : result pydict :=
  if dict_mem k d
  then Ok (filter (fun kv => negb (String.eqb k kv.1)) d)
  else Raise KeyError.

(** ** FilterROM *)

(** The addon settings dictionary, as far as this file reads it. *)
Record Settings : Type := {
  scan_ignore_bios : bool;
  scraper_aeloffline_addon_code_dir : string;
  scraper_cache_dir_setting : string;
  scan_ignore_scrap_title_setting : bool;
  scan_clean_tags_setting : bool;
  scan_update_NFO_files_setting : bool;
}.

(** [re.findall(pat, s)] for a literal pattern: the non-overlapping
    occurrences of [pat] in [s], scanned from the left.  [skip] counts the
    characters of a match that remain to be stepped over. *)
Fixpoint re_findall_literal (pat s : string) (skip : nat) : list string :=
  match s with
  | EmptyString => []
  | String _ s' =>
      match skip with
      | S k => re_findall_literal pat s' k
      | O =>
          if String.prefix pat s
          then pat :: re_findall_literal pat s' (Nat.pred (String.length pat))
          else re_findall_literal pat s' 0
      end
  end.

Section Filter.

(** [platforms.PLATFORM_MAME_LONG], [os.path.join] and the reading of a
    JSON list from a file are supplied from outside the module. *)
Variable PLATFORM_MAME_LONG : string.
Variable os_path_join : string -> string -> string.
Variable load_JSON_file : string -> result (list string).

Record FilterROM : Type := {
  f_settings : Settings;
  f_platform : string;
  f_addon_dir : string;
  (* the three sets exist only when the platform is MAME *)
  BIOS_set : option (gset string);
  Devices_set : option (gset string);
  Mechanical_set : option (gset string);
}.

Definition _load_JSON (filename : string) : result (list string) :=
  load_JSON_file filename.

Definition FilterROM_init (settings : Settings) (platform : string)
  : result FilterROM :=
  let addon_dir := scraper_aeloffline_addon_code_dir settings in
  if String.eqb platform PLATFORM_MAME_LONG then
    let data := os_path_join addon_dir "data-AOS" in
    match _load_JSON (os_path_join data "MAME_BIOSes.json") with
    | Raise e => Raise e
    | Ok BIOS_list =>
    match _load_JSON (os_path_join data "MAME_Devices.json") with
    | Raise e => Raise e
    | Ok Devices_list =>
    match _load_JSON (os_path_join data "MAME_Mechanical.json") with
    | Raise e => Raise e
    | Ok Mechanical_list =>
        Ok {| f_settings := settings; f_platform := platform;
              f_addon_dir := addon_dir;
              BIOS_set := Some (list_to_set BIOS_list);
              Devices_set := Some (list_to_set Devices_list);
              Mechanical_set := Some (list_to_set Mechanical_list) |}
    end end end
  else
    Ok {| f_settings := settings; f_platform := platform;
          f_addon_dir := addon_dir;
          BIOS_set := None; Devices_set := None; Mechanical_set := None |}.

(** [basename in self.X_set]; the attribute is missing when [__init__]
    did not create it. *)
Definition in_set (basename : string) (s : option (gset string)) : result bool :=
  match s with
  | None => Raise AttributeError
  | Some X => Ok (bool_decide (basename ∈ X))
  end.

Definition ROM_is_filtered (self : FilterROM) (basename : string) : result bool :=
  if negb (scan_ignore_bios (f_settings self)) then Ok false
  else if String.eqb (f_platform self) PLATFORM_MAME_LONG then
    match in_set basename (BIOS_set self) with
    | Raise e => Raise e
    | Ok true => Ok true
    | Ok false =>
    match in_set basename (Devices_set self) with
    | Raise e => Raise e
    | Ok true => Ok true
    | Ok false =>
    match in_set basename (Mechanical_set self) with
    | Raise e => Raise e
    | Ok true => Ok true
    | Ok false => Ok false
    end end end
  else
    let BIOS_m := re_findall_literal "[BIOS]" basename 0 in
    match BIOS_m with
    | _ :: _ => Ok true
    | [] => Ok false
    end.

End Filter.

(** ** Constants and collaborator objects *)

(** The [constants.SCRAPE_*] values a policy or mode setting can hold. *)
Inductive scrape_const : Type :=
  | SCRAPE_ACTION_NONE
  | SCRAPE_POLICY_TITLE_ONLY
  | SCRAPE_POLICY_NFO_PREFERED
  | SCRAPE_POLICY_NFO_AND_SCRAPE
  | SCRAPE_POLICY_SCRAPE_ONLY
  | SCRAPE_POLICY_LOCAL_ONLY
  | SCRAPE_POLICY_LOCAL_AND_SCRAPE
  | SCRAPE_AUTOMATIC
  | SCRAPE_MANUAL.

Global Instance scrape_const_eq_dec : EqDecision scrape_const.
Proof. solve_decision. Defined.

(** [io.FileName]: the object is known through its accessors. *)
Record FileName : Type := {
  getPath : string;
  getPathNoExt : string;
  getBase : string;
  getBaseNoExt : string;
}.

(** An asset descriptor, used through [.id] and [.name]. *)
Record AssetInfo : Type := {
  a_id : string;
  a_name : string;
}.

(** The value of an asset slot or of a located local asset: [None], a
    string (the database default is the empty string) or a file object. *)
Inductive asset_val : Type :=
  | ANone
  | AStr (s : string)
  | AFile (path : string).

Definition asset_truthy (a : asset_val) : bool :=
  match a with
  | ANone => false
  | AStr s => negb (String.eqb s "")
  | AFile _ => true
  end.

(** [kodi.new_status_dic]: the status dictionary every fallible scraper
    operation reports through. *)
Record status_dic : Type := {
  status : bool;
  dialog : Z;
  msg : string;
}.

Definition KODI_MESSAGE_NONE : Z := 0.
Definition KODI_MESSAGE_DIALOG : Z := 3.

Definition new_status_dic (message : string) : status_dic :=
  {| status := true; dialog := KODI_MESSAGE_NONE; msg := message |}.

(** Modelled from the spec: the item object (section 6, "Collaborator: item
    object") exposes a file path accessor, an asset-presence test per asset
    type, an asset setter, a trailer setter and the metadata setters.  Its
    class is not part of this file.  Asset slots are indexed by asset id. *)
Record ROM : Type := {
  rom_file : FileName;
  m_name : pyval;
  m_year : pyval;
  m_genre : pyval;
  m_developer : pyval;
  m_nplayers : pyval;
  m_esrb : pyval;
  m_plot : pyval;
  rom_assets : gmap string asset_val;
}.

Definition get_file (rom : ROM) : FileName := rom_file rom.

Definition set_name (rom : ROM) (n : pyval) : ROM :=
  {| rom_file := rom_file rom; m_name := n; m_year := m_year rom;
     m_genre := m_genre rom; m_developer := m_developer rom;
     m_nplayers := m_nplayers rom; m_esrb := m_esrb rom;
     m_plot := m_plot rom; rom_assets := rom_assets rom |}.

Definition set_scraped_fields (rom : ROM) (y g d n e p : pyval) : ROM :=
  {| rom_file := rom_file rom; m_name := m_name rom; m_year := y;
     m_genre := g; m_developer := d; m_nplayers := n; m_esrb := e;
     m_plot := p; rom_assets := rom_assets rom |}.

Definition with_assets (rom : ROM) (m : gmap string asset_val) : ROM :=
  {| rom_file := rom_file rom; m_name := m_name rom; m_year := m_year rom;
     m_genre := m_genre rom; m_developer := m_developer rom;
     m_nplayers := m_nplayers rom; m_esrb := m_esrb rom;
     m_plot := m_plot rom; rom_assets := m |}.

Definition asset_slot (rom : ROM) (asset_id : string) : asset_val :=
  default (AStr "") (rom_assets rom !! asset_id).

Definition has_asset (rom : ROM) (AInfo : AssetInfo) : bool :=
  asset_truthy (asset_slot rom (a_id AInfo)).

Definition set_asset (rom : ROM) (AInfo : AssetInfo) (path : asset_val) : ROM :=
  with_assets rom (<[a_id AInfo := path]> (rom_assets rom)).

(** ** The provider base class: state *)

(** [Scraper.CACHE_LIST] *)
Inductive cache_type : Type :=
  | CACHE_CANDIDATES | CACHE_METADATA | CACHE_ASSETS | CACHE_INTERNAL.

Global Instance cache_type_eq_dec : EqDecision cache_type.
Proof. solve_decision. Defined.

Definition CACHE_LIST : list cache_type :=
  [CACHE_CANDIDATES; CACHE_METADATA; CACHE_ASSETS; CACHE_INTERNAL].

Definition cache_name (c : cache_type) : string :=
  match c with
  | CACHE_CANDIDATES => "candidates"
  | CACHE_METADATA => "metadata"
  | CACHE_ASSETS => "assets"
  | CACHE_INTERNAL => "internal"
  end.

(** A dictionary with exactly the four cache names as keys. *)
Record per_cache (A : Type) : Type := {
  pc_candidates : A;
  pc_metadata : A;
  pc_assets : A;
  pc_internal : A;
}.
Arguments pc_candidates {A} _.
Arguments pc_metadata {A} _.
Arguments pc_assets {A} _.
Arguments pc_internal {A} _.

Definition pc_get {A} (c : cache_type) (p : per_cache A) : A :=
  match c with
  | CACHE_CANDIDATES => pc_candidates p
  | CACHE_METADATA => pc_metadata p
  | CACHE_ASSETS => pc_assets p
  | CACHE_INTERNAL => pc_internal p
  end.

Definition pc_set {A} (c : cache_type) (x : A) (p : per_cache A) : per_cache A :=
  match c with
  | CACHE_CANDIDATES =>
      {| pc_candidates := x; pc_metadata := pc_metadata p;
         pc_assets := pc_assets p; pc_internal := pc_internal p |}
  | CACHE_METADATA =>
      {| pc_candidates := pc_candidates p; pc_metadata := x;
         pc_assets := pc_assets p; pc_internal := pc_internal p |}
  | CACHE_ASSETS =>
      {| pc_candidates := pc_candidates p; pc_metadata := pc_metadata p;
         pc_assets := x; pc_internal := pc_internal p |}
  | CACHE_INTERNAL =>
      {| pc_candidates := pc_candidates p; pc_metadata := pc_metadata p;
         pc_assets := pc_assets p; pc_internal := x |}
  end.

Definition pc_all {A} (x : A) : per_cache A :=
  {| pc_candidates := x; pc_metadata := x; pc_assets := x; pc_internal := x |}.

(** A [Scraper] instance.  The first four fields stand for what the
    concrete subclass answers to the capability queries [get_name],
    [get_filename], [supports_disk_cache] and [supports_asset_ID]; the
    others are the attributes of the base class.  [cache_key] and
    [platform] are created by the candidate functions.  A value of this
    type is an object that has these attributes, however it came to have
    them: [__init__] of the base class raises before it has created them
    all (see [Scraper_init]). *)
Record Scraper : Type := {
  get_name : string;
  get_filename : string;
  supports_disk_cache : bool;
  supports_asset_ID : string -> bool;
  scraper_cache_dir : string;
  exception_counter : Z;
  scraper_disabled : bool;
  last_http_call : Z;
  disk_caches : per_cache pydict;
  disk_caches_loaded : per_cache bool;
  disk_caches_dirty : per_cache bool;
  candidate : pyval;
  cache_key : option string;
  platform : option string;
}.

Definition set_cache_key_platform (k : option string) (p : option string)
    (o : Scraper) : Scraper :=
  {| get_name := get_name o; get_filename := get_filename o;
     supports_disk_cache := supports_disk_cache o;
     supports_asset_ID := supports_asset_ID o;
     scraper_cache_dir := scraper_cache_dir o;
     exception_counter := exception_counter o;
     scraper_disabled := scraper_disabled o;
     last_http_call := last_http_call o;
     disk_caches := disk_caches o;
     disk_caches_loaded := disk_caches_loaded o;
     disk_caches_dirty := disk_caches_dirty o;
     candidate := candidate o; cache_key := k; platform := p |}.

Definition set_candidate_attr (c : pyval) (o : Scraper) : Scraper :=
  {| get_name := get_name o; get_filename := get_filename o;
     supports_disk_cache := supports_disk_cache o;
     supports_asset_ID := supports_asset_ID o;
     scraper_cache_dir := scraper_cache_dir o;
     exception_counter := exception_counter o;
     scraper_disabled := scraper_disabled o;
     last_http_call := last_http_call o;
     disk_caches := disk_caches o;
     disk_caches_loaded := disk_caches_loaded o;
     disk_caches_dirty := disk_caches_dirty o;
     candidate := c; cache_key := cache_key o; platform := platform o |}.

Definition set_caches (d : per_cache pydict) (l y : per_cache bool)
    (o : Scraper) : Scraper :=
  {| get_name := get_name o; get_filename := get_filename o;
     supports_disk_cache := supports_disk_cache o;
     supports_asset_ID := supports_asset_ID o;
     scraper_cache_dir := scraper_cache_dir o;
     exception_counter := exception_counter o;
     scraper_disabled := scraper_disabled o;
     last_http_call := last_http_call o;
     disk_caches := d; disk_caches_loaded := l; disk_caches_dirty := y;
     candidate := candidate o; cache_key := cache_key o;
     platform := platform o |}.

Definition set_errors (n : Z) (b : bool) (o : Scraper) : Scraper :=
  {| get_name := get_name o; get_filename := get_filename o;
     supports_disk_cache := supports_disk_cache o;
     supports_asset_ID := supports_asset_ID o;
     scraper_cache_dir := scraper_cache_dir o;
     exception_counter := n; scraper_disabled := b;
     last_http_call := last_http_call o;
     disk_caches := disk_caches o;
     disk_caches_loaded := disk_caches_loaded o;
     disk_caches_dirty := disk_caches_dirty o;
     candidate := candidate o; cache_key := cache_key o;
     platform := platform o |}.

(** ** The outside world *)

(** A file holds a JSON object (a cache file, in the key order of the
    text) or a text that [json.loads] rejects ([OtherFile]).  A file whose
    text is JSON but not an object is not represented: [flush_disk_cache],
    the only writer of the cache files, writes objects. *)
Inductive file : Type :=
  | CacheFile (d : pydict)
  | OtherFile.

Inductive pdialog_op : Type :=
  | startProgress (message : string) (num_steps : Z)
  | updateProgress (step : Z)
  | updateMessage2 (message : string)
  | pd_close
  | pd_reopen
  | endProgress.

(** What leaves the engine: calls on the progress dialog and on the other
    dialogs, calls of the concrete scraper's operations, the transport, the
    file writes and the mutations of the item.  [Ev_export_ROM_NFO] and
    [Ev_sleep] are the NFO export and the pause of the throttle the written
    specification speaks of; no definition below emits them. *)
Inductive event : Type :=
  | Ev_pdialog (op : pdialog_op)
  | Ev_dialog_yesno_timer (text : string) (ms : Z)
  | Ev_ListDialog_select (title : string) (options : list pyval)
  | Ev_get_candidates (search_term : string) (rom_FN checksums_FN : FileName)
      (plat : string) (obj : Scraper)
  | Ev_get_metadata (obj : Scraper)
  | Ev_get_assets (AInfo : AssetInfo)
  | Ev_resolve_asset_URL (AInfo : AssetInfo) (selected_asset : pyval)
  | Ev_resolve_asset_URL_extension (AInfo : AssetInfo)
      (selected_asset : pyval) (image_url : pyval)
  | Ev_download_image (AInfo : AssetInfo) (image_url : pyval)
      (image_local_path : string)
  | Ev_net_download_img (image_url image_local_path : string)
  | Ev_writeAll (json_file_path json_fname : string) (json_data : pydict)
  | Ev_export_ROM_NFO (romdata : ROM)
  | Ev_sleep (miliseconds : Z)
  | Ev_set_name (title : pyval)
  | Ev_set_asset (AInfo : AssetInfo) (path : asset_val)
  | Ev_set_trailer (path : asset_val).

(** [clock] is the wall clock in microseconds; [log] has the latest event
    first. *)
Record World : Type := {
  fs : gmap string file;
  clock : Z;
  log : list event;
}.

Definition emit (e : event) (w : World) : World :=
  {| fs := fs w; clock := clock w; log := e :: log w |}.

Definition write_file (path : string) (f : file) (w : World) : World :=
  {| fs := <[path := f]> (fs w); clock := clock w; log := log w |}.

(** ** A state and exception monad *)

Definition M (S A : Type) : Type := S -> result A * S.

Definition ret {S A} (a : A) : M S A := fun s => (Ok a, s).
Definition raise {S A} (e : exn) : M S A := fun s => (Raise e, s).
Definition bind {S A B} (c : M S A) (k : A -> M S B) : M S B :=
  fun s => match c s with
           | (Ok a, s') => k a s'
           | (Raise e, s') => (Raise e, s')
           end.
Definition gets {S A} (f : S -> A) : M S A := fun s => (Ok (f s), s).
Definition modify {S} (f : S -> S) : M S unit := fun s => (Ok tt, f s).
Definition lift_result {S A} (r : result A) : M S A := fun s => (r, s).

(** [try: c except: h] *)
Definition try_except {S A} (c : M S A) (h : exn -> M S A) : M S A :=
  fun s => match c s with
           | (Ok a, s') => (Ok a, s')
           | (Raise e, s') => h e s'
           end.

Declare Scope py_scope.
Delimit Scope py_scope with py.
Notation "x <- c ;; k" := (bind c (fun x => k))
  (at level 100, c at next level, right associativity) : py_scope.
Notation "c ;; k" := (bind c (fun _ => k))
  (at level 100, right associativity) : py_scope.
Notation "'when' b 'then' c" := (if b then c else ret tt)
  (at level 99, only parsing) : py_scope.
Local Open Scope py_scope.

(** [for x in l: body] *)
Fixpoint for_each {S A} (l : list A) (body : A -> M S unit) : M S unit :=
  match l with
  | [] => ret tt
  | x :: l' => body x ;; for_each l' body
  end.

(** A loop that also carries a local variable. *)
Fixpoint for_each_acc {S A B} (l : list A) (acc : B) (body : B -> A -> M S B)
  : M S B :=
  match l with
  | [] => ret acc
  | x :: l' => acc' <- body acc x ;; for_each_acc l' acc' body
  end.

(** An attribute that may not have been created yet. *)
Definition attr {S A} (f : S -> option A) : M S A :=
  fun s => match f s with
           | Some a => (Ok a, s)
           | None => (Raise AttributeError, s)
           end.
(** ** The provider base class: methods *)

(** [json.dumps(..., sort_keys = True)]: every dictionary is emitted in
    the order of its keys.  The text encoding itself is the [json]
    module's; a written file is represented by the emitted object, and
    [json.loads] gives it back. *)
Definition key_le (p q : string * pyval) : Prop := String.le p.1 q.1.

Global Instance key_le_dec : RelDecision key_le.
Proof. intros p q. unfold key_le. apply _. Defined.

Fixpoint json_sort_keys (v : pyval) : pyval :=
  match v with
  | PList l => PList (map json_sort_keys l)
  | PDict d =>
      PDict (merge_sort key_le
               (map (fun kv => let '(k, x) := kv in (k, json_sort_keys x)) d))
  | _ => v
  end.

Definition json_dumps (d : pydict) : pydict :=
  merge_sort key_le
    (map (fun kv => let '(k, x) := kv in (k, json_sort_keys x)) d).

(** A scraper object together with the world it acts on. *)
Record SW : Type := {
  obj : Scraper;
  world : World;
}.

Definition on_obj (f : Scraper -> Scraper) : M SW unit :=
  modify (fun s => {| obj := f (obj s); world := world s |}).

Definition on_world (f : World -> World) : M SW unit :=
  modify (fun s => {| obj := obj s; world := f (world s) |}).

Definition EXCEPTION_COUNTER_THRESHOLD : Z := 5.
Definition RETRY_THRESHOLD : Z := 4.

Section ScraperBase.

(** [os.path.join] and the transport [net.download_img] (which may
    raise) come from outside. *)
Variable os_path_join : string -> string -> string.
Variable net_download_img : string -> string -> result unit.

(** [datetime.now()].  The module is imported by [import datetime, time]
    (line 28), so that [datetime] names the module and not the class
    [datetime.datetime]; the module has no attribute [now], and the
    expression raises [AttributeError] wherever it is evaluated.  It has
    no value: the statements that use one are never reached. *)
Definition datetime_now : result Empty_set := Raise AttributeError.

(** [Scraper.__init__].  The counter, the flag and the cache directory are
    assigned first (lines 972 to 985); the assignment of [last_http_call]
    (line 988) evaluates [datetime.now()], so that the constructor raises
    there, before the disk caches, the candidate and the global caches
    (lines 990 to 1008) are created, and returns no object. *)
Definition Scraper_init (settings : Settings) : result Scraper :=
  match datetime_now with
  | Raise e => Raise e
  | Ok now => match now with end
  end.

Definition _get_scraper_file_name (ct : cache_type) (plat : string)
  : M SW (string * string) :=
  scraper_filename <- gets (fun s => get_filename (obj s)) ;;
  let json_fname :=
    scraper_filename +:+ "__" +:+ plat +:+ "__" +:+ cache_name ct +:+ ".json" in
  dir <- gets (fun s => scraper_cache_dir (obj s)) ;;
  let json_full_path := os_path_join dir json_fname in
  ret (json_full_path, json_fname).

Definition _load_disk_cache (ct : cache_type) (plat : string) : M SW unit :=
  names <- _get_scraper_file_name ct plat ;;
  let '(json_file_path, json_fname) := names in
  f <- gets (fun s => fs (world s) !! json_file_path) ;;
  d <- match f with
       | Some (CacheFile d) => ret d
       | Some OtherFile => raise ValueError
       | None => ret []
       end ;;
  on_obj (fun o =>
    set_caches (pc_set ct d (disk_caches o))
               (pc_set ct true (disk_caches_loaded o))
               (pc_set ct false (disk_caches_dirty o)) o).

Definition _lazy_load_disk_cache (ct : cache_type) : M SW unit :=
  loaded <- gets (fun s => pc_get ct (disk_caches_loaded (obj s))) ;;
  if negb loaded then
    plat <- attr (fun s => platform (obj s)) ;;
    _load_disk_cache ct plat
  else ret tt.

Definition _check_disk_cache (ct : cache_type) (key : string) : M SW bool :=
  _lazy_load_disk_cache ct ;;
  gets (fun s => dict_mem key (pc_get ct (disk_caches (obj s)))).

Definition _retrieve_from_disk_cache (ct : cache_type) (key : string)
  : M SW pyval :=
  d <- gets (fun s => pc_get ct (disk_caches (obj s))) ;;
  lift_result (dict_get key d).

Definition _delete_from_disk_cache (ct : cache_type) (key : string)
  : M SW unit :=
  d <- gets (fun s => pc_get ct (disk_caches (obj s))) ;;
  d' <- lift_result (dict_del key d) ;;
  on_obj (fun o =>
    set_caches (pc_set ct d' (disk_caches o)) (disk_caches_loaded o)
               (pc_set ct true (disk_caches_dirty o)) o).

Definition _update_disk_cache (ct : cache_type) (key : string) (data : pyval)
  : M SW unit :=
  _lazy_load_disk_cache ct ;;
  on_obj (fun o =>
    set_caches (pc_set ct (dict_set key data (pc_get ct (disk_caches o)))
                  (disk_caches o))
               (disk_caches_loaded o)
               (pc_set ct true (disk_caches_dirty o)) o).

Definition check_candidates_cache (rom_FN : FileName) (plat : string)
  : M SW bool :=
  on_obj (set_cache_key_platform (Some (getBase rom_FN)) (Some plat)) ;;
  _check_disk_cache CACHE_CANDIDATES (getBase rom_FN).

Definition retrieve_from_candidates_cache (rom_FN : FileName) (plat : string)
  : M SW pyval :=
  on_obj (fun o => set_cache_key_platform (Some (getBase rom_FN)) (platform o) o) ;;
  _retrieve_from_disk_cache CACHE_CANDIDATES (getBase rom_FN).

Definition set_candidate_from_cache (rom_FN : FileName) (plat : string)
  : M SW unit :=
  on_obj (set_cache_key_platform (Some (getBase rom_FN)) (Some plat)) ;;
  c <- _retrieve_from_disk_cache CACHE_CANDIDATES (getBase rom_FN) ;;
  on_obj (set_candidate_attr c).

Definition set_candidate (rom_FN : FileName) (plat : string) (c : pyval)
  : M SW unit :=
  on_obj (set_cache_key_platform (Some (getBase rom_FN)) (Some plat)) ;;
  on_obj (set_candidate_attr c) ;;
  if is_None c then ret tt
  else _update_disk_cache CACHE_CANDIDATES (getBase rom_FN) c.

(** The body of the loop of [clear_cache]. *)
Definition purge_one (key : string) (ct : cache_type) : M SW unit :=
  present <- _check_disk_cache ct key ;;
  if (present : bool) then _delete_from_disk_cache ct key
  else ret tt.

Definition clear_cache (rom_FN : FileName) (plat : string) : M SW unit :=
  on_obj (set_cache_key_platform (Some (getBase rom_FN)) (Some plat)) ;;
  for_each CACHE_LIST (purge_one (getBase rom_FN)).

(** The body of the loop of [flush_disk_cache] over the cache kinds;
    [step_count] is the progress counter. *)
Definition flush_one (pdialog : bool) (step_count : Z) (ct : cache_type)
  : M SW Z :=
  step_count <-
    (if pdialog
     then on_world (emit (Ev_pdialog (updateProgress step_count))) ;;
          ret (step_count + 1)
     else ret step_count) ;;
  (* Skip unloaded caches *)
  loaded <- gets (fun s => pc_get ct (disk_caches_loaded (obj s))) ;;
  if negb loaded then ret step_count else
  (* Skip empty caches *)
  d <- gets (fun s => pc_get ct (disk_caches (obj s))) ;;
  if negb (truthy (PDict d)) then ret step_count else
  (* Skip clean caches. *)
  dirty <- gets (fun s => pc_get ct (disk_caches_dirty (obj s))) ;;
  if negb dirty then ret step_count else
  let json_data := json_dumps d in
  plat <- attr (fun s => platform (obj s)) ;;
  names <- _get_scraper_file_name ct plat ;;
  let '(json_file_path, json_fname) := names in
  on_world (fun w =>
    emit (Ev_writeAll json_file_path json_fname json_data)
         (write_file json_file_path (CacheFile json_data) w)) ;;
  (* Cache written to disk is clean again. *)
  on_obj (fun o =>
    set_caches (disk_caches o) (disk_caches_loaded o)
               (pc_set ct false (disk_caches_dirty o)) o) ;;
  ret step_count.

(** [pdialog] tells whether a progress dialog was passed. *)
Definition flush_disk_cache (pdialog : bool) : M SW unit :=
  supported <- gets (fun s => supports_disk_cache (obj s)) ;;
  if negb supported then ret tt
  else
    let num_steps := Z.of_nat (length CACHE_LIST) in
    (when pdialog then
       on_world (emit (Ev_pdialog
         (startProgress "Flushing scraper disk caches..." num_steps)))) ;;
    _ <- for_each_acc CACHE_LIST 0 (flush_one pdialog) ;;
    when pdialog then on_world (emit (Ev_pdialog endProgress)).

(** The abstract operations [get_candidates], [get_metadata],
    [get_assets], [resolve_asset_URL] and [resolve_asset_URL_extension]
    have the body [pass] here; the concrete scrapers supply them. *)

Definition download_image (image_url image_local_path : string)
  : M SW string :=
  on_world (emit (Ev_net_download_img image_url image_local_path)) ;;
  lift_result (net_download_img image_url image_local_path) ;;
  ret image_local_path.

Definition _handle_error (status_dic0 : status_dic) (user_msg : string)
  : M SW status_dic :=
  let st := {| status := false; dialog := KODI_MESSAGE_DIALOG;
               msg := user_msg |} in
  on_obj (fun o =>
    set_errors (exception_counter o + 1) (scraper_disabled o) o) ;;
  n <- gets (fun s => exception_counter (obj s)) ;;
  if EXCEPTION_COUNTER_THRESHOLD <? n then
    let err_m := "Maximum number of errors exceeded. Disabling scraper." in
    on_obj (fun o => set_errors (exception_counter o) true o) ;;
    ret {| status := status st; dialog := dialog st; msg := err_m |}
  else ret st.

Definition _handle_exception (status_dic0 : status_dic) (user_msg : string)
  : M SW status_dic :=
  _handle_error status_dic0 user_msg.

(** Generic waiting method.  After the test for a zero interval the
    method evaluates [datetime.now()] (line 1491), which raises; the
    comparison with [last_http_call] and the call of [time.sleep] (lines
    1492 to 1494) need its value and are never reached. *)
Definition _wait_for_API_request (wait_time_in_miliseconds : Z) : M SW unit :=
  if wait_time_in_miliseconds =? 0 then ret tt
  else
    now <- lift_result datetime_now ;;
    match now return M SW unit with end.

End ScraperBase.

(** ** The decision engine: state *)

Record ScraperSettings : Type := {
  scrape_metadata_policy : scrape_const;
  scrape_assets_policy : scrape_const;
  search_term_mode : scrape_const;
  game_selection_mode : scrape_const;
  asset_selection_mode : scrape_const;
  overwrite_existing : bool;
  show_info_verbose : bool;
}.

(** The two verbosity attributes the methods read. *)
Record pdialogger_t : Type := {
  debug : bool;
  debugose : bool;
}.

(** --- Metadata actions --- *)
Definition ACTION_META_NONE : Z := 0.
Definition ACTION_META_TITLE_ONLY : Z := 100.
Definition ACTION_META_NFO_FILE : Z := 200.
Definition ACTION_META_SCRAPER : Z := 300.

(** --- Asset actions --- *)
Definition ACTION_ASSET_NONE : Z := 0.
Definition ACTION_ASSET_LOCAL_ASSET : Z := 100.
Definition ACTION_ASSET_SCRAPER : Z := 200.

(** A [ScrapeStrategy] instance.  The last four attributes are created by
    the planning methods. *)
Record ScrapeStrategy : Type := {
  scraper_settings : ScraperSettings;
  meta_scraper_obj : option Scraper;
  asset_scraper_obj : option Scraper;
  scan_ignore_scrap_title : bool;
  scan_clean_tags : bool;
  scan_update_NFO_files : bool;
  pdialogger : pdialogger_t;
  s_platform : string;
  enabled_asset_list : list AssetInfo;
  metadata_action : option Z;
  NFO_file : option string;
  local_asset_list : option (gmap string asset_val);
  asset_action_list : option (gmap string Z);
}.

Definition set_scraper_objs (m a : option Scraper) (x : ScrapeStrategy)
  : ScrapeStrategy :=
  {| scraper_settings := scraper_settings x;
     meta_scraper_obj := m; asset_scraper_obj := a;
     scan_ignore_scrap_title := scan_ignore_scrap_title x;
     scan_clean_tags := scan_clean_tags x;
     scan_update_NFO_files := scan_update_NFO_files x;
     pdialogger := pdialogger x; s_platform := s_platform x;
     enabled_asset_list := enabled_asset_list x;
     metadata_action := metadata_action x; NFO_file := NFO_file x;
     local_asset_list := local_asset_list x;
     asset_action_list := asset_action_list x |}.

Definition set_meta_plan (act : option Z) (nfo : option string)
    (x : ScrapeStrategy) : ScrapeStrategy :=
  {| scraper_settings := scraper_settings x;
     meta_scraper_obj := meta_scraper_obj x;
     asset_scraper_obj := asset_scraper_obj x;
     scan_ignore_scrap_title := scan_ignore_scrap_title x;
     scan_clean_tags := scan_clean_tags x;
     scan_update_NFO_files := scan_update_NFO_files x;
     pdialogger := pdialogger x; s_platform := s_platform x;
     enabled_asset_list := enabled_asset_list x;
     metadata_action := act; NFO_file := nfo;
     local_asset_list := local_asset_list x;
     asset_action_list := asset_action_list x |}.

Definition set_asset_plan (loc : option (gmap string asset_val))
    (acts : option (gmap string Z)) (x : ScrapeStrategy) : ScrapeStrategy :=
  {| scraper_settings := scraper_settings x;
     meta_scraper_obj := meta_scraper_obj x;
     asset_scraper_obj := asset_scraper_obj x;
     scan_ignore_scrap_title := scan_ignore_scrap_title x;
     scan_clean_tags := scan_clean_tags x;
     scan_update_NFO_files := scan_update_NFO_files x;
     pdialogger := pdialogger x; s_platform := s_platform x;
     enabled_asset_list := enabled_asset_list x;
     metadata_action := metadata_action x; NFO_file := NFO_file x;
     local_asset_list := loc; asset_action_list := acts |}.

(** The engine, the item being processed and the world. *)
Record Scan : Type := {
  sc_self : ScrapeStrategy;
  sc_rom : ROM;
  sc_world : World;
}.

Definition on_self (f : ScrapeStrategy -> ScrapeStrategy) : M Scan unit :=
  modify (fun s => {| sc_self := f (sc_self s); sc_rom := sc_rom s;
                      sc_world := sc_world s |}).

Definition on_rom (f : ROM -> ROM) : M Scan unit :=
  modify (fun s => {| sc_self := sc_self s; sc_rom := f (sc_rom s);
                      sc_world := sc_world s |}).

Definition tell (e : event) : M Scan unit :=
  modify (fun s => {| sc_self := sc_self s; sc_rom := sc_rom s;
                      sc_world := emit e (sc_world s) |}).

(** Run a method of [self.meta_scraper_obj]. *)
Definition with_meta_scraper {A} (c : M SW A) : M Scan A :=
  fun s =>
    match meta_scraper_obj (sc_self s) with
    | None => (Raise AttributeError, s)
    | Some o =>
        let '(r, s') := c {| obj := o; world := sc_world s |} in
        (r, {| sc_self := set_scraper_objs (Some (obj s'))
                            (asset_scraper_obj (sc_self s)) (sc_self s);
               sc_rom := sc_rom s; sc_world := world s' |})
    end.

(** Run a method of [self.asset_scraper_obj]. *)
Definition with_asset_scraper {A} (c : M SW A) : M Scan A :=
  fun s =>
    match asset_scraper_obj (sc_self s) with
    | None => (Raise AttributeError, s)
    | Some o =>
        let '(r, s') := c {| obj := o; world := sc_world s |} in
        (r, {| sc_self := set_scraper_objs (meta_scraper_obj (sc_self s))
                            (Some (obj s')) (sc_self s);
               sc_rom := sc_rom s; sc_world := world s' |})
    end.

(** [v[k]] on a value that should be a dictionary *)
Definition py_getitem (v : pyval) (k : string) : result pyval :=
  match v with
  | PDict d => dict_get k d
  | _ => Raise TypeError
  end.

(** [l[i]] for an index that is not negative *)
Definition list_getitem {A} (l : list A) (i : Z) : result A :=
  match l !! Z.to_nat i with
  | Some x => Ok x
  | None => Raise IndexError
  end.

(** [d[k]] on a dictionary indexed by asset id *)
Definition map_getitem {A} (m : gmap string A) (k : string) : result A :=
  match m !! k with
  | Some x => Ok x
  | None => Raise KeyError
  end.

(** [[f(x) for x in l]] *)
Fixpoint list_comprehension {A B} (f : A -> result B) (l : list A)
  : result (list B) :=
  match l with
  | [] => Ok []
  | x :: l' =>
      match f x with
      | Raise e => Raise e
      | Ok y =>
          match list_comprehension f l' with
          | Raise e => Raise e
          | Ok ys => Ok (y :: ys)
          end
      end
  end.

(** ** The decision engine: methods *)

Section Strategy.

(** Collaborators.  [ASSET_TRAILER_ID] is a constant of the add-on;
    [unpack2] is the outcome of destructuring one [AssetInfo] as a pair
    [(key, value)], which depends on a class declared elsewhere;
    [format_ROM_title] is the title cleaner; [get_local_assets] and
    [get_asset_path] are the launcher's; [FN_add] and [FN_append] are
    [FileName.__add__] and [FileName.append] on paths;
    [ListDialog_select] is the user's answer to the game selection
    dialog; the [_impl] functions are the concrete scraper's operations,
    which see and may change the scraper object and the status
    dictionary. *)
Variable os_path_join : string -> string -> string.
Variable net_download_img : string -> string -> result unit.
Variable ASSET_TRAILER_ID : string.
Variable unpack2 : AssetInfo -> result (AssetInfo * pyval).
Variable format_ROM_title : string -> bool -> string.
Variable get_local_assets : ROM -> list AssetInfo -> gmap string asset_val.
Variable get_asset_path : AssetInfo -> string.
Variable FN_add : string -> string -> string.
Variable FN_append : string -> string -> string.
Variable ListDialog_select : string -> list pyval -> Z.
Variable get_candidates_impl :
  string -> FileName -> FileName -> string -> status_dic -> Scraper ->
  option (list pyval) * status_dic * Scraper.
Variable get_metadata_impl :
  status_dic -> Scraper -> pyval * status_dic * Scraper.
Variable get_assets_impl :
  AssetInfo -> status_dic -> Scraper ->
  option (list pyval) * status_dic * Scraper.
Variable resolve_asset_URL_impl :
  pyval -> status_dic -> Scraper ->
  option (pyval * pyval) * status_dic * Scraper.
Variable resolve_asset_URL_extension_impl :
  pyval -> pyval -> status_dic -> Scraper -> pyval * status_dic * Scraper.

(** *** Planning *)

(** Determine the actions to be carried out by process_ROM_metadata() *)
Definition _scanner_process_ROM_metadata_begin : M Scan unit :=
  scraper <- gets (fun s => meta_scraper_obj (sc_self s)) ;;
  match scraper with
  | None =>
      on_self (fun x => set_meta_plan (Some ACTION_META_NONE) (NFO_file x) x)
  | Some _ =>
      ROM_path <- gets (fun s => get_file (sc_rom s)) ;;
      let nfo := getPathNoExt ROM_path +:+ ".nfo" in
      on_self (fun x => set_meta_plan (metadata_action x) (Some nfo) x) ;;
      NFO_file_found <-
        gets (fun s => bool_decide (is_Some (fs (sc_world s) !! nfo))) ;;
      policy <-
        gets (fun s => scrape_metadata_policy (scraper_settings (sc_self s))) ;;
      let choose act :=
        on_self (fun x => set_meta_plan (Some act) (NFO_file x) x) in
      if decide (policy = SCRAPE_POLICY_TITLE_ONLY) then
        choose ACTION_META_TITLE_ONLY
      else if decide (policy = SCRAPE_POLICY_NFO_PREFERED) then
        if NFO_file_found then choose ACTION_META_NFO_FILE
        else choose ACTION_META_TITLE_ONLY
      else if decide (policy = SCRAPE_POLICY_NFO_AND_SCRAPE) then
        if NFO_file_found then choose ACTION_META_NFO_FILE
        else choose ACTION_META_SCRAPER
      else if decide (policy = SCRAPE_POLICY_SCRAPE_ONLY) then
        choose ACTION_META_SCRAPER
      else raise ValueError
  end.

(** [self.asset_action_list[asset_id] = act] *)
Definition set_asset_action (asset_id : string) (act : Z) : M Scan unit :=
  acts <- attr (fun s => asset_action_list (sc_self s)) ;;
  on_self (fun x =>
    set_asset_plan (local_asset_list x) (Some (<[asset_id := act]> acts)) x).

(** [self.local_asset_list[asset_id]] *)
Definition local_asset (asset_id : string) : M Scan asset_val :=
  loc <- attr (fun s => local_asset_list (sc_self s)) ;;
  lift_result (map_getitem loc asset_id).

(** The body of the loop over the enabled assets in the planning of the
    asset actions. *)
Definition plan_one_asset (scraper : Scraper) (policy : scrape_const)
    (AInfo : AssetInfo) : M Scan unit :=
  let supports := supports_asset_ID scraper (a_id AInfo) in
  if decide (policy = SCRAPE_POLICY_LOCAL_ONLY) then
    _ <- local_asset (a_id AInfo) ;;
    set_asset_action (a_id AInfo) ACTION_ASSET_LOCAL_ASSET
  else if decide (policy = SCRAPE_POLICY_LOCAL_AND_SCRAPE) then
    loc <- local_asset (a_id AInfo) ;;
    if asset_truthy loc then
      set_asset_action (a_id AInfo) ACTION_ASSET_LOCAL_ASSET
    else if supports then
      set_asset_action (a_id AInfo) ACTION_ASSET_SCRAPER
    else
      set_asset_action (a_id AInfo) ACTION_ASSET_LOCAL_ASSET
  else if decide (policy = SCRAPE_POLICY_SCRAPE_ONLY) then
    (* [not supports and local]: [local] is read only when [supports]
       is false *)
    c1 <- (if negb supports
           then loc <- local_asset (a_id AInfo) ;; ret (asset_truthy loc)
           else ret false) ;;
    if (c1 : bool) then set_asset_action (a_id AInfo) ACTION_ASSET_LOCAL_ASSET
    else
      c2 <- (if negb supports
             then loc <- local_asset (a_id AInfo) ;;
                  ret (negb (asset_truthy loc))
             else ret false) ;;
      if (c2 : bool) then
        set_asset_action (a_id AInfo) ACTION_ASSET_LOCAL_ASSET
      else if supports then
        set_asset_action (a_id AInfo) ACTION_ASSET_SCRAPER
      else raise ValueError
  else ret tt.

(** The policy is printed to the log; an unknown value is an error. *)
Definition check_asset_policy (policy : scrape_const) : M Scan unit :=
  if decide (policy = SCRAPE_POLICY_LOCAL_ONLY) then ret tt
  else if decide (policy = SCRAPE_POLICY_LOCAL_AND_SCRAPE) then ret tt
  else if decide (policy = SCRAPE_POLICY_SCRAPE_ONLY) then ret tt
  else raise ValueError.

(** Determine the actions to be carried out by scanner_process_ROM_assets() *)
Definition _scanner_process_ROM_assets_begin : M Scan unit :=
  scraper <- gets (fun s => asset_scraper_obj (sc_self s)) ;;
  enabled <- gets (fun s => enabled_asset_list (sc_self s)) ;;
  match scraper with
  | None =>
      (* { key.id : NONE for (key, value) in self.enabled_asset_list } *)
      acts <- for_each_acc enabled (∅ : gmap string Z) (fun acc elem =>
        kv <- lift_result (unpack2 elem) ;;
        ret (<[a_id kv.1 := ACTION_ASSET_NONE]> acc)) ;;
      on_self (fun x => set_asset_plan (local_asset_list x) (Some acts) x)
  | Some scraper =>
      rom <- gets sc_rom ;;
      on_self (set_asset_plan (Some (get_local_assets rom enabled)) (Some ∅)) ;;
      policy <-
        gets (fun s => scrape_assets_policy (scraper_settings (sc_self s))) ;;
      check_asset_policy policy ;;
      for_each enabled (plan_one_asset scraper policy)
  end.

(** *** Candidate resolution *)

Definition say (e : event) : M SW unit := on_world (emit e).

(** The error dialog shown between two scanner steps. *)
Definition show_error (text : string) : M SW unit :=
  say (Ev_pdialog pd_close) ;;
  say (Ev_dialog_yesno_timer text 60000) ;;
  say (Ev_pdialog pd_reopen).

Definition get_candidates (search_term : string) (rom_FN checksums_FN : FileName)
    (plat : string) (st : status_dic)
  : M SW (option (list pyval) * status_dic) :=
  o <- gets obj ;;
  say (Ev_get_candidates search_term rom_FN checksums_FN plat o) ;;
  let '(r, st', o') :=
    get_candidates_impl search_term rom_FN checksums_FN plat st o in
  on_obj (fun _ => o') ;;
  ret (r, st').

(** The part of [_scanner_get_candidate] that follows the search: the
    error dialog, the choice among the candidates and the recording of
    the chosen one. *)
Definition choose_candidate (self : ScrapeStrategy) (ROM_path : FileName)
    (candidates : option (list pyval)) (st : status_dic) : M SW status_dic :=
  let plat := s_platform self in
  (when negb (status st) then show_error (msg st)) ;;
  match candidates with
  | None =>
      set_candidate os_path_join ROM_path plat PNone ;; ret st
  | Some [] =>
      set_candidate os_path_join ROM_path plat (PDict []) ;; ret st
  | Some cands =>
      let mode := game_selection_mode (scraper_settings self) in
      select_candidate_idx <-
        (if decide (mode = SCRAPE_AUTOMATIC) then
           if (length cands =? 1)%nat then ret 0
           else
             say (Ev_pdialog pd_close) ;;
             game_name_list <- lift_result
               (list_comprehension (fun c => py_getitem c "display_name")
                  cands) ;;
             let title :=
               "Select game for ROM " +:+ getBaseNoExt ROM_path in
             say (Ev_ListDialog_select title game_name_list) ;;
             let idx := ListDialog_select title game_name_list in
             let idx := if idx <? 0 then 0 else idx in
             say (Ev_pdialog pd_reopen) ;;
             ret idx
         else if decide (mode = SCRAPE_MANUAL) then ret 0
         else raise ValueError) ;;
      c <- lift_result (list_getitem cands select_candidate_idx) ;;
      set_candidate os_path_join ROM_path plat c ;;
      ret st
  end.

(** [_scanner_get_candidate] after its progress message: the cache is
    looked at first, the scraper is asked only on a miss. *)
Definition resolve_candidate (self : ScrapeStrategy) (rom : ROM)
    (ROM_checksums_FN : FileName) (search_term : string)
    (status_dic0 : status_dic) : M SW status_dic :=
  let ROM_path := get_file rom in
  let plat := s_platform self in
  hit <- check_candidates_cache os_path_join ROM_path plat ;;
  use_from_cache <-
    (if (hit : bool) then
       _ <- retrieve_from_candidates_cache ROM_path plat ;; ret true
     else ret false) ;;
  if (use_from_cache : bool) then
    set_candidate_from_cache ROM_path plat ;;
    ret status_dic0
  else
    clear_cache os_path_join ROM_path plat ;;
    r <- get_candidates search_term ROM_path ROM_checksums_FN plat status_dic0 ;;
    choose_candidate self ROM_path r.1 r.2.

(** Get a candidate game in the ROM scanner.  The method returns nothing;
    the value returned here is the caller's status dictionary as the
    scraper left it. *)
Definition _scanner_get_candidate (self : ScrapeStrategy) (rom : ROM)
    (ROM_checksums_FN : FileName) (search_term : string)
    (status_dic0 : status_dic) : M SW status_dic :=
  name <- gets (fun s => get_name (obj s)) ;;
  (when debugose (pdialogger self) then
     say (Ev_pdialog (updateMessage2
            ("Searching games with scraper " +:+ name +:+ "...")))) ;;
  resolve_candidate self rom ROM_checksums_FN search_term status_dic0.

(** *** Metadata execution *)

(** Update ROM NFO file after scraping.  The call
    [fs_export_ROM_NFO(ROM.get_data_dic(), False)] (line 708) starts by
    evaluating the name [fs_export_ROM_NFO], which the module neither
    defines nor imports: it raises [NameError] before [get_data_dic] is
    called, and nothing is exported. *)
Definition _scanner_update_NFO_file : M Scan unit :=
  update <- gets (fun s => scan_update_NFO_files (sc_self s)) ;;
  if (update : bool) then raise NameError
  else ret tt.

(** [ROM.set_name(...)] *)
Definition rom_set_name (title : pyval) : M Scan unit :=
  tell (Ev_set_name title) ;;
  on_rom (fun r => set_name r title).

(** [ROM.set_name(text.format_ROM_title(ROM_file.getBaseNoExt(), self.scan_clean_tags))] *)
Definition clean_title_only : M Scan unit :=
  ROM_file <- gets (fun s => get_file (sc_rom s)) ;;
  clean <- gets (fun s => scan_clean_tags (sc_self s)) ;;
  rom_set_name (PStr (format_ROM_title (getBaseNoExt ROM_file) clean)).

Definition _apply_candidate_on_metadata (gamedata : pyval) : M Scan bool :=
  if negb (truthy gamedata) then ret false
  else
    ignore_title <- gets (fun s => scan_ignore_scrap_title (sc_self s)) ;;
    (if (ignore_title : bool) then clean_title_only
     else
       rom_name <- lift_result (py_getitem gamedata "title") ;;
       rom_set_name rom_name) ;;
    y <- lift_result (py_getitem gamedata "year") ;;
    on_rom (fun r => set_scraped_fields r y (m_genre r) (m_developer r)
                       (m_nplayers r) (m_esrb r) (m_plot r)) ;;
    g <- lift_result (py_getitem gamedata "genre") ;;
    on_rom (fun r => set_scraped_fields r (m_year r) g (m_developer r)
                       (m_nplayers r) (m_esrb r) (m_plot r)) ;;
    d <- lift_result (py_getitem gamedata "developer") ;;
    on_rom (fun r => set_scraped_fields r (m_year r) (m_genre r) d
                       (m_nplayers r) (m_esrb r) (m_plot r)) ;;
    n <- lift_result (py_getitem gamedata "nplayers") ;;
    on_rom (fun r => set_scraped_fields r (m_year r) (m_genre r)
                       (m_developer r) n (m_esrb r) (m_plot r)) ;;
    e <- lift_result (py_getitem gamedata "esrb") ;;
    on_rom (fun r => set_scraped_fields r (m_year r) (m_genre r)
                       (m_developer r) (m_nplayers r) e (m_plot r)) ;;
    p <- lift_result (py_getitem gamedata "plot") ;;
    on_rom (fun r => set_scraped_fields r (m_year r) (m_genre r)
                       (m_developer r) (m_nplayers r) (m_esrb r) p) ;;
    ret true.

Definition get_metadata (st : status_dic) : M SW (pyval * status_dic) :=
  o <- gets obj ;;
  say (Ev_get_metadata o) ;;
  let '(r, st', o') := get_metadata_impl st o in
  on_obj (fun _ => o') ;;
  ret (r, st').

(** Scraps ROM metadata in the ROM scanner. *)
Definition _scanner_scrap_ROM_metadata : M Scan unit :=
  verbose <- gets (fun s => debug (pdialogger (sc_self s))) ;;
  (when (verbose : bool) then
     (name <- with_meta_scraper (gets (fun s => get_name (obj s))) ;;
      tell (Ev_pdialog (updateMessage2
              ("Scraping metadata with " +:+ name +:+ "..."))))) ;;
  cand <- with_meta_scraper (gets (fun s => candidate (obj s))) ;;
  if is_None cand then
    clean_title_only
  else if negb (truthy cand) then
    clean_title_only ;;
    _scanner_update_NFO_file
  else
    r <- with_meta_scraper (get_metadata (new_status_dic "No error")) ;;
    let '(game_data, st) := r in
    if negb (status st) then
      tell (Ev_pdialog pd_close) ;;
      tell (Ev_dialog_yesno_timer (msg st) 60000) ;;
      tell (Ev_pdialog pd_reopen)
    else
      _ <- _apply_candidate_on_metadata game_data ;;
      _scanner_update_NFO_file.

(** Called by the ROM scanner. Fills in the ROM metadata.  Three of the
    branches stop at a name the module does not define: the title-only
    branch at [text_format_ROM_title] (line 395; the cleaner is
    [text.format_ROM_title]), after its progress message and before
    [set_name] is called; the NFO branch at [FileName] (line 399; the class
    is [io.FileName]), before the NFO file is read; and the final [raise]
    at [metadata_action] (line 408), while the message of the [ValueError]
    is being formatted. *)
Definition _scanner_process_ROM_metadata : M Scan unit :=
  act <- attr (fun s => metadata_action (sc_self s)) ;;
  if act =? ACTION_META_NONE then ret tt
  else if act =? ACTION_META_TITLE_ONLY then
    verbose <- gets (fun s => debugose (pdialogger (sc_self s))) ;;
    (when (verbose : bool) then
       tell (Ev_pdialog (updateMessage2 "Formatting ROM name..."))) ;;
    ROM_path <- gets (fun s => get_file (sc_rom s)) ;;
    raise NameError
  else if act =? ACTION_META_NFO_FILE then
    ROM_path <- gets (fun s => get_file (sc_rom s)) ;;
    raise NameError
  else if act =? ACTION_META_SCRAPER then
    _scanner_scrap_ROM_metadata
  else raise NameError.

(** *** Asset execution *)

Definition get_assets (AInfo : AssetInfo) (st : status_dic)
  : M SW (option (list pyval) * status_dic) :=
  o <- gets obj ;;
  say (Ev_get_assets AInfo) ;;
  let '(r, st', o') := get_assets_impl AInfo st o in
  on_obj (fun _ => o') ;;
  ret (r, st').

Definition resolve_asset_URL (AInfo : AssetInfo) (selected_asset : pyval)
    (st : status_dic) : M SW (option (pyval * pyval) * status_dic) :=
  o <- gets obj ;;
  say (Ev_resolve_asset_URL AInfo selected_asset) ;;
  let '(r, st', o') := resolve_asset_URL_impl selected_asset st o in
  on_obj (fun _ => o') ;;
  ret (r, st').

Definition resolve_asset_URL_extension (AInfo : AssetInfo)
    (selected_asset image_url : pyval) (st : status_dic)
  : M SW (pyval * status_dic) :=
  o <- gets obj ;;
  say (Ev_resolve_asset_URL_extension AInfo selected_asset image_url) ;;
  let '(r, st', o') :=
    resolve_asset_URL_extension_impl selected_asset image_url st o in
  on_obj (fun _ => o') ;;
  ret (r, st').

(** A value used where a [str] is needed. *)
Definition as_str {S} (v : pyval) : M S string :=
  match v with
  | PStr s => ret s
  | _ => raise TypeError
  end.

Definition show_error_scan (text : string) : M Scan unit :=
  tell (Ev_pdialog pd_close) ;;
  tell (Ev_dialog_yesno_timer text 60000) ;;
  tell (Ev_pdialog pd_reopen).

(** After a scraper call: show the error, if any, and start from a
    fresh status dictionary. *)
Definition after_call (st : status_dic) : M Scan status_dic :=
  if negb (status st) then
    show_error_scan (msg st) ;;
    ret (new_status_dic "No error")
  else ret st.

(** The entry standing for the current local image in the selection
    list. *)
Definition local_asset_entry (asset_info : AssetInfo) (path : string) : pyval :=
  PDict [("asset_ID", PStr (a_id asset_info));
         ("display_name", PStr "Current local image");
         ("url_thumb", PStr path)].

(** The choice among the scraped assets: [None] when the user keeps the
    current local image, otherwise the list and the chosen index.  In the
    mode [SCRAPE_MANUAL] the module [xbmcgui] is used without being
    imported: with a list that is not empty the first round of the loop
    that builds the dialog items raises [NameError] at
    [xbmcgui.ListItem] (line 786); with an empty list the loop is skipped,
    the progress dialog is closed and [xbmcgui.Dialog()] (line 797)
    raises.  No selection dialog is ever opened. *)
Definition select_asset (asset_info : AssetInfo) (local_asset_path : asset_val)
    (assetdata_list : list pyval) : M Scan (option (list pyval * Z)) :=
  mode <- gets (fun s => asset_selection_mode (scraper_settings (sc_self s))) ;;
  if decide (mode = SCRAPE_MANUAL) then
    lf <- (if asset_truthy local_asset_path then
             path <- match local_asset_path with
                     | AFile path => ret path
                     | _ => raise AttributeError
                     end ;;
             ret (local_asset_entry asset_info path :: assetdata_list, true)
           else ret (assetdata_list, false)) ;;
    let '(assetdata_list, local_asset_in_list_flag) := lf in
    match assetdata_list with
    | _ :: _ => raise NameError
    | [] =>
        tell (Ev_pdialog pd_close) ;;
        raise NameError
    end
  else if decide (mode = SCRAPE_AUTOMATIC) then
    ret (Some (assetdata_list, 0))
  else raise AddonError.

(** Returns the path of the downloaded image, or the local asset it was
    given when the scraper finds nothing. *)
Definition _scanner_scrap_ROM_asset (asset_info : AssetInfo)
    (local_asset_path : asset_val) : M Scan asset_val :=
  let asset_name := a_name asset_info in
  let asset_dir_FN := get_asset_path asset_info in
  base <- gets (fun s => getBaseNoExt (get_file (sc_rom s))) ;;
  let asset_path_noext_FN := FN_add asset_dir_FN base in
  name <- with_asset_scraper (gets (fun s => get_name (obj s))) ;;
  verbose <- gets (fun s => debugose (pdialogger (sc_self s))) ;;
  let ret_asset_path := local_asset_path in
  cand <- with_asset_scraper (gets (fun s => candidate (obj s))) ;;
  if is_None cand then ret ret_asset_path
  else if negb (truthy cand) then ret ret_asset_path
  else
  supports <- with_asset_scraper
    (gets (fun s => supports_asset_ID (obj s) (a_id asset_info))) ;;
  if negb supports then ret ret_asset_path
  else
  (when (verbose : bool) then
     tell (Ev_pdialog (updateMessage2
       ("Getting " +:+ asset_name +:+ " images from " +:+ name +:+ "...")))) ;;
  r <- with_asset_scraper (get_assets asset_info (new_status_dic "No error")) ;;
  let '(assetdata_list, st) := r in
  st <- after_call st ;;
  match assetdata_list with
  | None | Some [] => ret ret_asset_path
  | Some assetdata_list =>
  choice <- select_asset asset_info local_asset_path assetdata_list ;;
  match choice with
  | None => ret ret_asset_path
  | Some (assetdata_list, image_selected_index) =>
  selected_asset <-
    lift_result (list_getitem assetdata_list image_selected_index) ;;
  (when (verbose : bool) then
     tell (Ev_pdialog (updateMessage2
       ("Scraping " +:+ asset_name +:+ " with " +:+ name +:+
        " (Resolving URL...)")))) ;;
  r <- with_asset_scraper (resolve_asset_URL asset_info selected_asset st) ;;
  let '(urls, st) := r in
  (* [image_url, image_url_log = ...] fails on [None] *)
  urls <- match urls with
          | Some u => ret u
          | None => raise TypeError
          end ;;
  let '(image_url, image_url_log) := (urls : pyval * pyval) in
  st <- after_call st ;;
  if is_None image_url || negb (truthy image_url) then ret ret_asset_path
  else
  r <- with_asset_scraper
    (resolve_asset_URL_extension asset_info selected_asset image_url st) ;;
  let '(image_ext, st) := r in
  st <- after_call st ;;
  if is_None image_ext || negb (truthy image_ext) then ret ret_asset_path
  else
  (when (verbose : bool) then
     tell (Ev_pdialog (updateMessage2
       ("Downloading " +:+ asset_name +:+ " from " +:+ name +:+ "...")))) ;;
  ext <- as_str image_ext ;;
  let image_local_path := FN_append asset_path_noext_FN ("." +:+ ext) in
  tell (Ev_download_image asset_info image_url image_local_path) ;;
  try_except
    (url <- as_str image_url ;;
     path <- with_asset_scraper
       (download_image net_download_img url image_local_path) ;;
     ret (AFile path))
    (fun _ =>
       show_error_scan
         ("Cannot download " +:+ asset_name +:+ " image (Timeout)") ;;
       ret (AFile image_local_path))
  end end.

(** [ROM.set_asset(AInfo, path)] *)
Definition rom_set_asset (AInfo : AssetInfo) (path : asset_val) : M Scan unit :=
  tell (Ev_set_asset AInfo path) ;;
  on_rom (fun r => set_asset r AInfo path).

(** Modelled from the spec: the trailer setter of the item object, "a
    distinct item-mutation call from all other asset types"; it fills the
    slot of the trailer asset. *)
Definition rom_set_trailer (path : asset_val) : M Scan unit :=
  tell (Ev_set_trailer path) ;;
  on_rom (fun r =>
    with_assets r (<[ASSET_TRAILER_ID := path]> (rom_assets r))).

(** [self.asset_action_list[asset_id]] *)
Definition asset_action (asset_id : string) : M Scan Z :=
  acts <- attr (fun s => asset_action_list (sc_self s)) ;;
  lift_result (map_getitem acts asset_id).

(** The body of the loop over the enabled assets. *)
Definition process_one_asset (AInfo : AssetInfo) : M Scan unit :=
  act <- asset_action (a_id AInfo) ;;
  if act =? ACTION_ASSET_NONE then ret tt
  else
    overwrite <-
      gets (fun s => overwrite_existing (scraper_settings (sc_self s))) ;;
    present <- gets (fun s => has_asset (sc_rom s) AInfo) ;;
    if negb overwrite && present then ret tt
    else
      act <- asset_action (a_id AInfo) ;;
      if act =? ACTION_ASSET_LOCAL_ASSET then
        loc <- local_asset (a_id AInfo) ;;
        rom_set_asset AInfo loc
      else
        act <- asset_action (a_id AInfo) ;;
        if act =? ACTION_ASSET_SCRAPER then
          loc <- local_asset (a_id AInfo) ;;
          asset_path <- _scanner_scrap_ROM_asset AInfo loc ;;
          match asset_path with
          | ANone => ret tt
          | _ =>
              if String.eqb (a_id AInfo) ASSET_TRAILER_ID
              then rom_set_trailer asset_path
              else rom_set_asset AInfo asset_path
          end
        else
          (* the message of the [ValueError] names the index [i], which
             is not defined: [NameError] *)
          raise NameError.

(** Called by the ROM scanner. Fills in the ROM assets. *)
Definition _scanner_process_ROM_assets : M Scan unit :=
  acts <- attr (fun s => asset_action_list (sc_self s)) ;;
  if bool_decide (map_Forall (fun _ act => act = ACTION_ASSET_NONE) acts)
  then ret tt
  else
    enabled <- gets (fun s => enabled_asset_list (sc_self s)) ;;
    for_each enabled process_one_asset.

End Strategy.

(** ** Specification vocabulary and sample objects *)

(** [hoare P c Q]: from a state satisfying [P], the outcome of [c] and the
    state it leaves satisfy [Q]; the outcome may be an exception. *)
Definition hoare {S A} (P : S -> Prop) (c : M S A)
    (Q : result A -> S -> Prop) : Prop :=
  forall s, P s -> Q (c s).1 (c s).2.

(** A step relation that every command of a computation respects is
    respected by the computation, provided it is a preorder. *)
Definition respects {S A} (R : S -> S -> Prop) (c : M S A) : Prop :=
  forall s, R s (c s).2.

Definition settings_example (ignore_bios : bool) : Settings :=
  {| scan_ignore_bios := ignore_bios;
     scraper_aeloffline_addon_code_dir := "/addon";
     scraper_cache_dir_setting := "/cache";
     scan_ignore_scrap_title_setting := false;
     scan_clean_tags_setting := true;
     scan_update_NFO_files_setting := true |}.

Definition filter_example (ignore_bios : bool) (plat : string) : FilterROM :=
  {| f_settings := settings_example ignore_bios; f_platform := plat;
     f_addon_dir := "/addon";
     BIOS_set := Some {["neogeo"]}; Devices_set := Some ∅;
     Mechanical_set := Some ∅ |}.

(** The asset action table of section 4.3 of the written specification,
    row by row: policy, "local exists", "provider supports type". *)
Definition spec_asset_action (policy : scrape_const)
    (local_exists provider_supports : bool) : Z :=
  match policy, local_exists, provider_supports with
  | SCRAPE_POLICY_LOCAL_ONLY, _, _ => ACTION_ASSET_LOCAL_ASSET
  | SCRAPE_POLICY_LOCAL_AND_SCRAPE, true, _ => ACTION_ASSET_LOCAL_ASSET
  | SCRAPE_POLICY_LOCAL_AND_SCRAPE, false, true => ACTION_ASSET_SCRAPER
  | SCRAPE_POLICY_LOCAL_AND_SCRAPE, false, false => ACTION_ASSET_LOCAL_ASSET
  | SCRAPE_POLICY_SCRAPE_ONLY, true, false => ACTION_ASSET_LOCAL_ASSET
  | SCRAPE_POLICY_SCRAPE_ONLY, false, false => ACTION_ASSET_LOCAL_ASSET
  | SCRAPE_POLICY_SCRAPE_ONLY, _, true => ACTION_ASSET_SCRAPER
  | _, _, _ => ACTION_ASSET_NONE
  end.

Definition is_asset_policy (policy : scrape_const) : Prop :=
  policy = SCRAPE_POLICY_LOCAL_ONLY \/
  policy = SCRAPE_POLICY_LOCAL_AND_SCRAPE \/
  policy = SCRAPE_POLICY_SCRAPE_ONLY.

Definition file_example (p pn b bn : string) : FileName :=
  {| getPath := p; getPathNoExt := pn; getBase := b; getBaseNoExt := bn |}.

Definition sonic : FileName :=
  file_example "/roms/Sonic (USA).zip" "/roms/Sonic (USA)"
    "Sonic (USA).zip" "Sonic (USA)".

Definition rom_example (assets : gmap string asset_val) : ROM :=
  {| rom_file := sonic; m_name := PStr ""; m_year := PStr "";
     m_genre := PStr ""; m_developer := PStr ""; m_nplayers := PStr "";
     m_esrb := PStr ""; m_plot := PStr ""; rom_assets := assets |}.

Definition world_example (files : gmap string file) : World :=
  {| fs := files; clock := 0; log := [] |}.

(** A sample scraper object that supports the fanart asset: no error
    counted, the four caches empty and not loaded, no candidate, and
    neither key nor platform recorded yet. *)
Definition scraper_example (disk_cache : bool) : Scraper :=
  {| get_name := "Example"; get_filename := "Example";
     supports_disk_cache := disk_cache;
     supports_asset_ID := fun asset_id => String.eqb asset_id "fanart";
     scraper_cache_dir := scraper_cache_dir_setting (settings_example true);
     exception_counter := 0;
     scraper_disabled := false;
     last_http_call := 0;
     disk_caches := pc_all [];
     disk_caches_loaded := pc_all false;
     disk_caches_dirty := pc_all false;
     candidate := PNone; cache_key := None; platform := None |}.

Definition scraper_settings_example (meta assets : scrape_const)
    (overwrite : bool) : ScraperSettings :=
  {| scrape_metadata_policy := meta; scrape_assets_policy := assets;
     search_term_mode := SCRAPE_AUTOMATIC;
     game_selection_mode := SCRAPE_AUTOMATIC;
     asset_selection_mode := SCRAPE_AUTOMATIC;
     overwrite_existing := overwrite; show_info_verbose := false |}.

Definition fanart : AssetInfo := {| a_id := "fanart"; a_name := "Fanart" |}.
Definition snap : AssetInfo := {| a_id := "snap"; a_name := "Snap" |}.

Definition strategy_example (meta assets : scrape_const) (overwrite : bool)
    (m a : option Scraper) : ScrapeStrategy :=
  {| scraper_settings := scraper_settings_example meta assets overwrite;
     meta_scraper_obj := m; asset_scraper_obj := a;
     scan_ignore_scrap_title := false; scan_clean_tags := true;
     scan_update_NFO_files := true;
     pdialogger := {| debug := false; debugose := false |};
     s_platform := "Sega Genesis";
     enabled_asset_list := [fanart; snap];
     metadata_action := None; NFO_file := None;
     local_asset_list := None; asset_action_list := None |}.

Definition scan_example (x : ScrapeStrategy) (assets : gmap string asset_val)
    (files : gmap string file) : Scan :=
  {| sc_self := x; sc_rom := rom_example assets;
     sc_world := world_example files |}.

(** The state of a scan whose asset plan holds the located local assets
    [L] and the actions [m]. *)
Definition planned (x : ScrapeStrategy) (L : gmap string asset_val)
    (m : gmap string Z) (rom : ROM) (w : World) : Scan :=
  {| sc_self := set_asset_plan (Some L) (Some m) x; sc_rom := rom;
     sc_world := w |}.

(** The table entry of an asset id, given the located local assets. *)
Definition act_of (scraper : Scraper) (policy : scrape_const)
    (L : gmap string asset_val) (asset_id : string) : Z :=
  spec_asset_action policy (asset_truthy (default ANone (L !! asset_id)))
    (supports_asset_ID scraper asset_id).

Definition plan_all (scraper : Scraper) (policy : scrape_const)
    (L : gmap string asset_val) (m : gmap string Z) (l : list AssetInfo)
  : gmap string Z :=
  foldl (fun acc a => <[a_id a := act_of scraper policy L (a_id a)]> acc) m l.

(** An [AssetInfo] is a plain object: it cannot be destructured. *)
Definition unpack2_object (a : AssetInfo) : result (AssetInfo * pyval) :=
  Raise TypeError.

(** The sample scraper, whose [last_http_call] is the instant 0, at the
    instant [now] (microseconds). *)
Definition throttle_example (now : Z) : SW :=
  {| obj := scraper_example true;
     world := {| fs := ∅; clock := now; log := [] |} |}.

(** The operations of the base class on one instance. *)
Inductive base_op : Type :=
  | op_check_candidates_cache (rom_FN : FileName) (plat : string)
  | op_retrieve_from_candidates_cache (rom_FN : FileName) (plat : string)
  | op_set_candidate_from_cache (rom_FN : FileName) (plat : string)
  | op_set_candidate (rom_FN : FileName) (plat : string) (c : pyval)
  | op_clear_cache (rom_FN : FileName) (plat : string)
  | op_flush_disk_cache (pdialog : bool)
  | op_download_image (image_url image_local_path : string)
  | op_handle_error (st : status_dic) (user_msg : string)
  | op_handle_exception (st : status_dic) (user_msg : string)
  | op_wait_for_API_request (wait_time_in_miliseconds : Z).

Definition is_error_op (op : base_op) : bool :=
  match op with
  | op_handle_error _ _ | op_handle_exception _ _ => true
  | _ => false
  end.

Section Session.
Variable os_path_join : string -> string -> string.
Variable net_download_img : string -> string -> result unit.

Definition run_op (op : base_op) : M SW unit :=
  match op with
  | op_check_candidates_cache r p =>
      _ <- check_candidates_cache os_path_join r p ;; ret tt
  | op_retrieve_from_candidates_cache r p =>
      _ <- retrieve_from_candidates_cache r p ;; ret tt
  | op_set_candidate_from_cache r p => set_candidate_from_cache r p
  | op_set_candidate r p c => set_candidate os_path_join r p c
  | op_clear_cache r p => clear_cache os_path_join r p
  | op_flush_disk_cache pd => flush_disk_cache os_path_join pd
  | op_download_image u p =>
      _ <- download_image net_download_img u p ;; ret tt
  | op_handle_error st m => _ <- _handle_error st m ;; ret tt
  | op_handle_exception st m => _ <- _handle_exception st m ;; ret tt
  | op_wait_for_API_request w => _wait_for_API_request w
  end.

(** A session: the operations are applied in turn; an exception ends an
    operation, not the session. *)
Definition run_ops (ops : list base_op) (s : SW) : SW :=
  foldl (fun s op => (run_op op s).2) s ops.
End Session.

Definition count_errors (ops : list base_op) : Z :=
  Z.of_nat (length (filter (fun op => is_error_op op = true) ops)).

(** The error state of an instance is kept. *)
Definition same_errors (s s' : SW) : Prop :=
  exception_counter (obj s') = exception_counter (obj s) /\
  scraper_disabled (obj s') = scraper_disabled (obj s).

(** The written specification on a disabled instance: an operation returns
    an empty or null value and the transport is not invoked (the log gains
    no [Ev_net_download_img]). *)
Definition is_transport (e : event) : bool :=
  match e with Ev_net_download_img _ _ => true | _ => false end.

Definition short_circuits {A} (c : M SW A) (is_empty : A -> bool) (s : SW)
  : Prop :=
  scraper_disabled (obj s) = true ->
  (exists a, (c s).1 = Ok a /\ is_empty a = true) /\
  filter (fun e => is_transport e = true) (log (world (c s).2))
  = filter (fun e => is_transport e = true) (log (world s)).

(** An instance after six recorded errors. *)
Definition six_errors : list base_op :=
  replicate 6 (op_handle_error (new_status_dic "No error") "network down").

(** The invariant of a session: the flag is set exactly when the counter
    has passed the threshold. *)
Definition breaker_consistent (s : SW) : Prop :=
  scraper_disabled (obj s)
  = (EXCEPTION_COUNTER_THRESHOLD <? exception_counter (obj s)).

Section CacheVocabulary.
Variable os_path_join : string -> string -> string.

Definition cache_fname (o : Scraper) (ct : cache_type) (plat : string)
  : string :=
  get_filename o +:+ "__" +:+ plat +:+ "__" +:+ cache_name ct +:+ ".json".

Definition cache_path (o : Scraper) (ct : cache_type) (plat : string)
  : string :=
  os_path_join (scraper_cache_dir o) (cache_fname o ct plat).

(** The cache file of a kind that is not loaded yet cannot be parsed. *)
Definition cache_unreadable (ct : cache_type) (plat : string) (s : SW)
  : Prop :=
  pc_get ct (disk_caches_loaded (obj s)) = false /\
  fs (world s) !! cache_path (obj s) ct plat = Some OtherFile.

(** What a kind holds once it is loaded. *)
Definition cache_contents (ct : cache_type) (plat : string) (s : SW)
  : pydict :=
  if pc_get ct (disk_caches_loaded (obj s))
  then pc_get ct (disk_caches (obj s))
  else match fs (world s) !! cache_path (obj s) ct plat with
       | Some (CacheFile d) => d
       | _ => []
       end.

(** The state after a successful lazy load of a kind. *)
Definition lazy_loaded (ct : cache_type) (plat : string) (s : SW) : SW :=
  if pc_get ct (disk_caches_loaded (obj s)) then s
  else {| obj := set_caches
                   (pc_set ct (cache_contents ct plat s) (disk_caches (obj s)))
                   (pc_set ct true (disk_caches_loaded (obj s)))
                   (pc_set ct false (disk_caches_dirty (obj s))) (obj s);
          world := world s |}.
End CacheVocabulary.

(** The object after [self.disk_caches[ct][key] = data] on a loaded
    kind. *)
Definition cache_updated (ct : cache_type) (key : string) (data : pyval)
    (o : Scraper) : Scraper :=
  set_caches (pc_set ct (dict_set key data (pc_get ct (disk_caches o)))
                (disk_caches o))
             (disk_caches_loaded o)
             (pc_set ct true (disk_caches_dirty o)) o.

(** The object once [set_candidate] has recorded the key, the platform and
    the candidate. *)
Definition candidate_recorded (rom_FN : FileName) (plat : string) (c : pyval)
    (s : SW) : SW :=
  {| obj := set_candidate_attr c
              (set_cache_key_platform (Some (getBase rom_FN)) (Some plat)
                 (obj s));
     world := world s |}.

(** *** Vocabulary for [flush_disk_cache] *)

(** The three conditions under which a kind is written. *)
Definition should_write (o : Scraper) (ct : cache_type) : bool :=
  pc_get ct (disk_caches_loaded o)
  && truthy (PDict (pc_get ct (disk_caches o)))
  && pc_get ct (disk_caches_dirty o).

(** The file writes recorded in a log: path, file name, content. *)
Fixpoint writes (l : list event) : list (string * string * pydict) :=
  match l with
  | [] => []
  | Ev_writeAll p f d :: l' => (p, f, d) :: writes l'
  | _ :: l' => writes l'
  end.

Section FlushVocabulary.
Variable os_path_join : string -> string -> string.

(** The write of one kind. *)
Definition write_of (o : Scraper) (plat : string) (ct : cache_type)
  : string * string * pydict :=
  (cache_path os_path_join o ct plat, cache_fname o ct plat,
   json_dumps (pc_get ct (disk_caches o))).

(** The writes due for the kinds of a list, in the order of the list. *)
Definition due_writes (o : Scraper) (plat : string) (l : list cache_type)
  : list (string * string * pydict) :=
  omap (fun ct => if should_write o ct then Some (write_of o plat ct)
                  else None) l.

(** The writes a flush has to make. *)
Definition expected_writes (o : Scraper) (plat : string)
  : list (string * string * pydict) :=
  due_writes o plat CACHE_LIST.

Definition apply_write (m : gmap string file)
    (w : string * string * pydict) : gmap string file :=
  <[w.1.1 := CacheFile w.2]> m.

(** The state one step of the flush loop leaves. *)
Definition flush_one_state (pdialog : bool) (step_count : Z)
    (plat : string) (ct : cache_type) (s : SW) : SW :=
  let w0 := if pdialog
            then emit (Ev_pdialog (updateProgress step_count)) (world s)
            else world s in
  if should_write (obj s) ct then
    let '(p, f, d) := write_of (obj s) plat ct in
    {| obj := set_caches (disk_caches (obj s)) (disk_caches_loaded (obj s))
                (pc_set ct false (disk_caches_dirty (obj s))) (obj s);
       world := emit (Ev_writeAll p f d) (write_file p (CacheFile d) w0) |}
  else {| obj := obj s; world := w0 |}.

(** The written specification: a flush writes the file of a kind exactly
    when the kind is loaded, not empty and dirty. *)
Definition flush_writes_exactly_when (pdialog : bool) (s : SW) : Prop :=
  forall ct plat, platform (obj s) = Some plat ->
    (exists new, log (world (flush_disk_cache os_path_join pdialog s).2)
                 = new ++ log (world s) /\
                 write_of (obj s) plat ct ∈ writes new)
    <-> should_write (obj s) ct = true.
End FlushVocabulary.

(** A scraper without disk cache support that holds a candidate. *)
Definition offline_with_candidate : SW :=
  (set_candidate (fun d f => d +:+ "/" +:+ f) sonic "Sega Genesis"
     (PDict [("id", PStr "42")])
     {| obj := scraper_example false; world := world_example ∅ |}).2.


(** Nothing but the dirty flags differs between two objects. *)
Definition same_but_dirty (o o' : Scraper) : Prop :=
  get_name o' = get_name o /\
  get_filename o' = get_filename o /\
  supports_disk_cache o' = supports_disk_cache o /\
  scraper_cache_dir o' = scraper_cache_dir o /\
  exception_counter o' = exception_counter o /\
  scraper_disabled o' = scraper_disabled o /\
  last_http_call o' = last_http_call o /\
  disk_caches o' = disk_caches o /\
  disk_caches_loaded o' = disk_caches_loaded o /\
  candidate o' = candidate o /\
  cache_key o' = cache_key o /\
  platform o' = platform o.

(** A scraper with disk cache support that holds a candidate. *)
Definition online_with_candidate : SW :=
  (set_candidate (fun d f => d +:+ "/" +:+ f) sonic "Sega Genesis"
     (PDict [("id", PStr "42")])
     {| obj := scraper_example true; world := world_example ∅ |}).2.

(** *** Vocabulary for the candidate resolution *)

(** No cache kind holds the key. *)
Definition purged (key : string) (o : Scraper) : Prop :=
  forall ct, dict_mem key (pc_get ct (disk_caches o)) = false.

Definition is_search (e : event) : bool :=
  match e with
  | Ev_get_candidates _ _ _ _ _ => true
  | _ => false
  end.

(** The log grew, and by no call of [get_candidates]. *)
Definition no_search_since (s s' : SW) : Prop :=
  exists evs, log (world s') = evs ++ log (world s) /\
              Forall (fun e => is_search e = false) evs.

(** The progress message [_scanner_get_candidate] starts with. *)
Definition searching_message (self : ScrapeStrategy) (o : Scraper)
  : list event :=
  if debugose (pdialogger self)
  then [Ev_pdialog (updateMessage2
          ("Searching games with scraper " +:+ get_name o +:+ "..."))]
  else [].

(** The object with the key and the platform recorded. *)
Definition keyed (rom_FN : FileName) (plat : string) (s : SW) : SW :=
  {| obj := set_cache_key_platform (Some (getBase rom_FN)) (Some plat) (obj s);
     world := world s |}.

Section PurgeVocabulary.
Variable os_path_join : string -> string -> string.

(** The state after one kind has been loaded and purged of the key. *)
Definition purged_one (key : string) (plat : string) (ct : cache_type)
    (s : SW) : SW :=
  let s1 := lazy_loaded os_path_join ct plat s in
  if dict_mem key (pc_get ct (disk_caches (obj s1))) then
    {| obj := set_caches
                (pc_set ct
                   (filter (fun kv => negb (String.eqb key kv.1))
                      (pc_get ct (disk_caches (obj s1))))
                   (disk_caches (obj s1)))
                (disk_caches_loaded (obj s1))
                (pc_set ct true (disk_caches_dirty (obj s1))) (obj s1);
       world := world s1 |}
  else s1.
End PurgeVocabulary.

(** *** Vocabulary for the metadata fallback *)

(** The written specification: with the action "query-provider" and a
    candidate that is null or empty, the NFO sidecar is written back (where
    the user asked for NFO updates). *)
Definition fallback_writes_NFO (format_ROM_title : string -> bool -> string)
    (get_metadata_impl : status_dic -> Scraper -> pyval * status_dic * Scraper)
    (s : Scan) : Prop :=
  forall o,
    metadata_action (sc_self s) = Some ACTION_META_SCRAPER ->
    meta_scraper_obj (sc_self s) = Some o ->
    truthy (candidate o) = false ->
    scan_update_NFO_files (sc_self s) = true ->
    exists romdata,
      Ev_export_ROM_NFO romdata
      ∈ log (sc_world (_scanner_process_ROM_metadata format_ROM_title
                         get_metadata_impl s).2).

(** A scan whose metadata scraper holds the candidate [c]; the action is
    "query-provider" and NFO files are to be updated. *)
Definition metadata_scan_example (c : pyval) : Scan :=
  {| sc_self :=
       set_meta_plan (Some ACTION_META_SCRAPER) None
         (strategy_example SCRAPE_POLICY_SCRAPE_ONLY SCRAPE_POLICY_LOCAL_ONLY
            false (Some (set_candidate_attr c (scraper_example true))) None);
     sc_rom := rom_example ∅;
     sc_world := world_example ∅ |}.

(** A title cleaner for the examples: the name up to the first " (". *)
Fixpoint title_prefix (s : string) : string :=
  match s with
  | EmptyString => EmptyString
  | String c s' =>
      if String.prefix " (" s then EmptyString else String c (title_prefix s')
  end.

Definition title_example (name : string) (clean_tags : bool) : string :=
  if clean_tags then title_prefix name else name.

(** *** Vocabulary for the asset execution *)

(** The asset an event is about, if any; [trailer] is
    [constants.ASSET_TRAILER_ID]. *)
Definition event_asset (trailer : string) (e : event) : option string :=
  match e with
  | Ev_get_assets A
  | Ev_resolve_asset_URL A _
  | Ev_resolve_asset_URL_extension A _ _
  | Ev_download_image A _ _
  | Ev_set_asset A _ => Some (a_id A)
  | Ev_set_trailer _ => Some trailer
  | _ => None
  end.

(** The scraper acted, but not for the asset [asset_id]. *)
Definition quiet_about (trailer asset_id : string) (s s' : SW) : Prop :=
  exists evs, log (world s') = evs ++ log (world s) /\
              Forall (fun e => event_asset trailer e <> Some asset_id) evs.

(** The scan went on without touching the asset [asset_id]: its slot, the
    settings and the plan are as before and no event is about it. *)
Definition untouched (trailer asset_id : string) (s s' : Scan) : Prop :=
  asset_slot (sc_rom s') asset_id = asset_slot (sc_rom s) asset_id /\
  scraper_settings (sc_self s') = scraper_settings (sc_self s) /\
  asset_action_list (sc_self s') = asset_action_list (sc_self s) /\
  local_asset_list (sc_self s') = local_asset_list (sc_self s) /\
  exists evs, log (sc_world s') = evs ++ log (sc_world s) /\
              Forall (fun e => event_asset trailer e <> Some asset_id) evs.

(** A scan with the fanart already on the ROM, local files for the fanart
    and the snap, and the plan "use local" for both. *)
Definition assets_scan_example (overwrite : bool) : Scan :=
  {| sc_self :=
       set_asset_plan
         (Some (<["fanart" := AFile "/new/fanart.png"]>
                  (<["snap" := AFile "/local/snap.png"]> ∅)))
         (Some (<["fanart" := ACTION_ASSET_LOCAL_ASSET]>
                  (<["snap" := ACTION_ASSET_LOCAL_ASSET]> ∅)))
         (strategy_example SCRAPE_POLICY_TITLE_ONLY SCRAPE_POLICY_LOCAL_ONLY
            overwrite None (Some (scraper_example true)));
     sc_rom := rom_example (<["fanart" := AFile "/old/fanart.png"]> ∅);
     sc_world := world_example ∅ |}.

(** *** Vocabulary for the further properties of the caches *)

(** Two objects differ at most in their cache maps and the flags of the
    caches. *)
Definition same_but_caches (o o' : Scraper) : Prop :=
  o' = set_caches (disk_caches o') (disk_caches_loaded o')
         (disk_caches_dirty o') o.

(** A session on a cache directory that holds the given files: the sample
    scraper with the key of the sample ROM and its platform recorded. *)
Definition session_example (files : gmap string file) : SW :=
  keyed sonic "Sega Genesis"
    {| obj := scraper_example true; world := world_example files |}.

(** The path of the candidates file of the sample scraper. *)
Definition candidates_file_example : string :=
  "/cache/Example__Sega Genesis__candidates.json".

(** *** Vocabulary for the further properties of the candidate search *)

(** The events of the error dialog the scanner shows for a status
    dictionary, latest first. *)
Definition error_dialog (st : status_dic) : list event :=
  if status st then []
  else [Ev_pdialog pd_reopen; Ev_dialog_yesno_timer (msg st) 60000;
        Ev_pdialog pd_close].


(** No loaded flag has been cleared between two states. *)
Definition keeps_loaded (s s' : SW) : Prop :=
  forall ct, pc_get ct (disk_caches_loaded (obj s)) = true ->
             pc_get ct (disk_caches_loaded (obj s')) = true.

(** The sample strategy with a game selection mode. *)
Definition strategy_with_mode (mode : scrape_const) : ScrapeStrategy :=
  let x := strategy_example SCRAPE_POLICY_SCRAPE_ONLY SCRAPE_POLICY_LOCAL_ONLY
             false None None in
  {| scraper_settings :=
       {| scrape_metadata_policy := SCRAPE_POLICY_SCRAPE_ONLY;
          scrape_assets_policy := SCRAPE_POLICY_LOCAL_ONLY;
          search_term_mode := SCRAPE_AUTOMATIC;
          game_selection_mode := mode;
          asset_selection_mode := SCRAPE_AUTOMATIC;
          overwrite_existing := false; show_info_verbose := false |};
     meta_scraper_obj := None; asset_scraper_obj := None;
     scan_ignore_scrap_title := false; scan_clean_tags := true;
     scan_update_NFO_files := true;
     pdialogger := pdialogger x;
     s_platform := s_platform x;
     enabled_asset_list := enabled_asset_list x;
     metadata_action := None; NFO_file := None;
     local_asset_list := None; asset_action_list := None |}.

(** Two candidates as a scraper returns them. *)
Definition candidate_example (id name : string) : pyval :=
  PDict [("id", PStr id); ("display_name", PStr name)].

(** A scraper at the start of a scan, over a cache directory with the given
    files. *)
Definition scan_start_example (files : gmap string file) : SW :=
  {| obj := scraper_example true; world := world_example files |}.

(** *** Vocabulary for the further properties of the metadata scrape *)

(** The progress message [_scanner_scrap_ROM_metadata] starts with. *)
Definition scraping_message (self : ScrapeStrategy) (o : Scraper)
  : list event :=
  if debug (pdialogger self)
  then [Ev_pdialog (updateMessage2
          ("Scraping metadata with " +:+ get_name o +:+ "..."))]
  else [].

(** How [_scanner_update_NFO_file] ends: normally when NFO updates are
    switched off, and with the [NameError] of the export call when they
    are switched on. *)
Definition NFO_update_result (self : ScrapeStrategy) : result unit :=
  if scan_update_NFO_files self then Raise NameError else Ok tt.

(** The keys of a game record other than the title, in the order in which
    they are applied. *)
Definition gamedata_fields : list string :=
  ["year"; "genre"; "developer"; "nplayers"; "esrb"; "plot"].

(** A game record as a scraper returns it. *)
Definition gamedata_example : pyval :=
  PDict [("title", PStr "Sonic The Hedgehog"); ("year", PStr "1991");
         ("genre", PStr "Platform"); ("developer", PStr "Sonic Team");
         ("nplayers", PStr "1"); ("esrb", PStr "E"); ("plot", PStr "Rings.")].

(** The status dictionary of a scraper call that failed. *)
Definition error_status_example : status_dic :=
  {| status := false; dialog := KODI_MESSAGE_DIALOG;
     msg := "Network error" |}.

(** A scan whose metadata scraper holds a candidate found earlier. *)
Definition metadata_scrape_example : Scan :=
  metadata_scan_example (candidate_example "1" "Sonic").

(** The scraper object of that scan. *)
Definition metadata_scraper_example : Scraper :=
  set_candidate_attr (candidate_example "1" "Sonic") (scraper_example true).

(** *** Vocabulary for the further properties of the asset scrape *)

(** A progress message that is shown only in verbose mode. *)
Definition verbose_message (self : ScrapeStrategy) (text : string)
  : list event :=
  if debugose (pdialogger self) then [Ev_pdialog (updateMessage2 text)]
  else [].

(** The dialog shown when the download of an image fails, latest event
    first. *)
Definition download_error_dialog (asset_name : string) : list event :=
  [Ev_pdialog pd_reopen;
   Ev_dialog_yesno_timer
     ("Cannot download " +:+ asset_name +:+ " image (Timeout)") 60000;
   Ev_pdialog pd_close].

(** A scan whose asset scraper holds a candidate found earlier; the plan is
    to scrape the fanart. *)
Definition asset_scrape_example : Scan :=
  {| sc_self :=
       set_asset_plan
         (Some (<["fanart" := AFile "/local/fanart.png"]> ∅))
         (Some (<["fanart" := ACTION_ASSET_SCRAPER]> ∅))
         (strategy_example SCRAPE_POLICY_TITLE_ONLY SCRAPE_POLICY_SCRAPE_ONLY
            true None (Some metadata_scraper_example));
     sc_rom := rom_example ∅;
     sc_world := world_example ∅ |}.

(** An image record as a scraper returns it. *)
Definition assetdata_example (name url : string) : pyval :=
  PDict [("asset_ID", PStr "fanart"); ("display_name", PStr name);
         ("url_thumb", PStr url); ("url", PStr url)].

(** What the execution of a "use local" action leaves in a slot: the located
    local asset when the item may be overwritten or has nothing there, the
    old value otherwise. *)
Definition local_plan_slot (overwrite : bool) (L : gmap string asset_val)
    (rom : ROM) (asset_id : string) : asset_val :=
  if overwrite || negb (asset_truthy (asset_slot rom asset_id))
  then default ANone (L !! asset_id)
  else asset_slot rom asset_id.

Definition is_set_asset (e : event) : bool :=
  match e with
  | Ev_set_asset _ _ => true
  | _ => false
  end.

(** ** The global disk caches of the provider base class *)

(** The three attributes [global_disk_caches], [global_disk_caches_loaded]
    and [global_disk_caches_dirty], dictionaries keyed by the cache type. *)
Record GlobalCaches : Type := {
  global_disk_caches : gmap string pyval;
  global_disk_caches_loaded : gmap string bool;
  global_disk_caches_dirty : gmap string bool;
}.

(** The global caches of a scraper together with the world. *)
Record GW : Type := {
  gobj : GlobalCaches;
  gworld : World;
}.

Definition on_gobj (f : GlobalCaches -> GlobalCaches) : M GW unit :=
  modify (fun s => {| gobj := f (gobj s); gworld := gworld s |}).

(** [s.decode('utf-8')] on a [str]: the type has no such method. *)
Definition str_decode (s : string) : result string := Raise AttributeError.

Section GlobalCache.
Variable os_path_join : string -> string -> string.

(** [self.scraper_cache_dir] *)
Variable cache_dir : string.

Definition _get_global_file_name (ct : string) : M GW (string * string) :=
  let json_fname := ct +:+ ".json" in
  json_full_path <- lift_result (str_decode (os_path_join cache_dir json_fname)) ;;
  ret (json_full_path, json_fname).

Definition _load_global_cache (ct : string) : M GW unit :=
  names <- _get_global_file_name ct ;;
  let '(json_file_path, json_fname) := names in
  f <- gets (fun s => fs (gworld s) !! json_file_path) ;;
  d <- match f with
       | Some (CacheFile d) => ret (PDict d)
       | Some OtherFile => raise ValueError
       | None => ret (PDict [])
       end ;;
  on_gobj (fun g =>
    {| global_disk_caches := <[ct := d]> (global_disk_caches g);
       global_disk_caches_loaded := <[ct := true]> (global_disk_caches_loaded g);
       global_disk_caches_dirty := <[ct := false]> (global_disk_caches_dirty g) |}).

Definition _lazy_load_global_disk_cache (ct : string) : M GW unit :=
  loaded <- (s <- gets (fun s => global_disk_caches_loaded (gobj s)) ;;
             lift_result (map_getitem s ct)) ;;
  if negb loaded then _load_global_cache ct else ret tt.

Definition _retrieve_global_cache (ct : string) : M GW pyval :=
  d <- gets (fun s => global_disk_caches (gobj s)) ;;
  lift_result (map_getitem d ct).

Definition _check_global_cache (ct : string) : M GW pyval :=
  _lazy_load_global_disk_cache ct ;;
  d <- gets (fun s => global_disk_caches (gobj s)) ;;
  lift_result (map_getitem d ct).

Definition _reset_global_cache (ct : string) : M GW unit :=
  on_gobj (fun g =>
    {| global_disk_caches := <[ct := PDict []]> (global_disk_caches g);
       global_disk_caches_loaded := global_disk_caches_loaded g;
       global_disk_caches_dirty := <[ct := true]> (global_disk_caches_dirty g) |}).

Definition _update_global_cache (ct : string) (data : pyval) : M GW unit :=
  _lazy_load_global_disk_cache ct ;;
  on_gobj (fun g =>
    {| global_disk_caches := <[ct := data]> (global_disk_caches g);
       global_disk_caches_loaded := global_disk_caches_loaded g;
       global_disk_caches_dirty := <[ct := true]> (global_disk_caches_dirty g) |}).

(** The calls a client can make on the global caches. *)
Inductive global_op : Type :=
  | G_load (ct : string)
  | G_lazy_load (ct : string)
  | G_check (ct : string)
  | G_retrieve (ct : string)
  | G_reset (ct : string)
  | G_update (ct : string) (data : pyval).

(** One call; its result is dropped, an exception is caught by the
    client. *)
Definition run_global_op (op : global_op) (s : GW) : GW :=
  match op with
  | G_load ct => (_load_global_cache ct s).2
  | G_lazy_load ct => (_lazy_load_global_disk_cache ct s).2
  | G_check ct => (_check_global_cache ct s).2
  | G_retrieve ct => (_retrieve_global_cache ct s).2
  | G_reset ct => (_reset_global_cache ct s).2
  | G_update ct data => (_update_global_cache ct data s).2
  end.

Definition run_global_ops (ops : list global_op) (s : GW) : GW :=
  foldl (fun s op => run_global_op op s) s ops.
End GlobalCache.

(** ** The scraper settings object *)

(** The attributes of [ScraperSettings] that the methods of the decision
    engine do not read: the two scraper ids and the asset ids to scrape. *)
Record ScraperSettingsIDs : Type := {
  metadata_scraper_ID : string;
  assets_scraper_ID : string;
  asset_IDs_to_scrape : list string;
}.

Section ScraperSettingsMethods.
(** [constants.SCRAPER_NULL_ID] and [constants.ROM_ASSET_ID_LIST] *)
Variable SCRAPER_NULL_ID : string.
Variable ROM_ASSET_ID_LIST : list string.

(** [ScraperSettings.__init__] *)
Definition ScraperSettings_init : ScraperSettings * ScraperSettingsIDs :=
  ({| scrape_metadata_policy := SCRAPE_POLICY_TITLE_ONLY;
      scrape_assets_policy := SCRAPE_POLICY_LOCAL_ONLY;
      search_term_mode := SCRAPE_AUTOMATIC;
      game_selection_mode := SCRAPE_AUTOMATIC;
      asset_selection_mode := SCRAPE_AUTOMATIC;
      overwrite_existing := false;
      show_info_verbose := false |},
   {| metadata_scraper_ID := SCRAPER_NULL_ID;
      assets_scraper_ID := SCRAPER_NULL_ID;
      asset_IDs_to_scrape := ROM_ASSET_ID_LIST |}).

(** [get_data_dic]: a dictionary with four entries. *)
Definition get_data_dic (self : ScraperSettings) : gmap string scrape_const :=
  <["scrape_metadata_policy" := scrape_metadata_policy self]>
    (<["scrape_assets_policy" := scrape_assets_policy self]>
       (<["game_selection_mode" := game_selection_mode self]>
          (<["asset_selection_mode" := asset_selection_mode self]> ∅))).

(** [from_settings_dict], on the settings dictionary as far as it is read:
    four keys that hold policy and mode constants. *)
Definition from_settings_dict (settings : gmap string scrape_const)
  : result (ScraperSettings * ScraperSettingsIDs) :=
  let '(scraper_settings, ids) := ScraperSettings_init in
  match map_getitem settings "scan_metadata_policy" with
  | Raise e => Raise e
  | Ok mp =>
  match map_getitem settings "scan_asset_policy" with
  | Raise e => Raise e
  | Ok ap =>
  match map_getitem settings "game_selection_mode" with
  | Raise e => Raise e
  | Ok gm =>
  match map_getitem settings "asset_selection_mode" with
  | Raise e => Raise e
  | Ok am =>
      Ok ({| scrape_metadata_policy := mp;
             scrape_assets_policy := ap;
             search_term_mode := search_term_mode scraper_settings;
             game_selection_mode := gm;
             asset_selection_mode := am;
             overwrite_existing := overwrite_existing scraper_settings;
             show_info_verbose := show_info_verbose scraper_settings |}, ids)
  end end end end.
End ScraperSettingsMethods.

(** ** The record templates of the provider base class *)

Definition _new_candidate_dic : pydict :=
  [("id", PStr ""); ("display_name", PStr ""); ("platform", PStr "");
   ("scraper_platform", PStr ""); ("order", PInt 0)].

Definition _new_gamedata_dic : pydict :=
  [("title", PStr ""); ("year", PStr ""); ("genre", PStr "");
   ("developer", PStr ""); ("nplayers", PStr ""); ("esrb", PStr "");
   ("plot", PStr "")].

Definition _new_assetdata_dic : pydict :=
  [("asset_ID", PNone); ("display_name", PStr ""); ("url_thumb", PStr "");
   ("url", PStr ""); ("downloadable", PBool true)].

(** A record a scraper fills in: a template after any number of
    assignments [d[k] = v]. *)
Definition filled_in (template : pydict) (updates : list (string * pyval))
  : pydict :=
  foldl (fun d kv => dict_set kv.1 kv.2 d) template updates.

(** The settings dictionary of the examples. *)
Definition settings_dict_example : gmap string scrape_const :=
  <["scan_metadata_policy" := SCRAPE_POLICY_SCRAPE_ONLY]>
    (<["scan_asset_policy" := SCRAPE_POLICY_LOCAL_AND_SCRAPE]>
       (<["game_selection_mode" := SCRAPE_MANUAL]>
          (<["asset_selection_mode" := SCRAPE_AUTOMATIC]> ∅))).

(** *** Vocabulary for the order of the keys in the written files *)

(** The scraper with the same entries in its caches, in another order of
    insertion. *)
Definition reordered_caches (reordered : per_cache pydict) (s : SW) : SW :=
  {| obj := set_caches reordered (disk_caches_loaded (obj s))
              (disk_caches_dirty (obj s)) (obj s);
     world := world s |}.

(** The sample candidate stored with its keys in the other order. *)
Definition reordered_example : per_cache pydict :=
  pc_set CACHE_CANDIDATES
    [("Sonic (USA).zip", PDict [("id", PStr "42")]);
     ("Alex Kidd.zip", PDict [("id", PStr "7")])]
    (pc_all []).

Definition two_candidates_example : SW :=
  (set_candidate (fun d f => d +:+ "/" +:+ f)
     (file_example "/roms/Sonic (USA).zip" "/roms/Sonic (USA)"
        "Sonic (USA).zip" "Sonic (USA)")
     "Sega Genesis" (PDict [("id", PStr "42")])
     (set_candidate (fun d f => d +:+ "/" +:+ f)
        (file_example "/roms/Alex Kidd.zip" "/roms/Alex Kidd"
           "Alex Kidd.zip" "Alex Kidd")
        "Sega Genesis" (PDict [("id", PStr "7")])
        {| obj := scraper_example true; world := world_example ∅ |}).2).2.

(** * Properties *)

(** ** Reasoning about the monad *)

Lemma hoare_ret {S A} (P : S -> Prop) (a : A) (Q : result A -> S -> Prop) :
  (forall s, P s -> Q (Ok a) s) -> hoare P (ret a) Q.
Proof. intros H s Hs. apply H, Hs. Qed.

Lemma hoare_raise {S A} (P : S -> Prop) e (Q : result A -> S -> Prop) :
  (forall s, P s -> Q (Raise e) s) -> hoare P (raise e) Q.
Proof. intros H s Hs. apply H, Hs. Qed.

Lemma hoare_bind {S A B} (P : S -> Prop) (c : M S A) (k : A -> M S B)
    (Mid : A -> S -> Prop) (Q : result B -> S -> Prop) :
  hoare P c (fun r s => match r with
                        | Ok a => Mid a s
                        | Raise e => Q (Raise e) s
                        end) ->
  (forall a, hoare (Mid a) (k a) Q) ->
  hoare P (bind c k) Q.
Proof.
  intros Hc Hk s Hs. specialize (Hc s Hs). unfold bind.
  destruct (c s) as [[a|e] s']; simpl in *.
  - apply (Hk a s' Hc).
  - exact Hc.
Qed.

Lemma hoare_gets {S A} (P : S -> Prop) (f : S -> A) (Q : result A -> S -> Prop) :
  (forall s, P s -> Q (Ok (f s)) s) -> hoare P (gets f) Q.
Proof. intros H s Hs. apply H, Hs. Qed.

Lemma hoare_modify {S} (P : S -> Prop) (f : S -> S) (Q : result unit -> S -> Prop) :
  (forall s, P s -> Q (Ok tt) (f s)) -> hoare P (modify f) Q.
Proof. intros H s Hs. apply H, Hs. Qed.

Lemma hoare_lift_result {S A} (P : S -> Prop) (r : result A)
    (Q : result A -> S -> Prop) :
  (forall s, P s -> Q r s) -> hoare P (lift_result r) Q.
Proof. intros H s Hs. apply H, Hs. Qed.

Lemma hoare_attr {S A} (P : S -> Prop) (f : S -> option A)
    (Q : result A -> S -> Prop) :
  (forall s, P s -> match f s with
                    | Some a => Q (Ok a) s
                    | None => Q (Raise AttributeError) s
                    end) ->
  hoare P (attr f) Q.
Proof.
  intros H s Hs. specialize (H s Hs). unfold attr.
  destruct (f s); exact H.
Qed.

Lemma hoare_weaken {S A} (P P' : S -> Prop) (c : M S A)
    (Q Q' : result A -> S -> Prop) :
  hoare P' c Q' ->
  (forall s, P s -> P' s) ->
  (forall r s, Q' r s -> Q r s) ->
  hoare P c Q.
Proof. intros H HP HQ s Hs. apply HQ, H, HP, Hs. Qed.

Section Respects.
Context {S : Type} (R : S -> S -> Prop) `{!PreOrder R}.

Lemma respects_ret {A} (a : A) : respects R (ret a).
Proof. intros s. reflexivity. Qed.

Lemma respects_raise {A} e : respects R (@raise S A e).
Proof. intros s. reflexivity. Qed.

Lemma respects_gets {A} (f : S -> A) : respects R (gets f).
Proof. intros s. reflexivity. Qed.

Lemma respects_lift_result {A} (r : result A) : respects R (lift_result r).
Proof. intros s. reflexivity. Qed.

Lemma respects_attr {A} (f : S -> option A) : respects R (attr f).
Proof. intros s. unfold attr. destruct (f s); reflexivity. Qed.

Lemma respects_bind {A B} (c : M S A) (k : A -> M S B) :
  respects R c -> (forall a, respects R (k a)) -> respects R (bind c k).
Proof.
  intros Hc Hk s. unfold bind. specialize (Hc s).
  destruct (c s) as [[a|e] s']; simpl in *; [|exact Hc].
  etrans; [exact Hc | apply Hk].
Qed.

Lemma respects_try_except {A} (c : M S A) (h : exn -> M S A) :
  respects R c -> (forall e, respects R (h e)) -> respects R (try_except c h).
Proof.
  intros Hc Hh s. unfold try_except. specialize (Hc s).
  destruct (c s) as [[a|e] s']; simpl in *; [exact Hc|].
  etrans; [exact Hc | apply Hh].
Qed.

Lemma respects_for_each {A} (l : list A) (body : A -> M S unit) :
  (forall x, x ∈ l -> respects R (body x)) -> respects R (for_each l body).
Proof.
  induction l as [|x l IH]; intros H; simpl.
  - apply respects_ret.
  - apply respects_bind.
    + apply H. left.
    + intros _. apply IH. intros y Hy. apply H. right. exact Hy.
Qed.

Lemma respects_for_each_acc {A B} (l : list A) (body : B -> A -> M S B) :
  (forall acc x, x ∈ l -> respects R (body acc x)) ->
  forall acc, respects R (for_each_acc l acc body).
Proof.
  induction l as [|x l IH]; intros H acc; simpl.
  - apply respects_ret.
  - apply respects_bind.
    + apply H. left.
    + intros acc'. apply IH. intros a y Hy. apply H. right. exact Hy.
Qed.

Lemma respects_modify (f : S -> S) :
  (forall s, R s (f s)) -> respects R (modify f).
Proof. intros H s. apply H. Qed.
End Respects.

(** One step of the decomposition of a computation into its commands. *)
Ltac respects_step :=
  lazymatch goal with
  | |- respects _ (bind _ _) => apply respects_bind; [try apply _ | |intros ?]
  | |- respects _ (ret _) => apply respects_ret; apply _
  | |- respects _ (raise _) => apply respects_raise; apply _
  | |- respects _ (gets _) => apply respects_gets; apply _
  | |- respects _ (lift_result _) => apply respects_lift_result; apply _
  | |- respects _ (attr _) => apply respects_attr; apply _
  | |- respects _ (try_except _ _) =>
      apply respects_try_except; [try apply _ | |intros ?]
  | |- respects _ (for_each _ _) =>
      apply respects_for_each; [try apply _ |intros ? _]
  | |- respects _ (for_each_acc _ _ _) =>
      apply respects_for_each_acc; [try apply _ |intros ? ? _]
  | |- respects _ (if ?b then _ else _) => destruct b
  | |- respects _ (match ?x with _ => _ end) => destruct x
  end.

(** ** FilterROM *)

(** C10.  Whatever the platform, the loaded MAME sets and the basename,
    [ROM_is_filtered] answers [False] when the setting
    ['scan_ignore_bios'] is false: no filtering rule is consulted. *)
Theorem ROM_is_filtered_off (PLATFORM_MAME_LONG : string) (self : FilterROM)
    (basename : string) :
  scan_ignore_bios (f_settings self) = false ->
  ROM_is_filtered PLATFORM_MAME_LONG self basename = Ok false.
Proof.
  intros Hoff. unfold ROM_is_filtered. rewrite Hoff. reflexivity.
Qed.

Lemma ROM_is_filtered_off_witness :
  ROM_is_filtered "MAME" (filter_example false "MAME") "neogeo" = Ok false
  /\ ROM_is_filtered "MAME" (filter_example false "Sega 32X")
       "[BIOS] Sega 32X (USA).zip" = Ok false.
Proof.
  split; apply ROM_is_filtered_off; reflexivity.
Defined.

(** With the setting on, the same inputs are filtered. *)
Example ROM_is_filtered_on_MAME :
  ROM_is_filtered "MAME" (filter_example true "MAME") "neogeo" = Ok true.
Proof. vm_compute. reflexivity. Qed.

Example ROM_is_filtered_on_NoIntro :
  ROM_is_filtered "MAME" (filter_example true "Sega 32X")
    "[BIOS] Sega 32X (USA).zip" = Ok true.
Proof. vm_compute. reflexivity. Qed.

Example ROM_is_filtered_on_game :
  ROM_is_filtered "MAME" (filter_example true "Sega 32X")
    "Doom (USA).zip" = Ok false.
Proof. vm_compute. reflexivity. Qed.

(** A ROM is reported as filtered only when the setting is on. *)
Lemma ROM_is_filtered_true_inv (PLATFORM_MAME_LONG : string) (self : FilterROM)
    (basename : string) :
  ROM_is_filtered PLATFORM_MAME_LONG self basename = Ok true ->
  scan_ignore_bios (f_settings self) = true.
Proof.
  intros H. destruct (scan_ignore_bios (f_settings self)) eqn:E; [reflexivity|].
  unfold ROM_is_filtered in H. rewrite E in H. discriminate.
Qed.

(** ** Planning: the metadata action *)

(** C1.  [_scanner_process_ROM_metadata_begin] follows the table of
    section 4.3: without a metadata scraper the action is "none" whatever
    the policy and the NFO file; with one, title-only gives
    clean-title-only, NFO-preferred gives read-NFO when the NFO sidecar
    exists and clean-title-only otherwise, NFO-then-provider gives read-NFO
    when it exists and query-provider otherwise, provider-only gives
    query-provider.  In each of these cases the method returns normally. *)
Theorem metadata_action_table (s : Scan) :
  let out := _scanner_process_ROM_metadata_begin s in
  let NFO_found :=
    is_Some (fs (sc_world s) !! (getPathNoExt (get_file (sc_rom s)) +:+ ".nfo")) in
  let policy := scrape_metadata_policy (scraper_settings (sc_self s)) in
  let chosen act :=
    out.1 = Ok tt /\ metadata_action (sc_self out.2) = Some act in
  (meta_scraper_obj (sc_self s) = None -> chosen ACTION_META_NONE) /\
  (is_Some (meta_scraper_obj (sc_self s)) ->
    (policy = SCRAPE_POLICY_TITLE_ONLY -> chosen ACTION_META_TITLE_ONLY) /\
    (policy = SCRAPE_POLICY_NFO_PREFERED -> NFO_found ->
       chosen ACTION_META_NFO_FILE) /\
    (policy = SCRAPE_POLICY_NFO_PREFERED -> ~ NFO_found ->
       chosen ACTION_META_TITLE_ONLY) /\
    (policy = SCRAPE_POLICY_NFO_AND_SCRAPE -> NFO_found ->
       chosen ACTION_META_NFO_FILE) /\
    (policy = SCRAPE_POLICY_NFO_AND_SCRAPE -> ~ NFO_found ->
       chosen ACTION_META_SCRAPER) /\
    (policy = SCRAPE_POLICY_SCRAPE_ONLY -> chosen ACTION_META_SCRAPER)).
Proof.
  destruct s as [self rom w]. cbv zeta.
  unfold _scanner_process_ROM_metadata_begin, bind, gets, on_self, modify, raise.
  cbn [sc_self sc_rom sc_world fst snd].
  destruct (meta_scraper_obj self) as [o|] eqn:Ho.
  - split; [discriminate|]. intros _. cbn.
    destruct (scrape_metadata_policy (scraper_settings self));
      destruct (bool_decide_reflect
        (is_Some (fs w !! (getPathNoExt (get_file rom) +:+ ".nfo"))));
      cbn; repeat split; intros; try discriminate; try contradiction;
      reflexivity.
  - split; [intros _; split; reflexivity|].
    intros [x Hx]. discriminate.
Qed.

Lemma metadata_action_table_witness :
  let s := scan_example
    (strategy_example SCRAPE_POLICY_NFO_AND_SCRAPE SCRAPE_POLICY_LOCAL_ONLY
       false (Some (scraper_example true)) None) ∅ ∅ in
  let out := _scanner_process_ROM_metadata_begin s in
  out.1 = Ok tt /\ metadata_action (sc_self out.2) = Some ACTION_META_SCRAPER.
Proof.
  cbv zeta.
  edestruct (metadata_action_table (scan_example
    (strategy_example SCRAPE_POLICY_NFO_AND_SCRAPE SCRAPE_POLICY_LOCAL_ONLY
       false (Some (scraper_example true)) None) ∅ ∅)) as [_ H].
  destruct H as (_ & _ & _ & _ & H & _).
  - eexists; reflexivity.
  - apply H; [reflexivity|]. intros [f Hf]. vm_compute in Hf. discriminate.
Defined.

(** The four metadata actions are pairwise distinct, and an unknown policy
    value is rejected. *)
Lemma metadata_actions_distinct :
  ACTION_META_NONE <> ACTION_META_TITLE_ONLY /\
  ACTION_META_NONE <> ACTION_META_NFO_FILE /\
  ACTION_META_NONE <> ACTION_META_SCRAPER /\
  ACTION_META_TITLE_ONLY <> ACTION_META_NFO_FILE /\
  ACTION_META_TITLE_ONLY <> ACTION_META_SCRAPER /\
  ACTION_META_NFO_FILE <> ACTION_META_SCRAPER.
Proof. repeat split; discriminate. Qed.

(** ** Planning: the asset actions *)

Section AssetPlanning.
  Variable unpack2 : AssetInfo -> result (AssetInfo * pyval).
  Variable get_local_assets : ROM -> list AssetInfo -> gmap string asset_val.

Lemma plan_one_asset_step scraper policy a x L m rom w loc :
  is_asset_policy policy ->
  L !! a_id a = Some loc ->
  plan_one_asset scraper policy a (planned x L m rom w) =
    (Ok tt, planned x L
       (<[a_id a := spec_asset_action policy (asset_truthy loc)
                      (supports_asset_ID scraper (a_id a))]> m) rom w).
Proof.
  intros Hp HL.
  unfold plan_one_asset, local_asset, set_asset_action, bind, attr, lift_result,
    map_getitem, on_self, modify, ret, raise, planned.
  destruct (asset_truthy loc) eqn:Et,
    (supports_asset_ID scraper (a_id a)) eqn:Es;
  destruct Hp as [-> | [-> | ->]]; repeat (case_decide; try congruence);
    repeat (cbn -[lookup insert]; rewrite ?HL, ?Et); reflexivity.
Qed.

Lemma plan_loop scraper policy x L rom w l : forall m,
  is_asset_policy policy ->
  (forall a, a ∈ l -> is_Some (L !! a_id a)) ->
  for_each l (plan_one_asset scraper policy) (planned x L m rom w) =
    (Ok tt, planned x L (plan_all scraper policy L m l) rom w).
Proof.
  induction l as [|a l IH]; intros m Hp HL; [reflexivity|].
  destruct (HL a) as [loc Hloc]; [left|].
  cbn [for_each]. unfold bind at 1.
  rewrite (plan_one_asset_step _ _ _ _ _ _ _ _ loc Hp Hloc).
  rewrite IH; [|exact Hp|intros b Hb; apply HL; right; exact Hb].
  cbn [plan_all foldl]. unfold act_of at 2. rewrite Hloc. reflexivity.
Qed.

Lemma plan_all_lookup scraper policy L l : forall m a,
  a ∈ l ->
  plan_all scraper policy L m l !! a_id a = Some (act_of scraper policy L (a_id a)).
Proof.
  induction l as [|b l IH] using rev_ind; intros m a Ha.
  - inversion Ha.
  - unfold plan_all. rewrite foldl_app. cbn.
    destruct (decide (a_id b = a_id a)) as [E|E].
    + rewrite E. apply lookup_insert_eq.
    + rewrite lookup_insert_ne by exact E.
      apply IH. apply elem_of_app in Ha as [Ha|Ha]; [exact Ha|].
      apply list_elem_of_singleton in Ha. congruence.
Qed.

Lemma plan_all_other scraper policy L l : forall m k,
  (forall a, a ∈ l -> a_id a <> k) ->
  plan_all scraper policy L m l !! k = m !! k.
Proof.
  unfold plan_all.
  induction l as [|b l IH]; intros m k Hk; [reflexivity|].
  cbn [foldl]. rewrite IH by (intros a Ha; apply Hk; right; exact Ha).
  apply lookup_insert_ne. apply Hk. left.
Qed.

Lemma assets_begin_table (s : Scan) scraper :
  let policy := scrape_assets_policy (scraper_settings (sc_self s)) in
  let enabled := enabled_asset_list (sc_self s) in
  let L := get_local_assets (sc_rom s) enabled in
  let out := _scanner_process_ROM_assets_begin unpack2 get_local_assets s in
  asset_scraper_obj (sc_self s) = Some scraper ->
  is_asset_policy policy ->
  (forall a, a ∈ enabled -> is_Some (L !! a_id a)) ->
  out.1 = Ok tt /\
  local_asset_list (sc_self out.2) = Some L /\
  exists m, asset_action_list (sc_self out.2) = Some m /\
    (forall a, a ∈ enabled ->
       m !! a_id a = Some (act_of scraper policy L (a_id a))) /\
    (forall k, (forall a, a ∈ enabled -> a_id a <> k) -> m !! k = None).
Proof.
  destruct s as [x rom w]. cbv zeta. cbn [sc_self sc_rom sc_world].
  intros Hs Hp HL.
  unfold _scanner_process_ROM_assets_begin, bind, gets.
  cbn [sc_self sc_rom sc_world]. rewrite Hs.
  cbn -[for_each plan_one_asset]. 
  assert (Hv : check_asset_policy (scrape_assets_policy (scraper_settings x))
               = ret tt).
  { unfold check_asset_policy.
    destruct Hp as [-> | [-> | ->]]; repeat (case_decide; try congruence);
      reflexivity. }
  rewrite Hv. unfold ret. cbn beta iota.
  fold (planned x (get_local_assets rom (enabled_asset_list x)) ∅ rom w).
  rewrite plan_loop by assumption. cbn.
  split; [reflexivity|]. split; [reflexivity|].
  eexists. split; [reflexivity|]. split.
  - intros a Ha. apply plan_all_lookup, Ha.
  - intros k Hk. rewrite plan_all_other by exact Hk. apply lookup_empty.
Qed.
End AssetPlanning.


(** The rows of the table of section 4.3, as [spec_asset_action] has
    them. *)
Lemma spec_asset_action_rows :
  (forall l p, spec_asset_action SCRAPE_POLICY_LOCAL_ONLY l p
               = ACTION_ASSET_LOCAL_ASSET) /\
  (forall p, spec_asset_action SCRAPE_POLICY_LOCAL_AND_SCRAPE true p
             = ACTION_ASSET_LOCAL_ASSET) /\
  spec_asset_action SCRAPE_POLICY_LOCAL_AND_SCRAPE false true
    = ACTION_ASSET_SCRAPER /\
  spec_asset_action SCRAPE_POLICY_LOCAL_AND_SCRAPE false false
    = ACTION_ASSET_LOCAL_ASSET /\
  (forall l, spec_asset_action SCRAPE_POLICY_SCRAPE_ONLY l false
             = ACTION_ASSET_LOCAL_ASSET) /\
  (forall l, spec_asset_action SCRAPE_POLICY_SCRAPE_ONLY l true
             = ACTION_ASSET_SCRAPER).
Proof.
  repeat split; intros; try reflexivity;
    match goal with l : bool |- _ => destruct l end;
    try match goal with p : bool |- _ => destruct p end; reflexivity.
Qed.

(** Without an asset scraper the comprehension
    [{ key.id : NONE for (key, value) in self.enabled_asset_list }]
    destructures every enabled asset: when each of them yields a pair the
    plan maps the keys to "none" ... *)
Lemma assets_begin_no_scraper_pairs unpack2 get_local_assets (s : Scan) :
  asset_scraper_obj (sc_self s) = None ->
  (forall a, a ∈ enabled_asset_list (sc_self s) ->
     exists v, unpack2 a = Ok (a, v)) ->
  let out := _scanner_process_ROM_assets_begin unpack2 get_local_assets s in
  out.1 = Ok tt /\
  exists m, asset_action_list (sc_self out.2) = Some m /\
    forall a, a ∈ enabled_asset_list (sc_self s) ->
      m !! a_id a = Some ACTION_ASSET_NONE.
Proof.
  destruct s as [x rom w]. cbn [sc_self]. intros Hs Hu. cbv zeta.
  assert (Hloop : forall l (acc : gmap string Z) (st : Scan),
    (forall a, a ∈ l -> exists v, unpack2 a = Ok (a, v)) ->
    exists m,
      for_each_acc l acc (fun acc elem =>
        kv <- lift_result (unpack2 elem) ;;
        ret (<[a_id kv.1 := ACTION_ASSET_NONE]> acc)) st = (Ok m, st) /\
      (forall a, a ∈ l -> m !! a_id a = Some ACTION_ASSET_NONE) /\
      (forall k, acc !! k = Some ACTION_ASSET_NONE ->
         m !! k = Some ACTION_ASSET_NONE)).
  { induction l as [|a l IH]; intros acc st Hl.
    - exists acc. split; [reflexivity|]. split; [|auto].
      intros a Ha. inversion Ha.
    - destruct (Hl a) as [v Hv]; [left|].
      destruct (IH (<[a_id a := ACTION_ASSET_NONE]> acc) st) as (m & Hm & Hin & Hk).
      { intros b Hb. apply Hl. right. exact Hb. }
      exists m. split; [|split].
      + cbn [for_each_acc]. unfold bind at 1 2, lift_result, ret at 1.
        rewrite Hv. cbn [fst]. exact Hm.
      + intros b Hb. apply elem_of_cons in Hb as [-> | Hb]; [|apply Hin, Hb].
        apply Hk, lookup_insert_eq.
      + intros k Hacc. apply Hk.
        destruct (decide (a_id a = k)) as [->|Hne].
        * apply lookup_insert_eq.
        * rewrite lookup_insert_ne by exact Hne. exact Hacc. }
  destruct (Hloop (enabled_asset_list x) ∅
              {| sc_self := x; sc_rom := rom; sc_world := w |} Hu)
    as (m & Hm & Hin & _).
  assert (E : _scanner_process_ROM_assets_begin unpack2 get_local_assets
                {| sc_self := x; sc_rom := rom; sc_world := w |}
              = (Ok tt, {| sc_self := set_asset_plan (local_asset_list x)
                                        (Some m) x;
                           sc_rom := rom; sc_world := w |})).
  { unfold _scanner_process_ROM_assets_begin, bind at 1 2, gets.
    cbn [sc_self]. rewrite Hs. unfold bind at 1. rewrite Hm. reflexivity. }
  rewrite E. cbn.
  split; [reflexivity|]. exists m. split; [reflexivity|]. exact Hin.
Qed.

(** ... and when the first of them is not a pair the method raises and
    leaves no plan. *)
Lemma assets_begin_no_scraper_raises unpack2 get_local_assets (s : Scan) a l e :
  asset_scraper_obj (sc_self s) = None ->
  enabled_asset_list (sc_self s) = a :: l ->
  unpack2 a = Raise e ->
  _scanner_process_ROM_assets_begin unpack2 get_local_assets s = (Raise e, s).
Proof.
  destruct s as [x rom w]. cbn [sc_self]. intros Hs Hl Hu.
  unfold _scanner_process_ROM_assets_begin, bind at 1 2, gets.
  cbn [sc_self]. rewrite Hs, Hl.
  cbn [for_each_acc]. unfold bind, lift_result. rewrite Hu. reflexivity.
Qed.

(** C2.  With no asset scraper configured and one enabled asset, which is
    an [AssetInfo] object as everywhere else in the class, the planning of
    the asset actions raises [TypeError] instead of recording the action
    "none": the asset plan is never created. *)
Theorem assets_begin_no_scraper_TypeError :
  let s := scan_example
    (strategy_example SCRAPE_POLICY_TITLE_ONLY SCRAPE_POLICY_LOCAL_ONLY false
       None None) ∅ ∅ in
  let out := _scanner_process_ROM_assets_begin unpack2_object
               (fun _ _ => ∅) s in
  asset_scraper_obj (sc_self s) = None /\
  enabled_asset_list (sc_self s) = [fanart; snap] /\
  out.1 = Raise TypeError /\
  asset_action_list (sc_self out.2) = None.
Proof.
  cbv zeta. repeat split; reflexivity.
Qed.

(** ** The disk cache *)

Lemma pc_get_set_eq {A} ct (x : A) p : pc_get ct (pc_set ct x p) = x.
Proof. destruct ct; reflexivity. Qed.

Lemma pc_get_set_ne {A} ct ct' (x : A) p :
  ct <> ct' -> pc_get ct' (pc_set ct x p) = pc_get ct' p.
Proof. destruct ct, ct'; intros H; try reflexivity; congruence. Qed.

Lemma dict_get_set_eq k v d : dict_get k (dict_set k v d) = Ok v.
Proof.
  induction d as [|[k' v'] d IH]; cbn.
  - rewrite String.eqb_refl. reflexivity.
  - destruct (String.eqb k k') eqn:E; cbn; rewrite E; [reflexivity|exact IH].
Qed.

Lemma dict_mem_set_eq k v d : dict_mem k (dict_set k v d) = true.
Proof.
  induction d as [|[k' v'] d IH]; cbn.
  - rewrite String.eqb_refl. reflexivity.
  - destruct (String.eqb k k') eqn:E; cbn; rewrite E; [reflexivity|exact IH].
Qed.

Lemma dict_set_nonempty k v d : truthy (PDict (dict_set k v d)) = true.
Proof. destruct d as [|[k' v'] d]; cbn; [reflexivity|]. destruct (String.eqb k k'); reflexivity. Qed.

Lemma dict_mem_get k d : dict_mem k d = true -> exists v, dict_get k d = Ok v.
Proof.
  induction d as [|[k' v'] d IH]; cbn; [discriminate|].
  destruct (String.eqb k k'); [eauto|exact IH].
Qed.

Lemma dict_mem_get_false k d : dict_mem k d = false -> dict_get k d = Raise KeyError.
Proof.
  induction d as [|[k' v'] d IH]; cbn; [reflexivity|].
  destruct (String.eqb k k'); [discriminate|exact IH].
Qed.

Section CacheLemmas.
  Variable os_path_join : string -> string -> string.

Lemma lazy_load_ok ct plat (s : SW) :
  platform (obj s) = Some plat ->
  ~ cache_unreadable os_path_join ct plat s ->
  _lazy_load_disk_cache os_path_join ct s
  = (Ok tt, lazy_loaded os_path_join ct plat s).
Proof.
  intros Hp Hr.
  unfold _lazy_load_disk_cache, lazy_loaded, cache_contents, cache_unreadable,
    cache_path, cache_fname in *.
  unfold bind at 1, gets at 1.
  destruct (pc_get ct (disk_caches_loaded (obj s))) eqn:El; [reflexivity|].
  cbn [negb]. unfold bind at 1, attr. rewrite Hp.
  unfold _load_disk_cache, _get_scraper_file_name, bind, gets, ret, raise,
    on_obj, modify. cbn.
  destruct (fs (world s) !! _) as [[d|]|]; try reflexivity.
  exfalso. apply Hr. split; reflexivity.
Qed.

Lemma lazy_load_fail ct plat (s : SW) :
  platform (obj s) = Some plat ->
  cache_unreadable os_path_join ct plat s ->
  _lazy_load_disk_cache os_path_join ct s = (Raise ValueError, s).
Proof.
  intros Hp [Hl Hf].
  unfold _lazy_load_disk_cache, cache_path, cache_fname in *.
  unfold bind at 1, gets at 1. rewrite Hl.
  cbn [negb]. unfold bind at 1, attr. rewrite Hp.
  unfold _load_disk_cache, _get_scraper_file_name, bind, gets, ret, raise,
    on_obj, modify. cbn. rewrite Hf. reflexivity.
Qed.

Lemma lazy_loaded_fields ct plat (s : SW) :
  let s' := lazy_loaded os_path_join ct plat s in
  world s' = world s /\
  pc_get ct (disk_caches_loaded (obj s')) = true /\
  pc_get ct (disk_caches (obj s')) = cache_contents os_path_join ct plat s /\
  platform (obj s') = platform (obj s) /\
  candidate (obj s') = candidate (obj s) /\
  cache_key (obj s') = cache_key (obj s) /\
  supports_disk_cache (obj s') = supports_disk_cache (obj s) /\
  get_filename (obj s') = get_filename (obj s) /\
  scraper_cache_dir (obj s') = scraper_cache_dir (obj s) /\
  (forall ct', ct' <> ct ->
     pc_get ct' (disk_caches (obj s')) = pc_get ct' (disk_caches (obj s)) /\
     pc_get ct' (disk_caches_loaded (obj s'))
       = pc_get ct' (disk_caches_loaded (obj s)) /\
     pc_get ct' (disk_caches_dirty (obj s'))
       = pc_get ct' (disk_caches_dirty (obj s))).
Proof.
  cbv zeta. unfold lazy_loaded, cache_contents.
  destruct (pc_get ct (disk_caches_loaded (obj s))) eqn:El.
  - rewrite El. repeat split; reflexivity.
  - cbn. rewrite !pc_get_set_eq. repeat split; try reflexivity;
      apply pc_get_set_ne; congruence.
Qed.


Lemma update_disk_cache_ok ct plat key data (s : SW) :
  platform (obj s) = Some plat ->
  ~ cache_unreadable os_path_join ct plat s ->
  _update_disk_cache os_path_join ct key data s
  = (Ok tt,
     {| obj := cache_updated ct key data
                 (obj (lazy_loaded os_path_join ct plat s));
        world := world (lazy_loaded os_path_join ct plat s) |}).
Proof.
  intros Hp Hr. unfold _update_disk_cache, bind.
  rewrite (lazy_load_ok ct plat s Hp Hr). reflexivity.
Qed.

Lemma update_disk_cache_fail ct plat key data (s : SW) :
  platform (obj s) = Some plat ->
  cache_unreadable os_path_join ct plat s ->
  _update_disk_cache os_path_join ct key data s = (Raise ValueError, s).
Proof.
  intros Hp Hr. unfold _update_disk_cache, bind.
  rewrite (lazy_load_fail ct plat s Hp Hr). reflexivity.
Qed.

Lemma set_candidate_None rom_FN plat (s : SW) :
  set_candidate os_path_join rom_FN plat PNone s
  = (Ok tt, candidate_recorded rom_FN plat PNone s).
Proof. reflexivity. Qed.

Lemma set_candidate_value rom_FN plat c (s : SW) :
  c <> PNone ->
  ~ cache_unreadable os_path_join CACHE_CANDIDATES plat s ->
  set_candidate os_path_join rom_FN plat c s
  = (Ok tt,
     let s1 := lazy_loaded os_path_join CACHE_CANDIDATES plat
                 (candidate_recorded rom_FN plat c s) in
     {| obj := cache_updated CACHE_CANDIDATES (getBase rom_FN) c (obj s1);
        world := world s1 |}).
Proof.
  intros Hc Hr. unfold set_candidate, bind at 1 2, on_obj, modify.
  cbn [fst snd obj world].
  destruct c; try congruence; cbn [is_None];
    (rewrite (update_disk_cache_ok _ plat); [reflexivity|reflexivity|exact Hr]).
Qed.

(** C3.  [set_candidate] writes the candidate into the candidates cache
    exactly when it is not [None].  A [None] candidate becomes the active
    candidate and nothing else changes: no cache map, no loaded or dirty
    flag, nothing in the world.  Any other candidate, the empty dictionary of
    a search without results included, becomes the active candidate and is
    stored under the ROM's key in the candidates cache, which is then
    loaded, dirty and not empty, so that the next flush writes it (the only
    way out is a cache file that cannot be parsed, which raises before
    anything is stored). *)
Theorem set_candidate_persistence rom_FN plat (s : SW) :
  let key := getBase rom_FN in
  let cached (s' : SW) :=
    dict_get key (pc_get CACHE_CANDIDATES (disk_caches (obj s'))) in
  (let out := set_candidate os_path_join rom_FN plat PNone s in
   out.1 = Ok tt /\
   candidate (obj out.2) = PNone /\
   disk_caches (obj out.2) = disk_caches (obj s) /\
   disk_caches_loaded (obj out.2) = disk_caches_loaded (obj s) /\
   disk_caches_dirty (obj out.2) = disk_caches_dirty (obj s) /\
   world out.2 = world s) /\
  (forall c, c <> PNone ->
   ~ cache_unreadable os_path_join CACHE_CANDIDATES plat s ->
   let out := set_candidate os_path_join rom_FN plat c s in
   out.1 = Ok tt /\
   candidate (obj out.2) = c /\
   cached out.2 = Ok c /\
   pc_get CACHE_CANDIDATES (disk_caches_loaded (obj out.2)) = true /\
   pc_get CACHE_CANDIDATES (disk_caches_dirty (obj out.2)) = true /\
   truthy (PDict (pc_get CACHE_CANDIDATES (disk_caches (obj out.2)))) = true) /\
  (~ cache_unreadable os_path_join CACHE_CANDIDATES plat s ->
   let out := set_candidate os_path_join rom_FN plat (PDict []) s in
   out.1 = Ok tt /\ cached out.2 = Ok (PDict [])).
Proof.
  cbv zeta. split; [|split].
  - rewrite set_candidate_None. repeat split; reflexivity.
  - intros c Hc Hr. rewrite (set_candidate_value rom_FN plat c s Hc Hr). cbv zeta.
    cbn [fst snd obj world].
    destruct (lazy_loaded_fields CACHE_CANDIDATES plat
                (candidate_recorded rom_FN plat c s))
      as (_ & Hl & _ & _ & Hcand & _).
    unfold cache_updated. cbn. rewrite ?pc_get_set_eq.
    repeat split; try reflexivity.
    + exact Hcand.
    + apply dict_get_set_eq.
    + exact Hl.
    + apply dict_set_nonempty.
  - intros Hr. rewrite set_candidate_value by (done || exact Hr).
    cbv zeta. cbn. rewrite ?pc_get_set_eq.
    split; [reflexivity|apply dict_get_set_eq].
Qed.


End CacheLemmas.

Lemma set_candidate_persistence_witness :
  let s := throttle_example 0 in
  let c := PDict [("id", PStr "42"); ("display_name", PStr "Sonic")] in
  let out := set_candidate (fun d f => d +:+ "/" +:+ f) sonic "Sega Genesis" c s in
  out.1 = Ok tt /\
  dict_get "Sonic (USA).zip"
    (pc_get CACHE_CANDIDATES (disk_caches (obj out.2))) = Ok c.
Proof.
  cbv zeta.
  destruct (set_candidate_persistence (fun d f => d +:+ "/" +:+ f) sonic
              "Sega Genesis" (throttle_example 0)) as (_ & H & _).
  destruct (H (PDict [("id", PStr "42"); ("display_name", PStr "Sonic")]))
    as (H1 & _ & H2 & _).
  - discriminate.
  - intros [_ Hf]. vm_compute in Hf. discriminate.
  - split; [exact H1|exact H2].
Defined.

(** ** Flushing the caches *)

(** *** The serialisation *)

Global Instance key_le_total : Total key_le.
Proof. intros p q. unfold key_le. apply (total String.le). Qed.

Global Instance key_le_trans : Transitive key_le.
Proof. intros p q r. unfold key_le. apply (transitivity (R := String.le)). Qed.

Lemma json_dumps_unfold d :
  json_dumps d
  = merge_sort key_le
      (map (fun kv => let '(k, x) := kv in (k, json_sort_keys x)) d).
Proof. reflexivity. Qed.

Lemma map_sorted_keys (d : pydict) :
  (map (fun kv => let '(k, x) := kv in (k, json_sort_keys x)) d).*1 = d.*1.
Proof.
  induction d as [|[k x] d IH]; [reflexivity|]. cbn. f_equal. exact IH.
Qed.

Lemma json_dumps_sorted d : StronglySorted key_le (json_dumps d).
Proof. rewrite json_dumps_unfold. apply StronglySorted_merge_sort; apply _. Qed.

Lemma json_dumps_keys_sorted d : StronglySorted String.le (json_dumps d).*1.
Proof.
  apply (StronglySorted_fmap fst key_le String.le).
  - intros p q H. exact H.
  - apply json_dumps_sorted.
Qed.

Lemma json_dumps_keys d : (json_dumps d).*1 ≡ₚ d.*1.
Proof.
  rewrite json_dumps_unfold, merge_sort_Permutation. rewrite map_sorted_keys.
  reflexivity.
Qed.

Lemma NoDup_fst_functional {A B} (l : list (A * B)) k v1 v2 :
  NoDup l.*1 -> (k, v1) ∈ l -> (k, v2) ∈ l -> v1 = v2.
Proof.
  induction l as [|[k' v'] l IH]; intros Hnd H1 H2; [inversion H1|].
  cbn in Hnd. apply NoDup_cons in Hnd as [Hni Hnd].
  apply elem_of_cons in H1 as [H1|H1], H2 as [H2|H2].
  - congruence.
  - exfalso. apply Hni. inversion H1; subst.
    apply (list_elem_of_fmap_2 fst) in H2. exact H2.
  - exfalso. apply Hni. inversion H2; subst.
    apply (list_elem_of_fmap_2 fst) in H1. exact H1.
  - exact (IH Hnd H1 H2).
Qed.

(** The order of insertion of the keys does not show in the file. *)
Lemma json_dumps_deterministic d1 d2 :
  d1 ≡ₚ d2 -> NoDup d1.*1 -> json_dumps d1 = json_dumps d2.
Proof.
  intros Hperm Hnd.
  assert (Hp : json_dumps d1 ≡ₚ json_dumps d2).
  { rewrite !json_dumps_unfold, !merge_sort_Permutation.
    apply Permutation_map, Hperm. }
  apply (StronglySorted_unique_strong key_le);
    [|apply json_dumps_sorted|apply json_dumps_sorted|exact Hp].
  intros [k1 v1] [k2 v2] H1 H2 Hle1 Hle2. unfold key_le in *. cbn in *.
  assert (k1 = k2) as -> by (apply (anti_symm String.le); assumption).
  f_equal. rewrite <- Hp in H2.
  eapply NoDup_fst_functional; [|exact H1|exact H2].
  rewrite json_dumps_keys. exact Hnd.
Qed.

Example json_dumps_example :
  json_dumps [("b", PInt 2); ("a", PDict [("z", PNone); ("y", PBool true)])]
  = [("a", PDict [("y", PBool true); ("z", PNone)]); ("b", PInt 2)].
Proof. vm_compute. reflexivity. Qed.

Section FlushLemmas.
  Variable os_path_join : string -> string -> string.

Lemma flush_one_eq pd n plat ct (s : SW) :
  platform (obj s) = Some plat ->
  flush_one os_path_join pd n ct s
  = (Ok (if pd then n + 1 else n), flush_one_state os_path_join pd n plat ct s).
Proof.
  destruct s as [o w]. cbn [obj world].
  intros Hp. unfold flush_one, flush_one_state, should_write, write_of,
    cache_path, cache_fname. cbn [obj world].
  destruct pd;
    unfold bind, on_world, on_obj, modify, gets, ret, attr,
      _get_scraper_file_name; cbn; rewrite ?Hp;
    destruct (pc_get ct (disk_caches_loaded o)); cbn; try reflexivity;
    destruct (pc_get ct (disk_caches o)); cbn; try reflexivity;
    destruct (pc_get ct (disk_caches_dirty o)); cbn; rewrite ?Hp;
    reflexivity.
Qed.

Lemma same_but_dirty_refl o : same_but_dirty o o.
Proof. repeat split. Qed.

Lemma same_but_dirty_trans o1 o2 o3 :
  same_but_dirty o1 o2 -> same_but_dirty o2 o3 -> same_but_dirty o1 o3.
Proof.
  unfold same_but_dirty. intros H1 H2.
  destruct H1 as (?&?&?&?&?&?&?&?&?&?&?&?), H2 as (?&?&?&?&?&?&?&?&?&?&?&?).
  repeat split; congruence.
Qed.

Lemma should_write_dirty_ext o o' ct :
  same_but_dirty o o' ->
  pc_get ct (disk_caches_dirty o') = pc_get ct (disk_caches_dirty o) ->
  should_write o' ct = should_write o ct.
Proof.
  intros (?&?&?&?&?&?&?&Hc&Hl&?) Hd. unfold should_write.
  rewrite Hc, Hl, Hd. reflexivity.
Qed.

Lemma write_of_ext o o' plat ct :
  same_but_dirty o o' ->
  write_of os_path_join o' plat ct = write_of os_path_join o plat ct.
Proof.
  intros (?&Hf&?&Hd&?&?&?&Hc&?). unfold write_of, cache_path, cache_fname.
  rewrite Hf, Hd, Hc. reflexivity.
Qed.

Lemma flush_one_state_spec pd n plat ct (s : SW) :
  let s' := flush_one_state os_path_join pd n plat ct s in
  same_but_dirty (obj s) (obj s') /\
  pc_get ct (disk_caches_dirty (obj s'))
    = pc_get ct (disk_caches_dirty (obj s)) && negb (should_write (obj s) ct) /\
  (forall ct', ct' <> ct ->
     pc_get ct' (disk_caches_dirty (obj s'))
       = pc_get ct' (disk_caches_dirty (obj s))) /\
  writes (log (world s'))
    = rev (due_writes os_path_join (obj s) plat [ct]) ++ writes (log (world s)) /\
  fs (world s')
    = foldl apply_write (fs (world s)) (due_writes os_path_join (obj s) plat [ct]).
Proof.
  cbv zeta. unfold flush_one_state, due_writes. cbn [omap list_omap].
  destruct (should_write (obj s) ct) eqn:Ew.
  - unfold write_of. cbn -[json_dumps].
    rewrite pc_get_set_eq.
    split; [repeat split|]. split; [rewrite andb_false_r; reflexivity|].
    split; [intros ct' Hne; apply pc_get_set_ne; congruence|].
    destruct pd; split; reflexivity.
  - cbn. split; [repeat split|]. split; [rewrite andb_true_r; reflexivity|].
    split; [reflexivity|]. destruct pd; split; reflexivity.
Qed.

Lemma due_writes_ext o o' plat l :
  same_but_dirty o o' ->
  (forall ct, ct ∈ l ->
     pc_get ct (disk_caches_dirty o') = pc_get ct (disk_caches_dirty o)) ->
  due_writes os_path_join o' plat l = due_writes os_path_join o plat l.
Proof.
  intros Hs Hd. unfold due_writes.
  induction l as [|ct l IH]; [reflexivity|]. cbn [omap list_omap].
  rewrite (should_write_dirty_ext o o' ct Hs) by (apply Hd; left).
  rewrite (write_of_ext o o' plat ct Hs).
  rewrite IH by (intros c Hc; apply Hd; right; exact Hc). reflexivity.
Qed.

Lemma due_writes_app o plat l1 l2 :
  due_writes os_path_join o plat (l1 ++ l2)
  = due_writes os_path_join o plat l1 ++ due_writes os_path_join o plat l2.
Proof. unfold due_writes. apply omap_app. Qed.

Lemma flush_loop pd plat l : forall n (s : SW),
  NoDup l ->
  platform (obj s) = Some plat ->
  exists n' s',
    for_each_acc l n (flush_one os_path_join pd) s = (Ok n', s') /\
    same_but_dirty (obj s) (obj s') /\
    (forall ct,
       pc_get ct (disk_caches_dirty (obj s'))
       = if bool_decide (ct ∈ l)
         then pc_get ct (disk_caches_dirty (obj s))
              && negb (should_write (obj s) ct)
         else pc_get ct (disk_caches_dirty (obj s))) /\
    writes (log (world s'))
      = rev (due_writes os_path_join (obj s) plat l) ++ writes (log (world s)) /\
    fs (world s')
      = foldl apply_write (fs (world s)) (due_writes os_path_join (obj s) plat l).
Proof.
  induction l as [|ct l IH]; intros n s Hnd Hp.
  - exists n, s. split; [reflexivity|]. split; [apply same_but_dirty_refl|].
    split; [intros ct; reflexivity|]. split; reflexivity.
  - apply NoDup_cons in Hnd as [Hni Hnd].
    destruct (flush_one_state_spec pd n plat ct s) as (Hs1 & Hd1 & Ho1 & Hw1 & Hf1).
    set (s1 := flush_one_state os_path_join pd n plat ct s) in *.
    assert (Hp1 : platform (obj s1) = Some plat).
    { destruct Hs1 as (?&?&?&?&?&?&?&?&?&?&?&Hpl). congruence. }
    destruct (IH (if pd then n + 1 else n) s1 Hnd Hp1)
      as (n' & s' & Hrun & Hs' & Hd' & Hw' & Hf').
    assert (Hdue : due_writes os_path_join (obj s1) plat l
                   = due_writes os_path_join (obj s) plat l).
    { apply due_writes_ext; [exact Hs1|].
      intros c Hc. apply Ho1. intros ->. contradiction. }
    exists n', s'. split; [|split; [|split; [|split]]].
    + cbn [for_each_acc]. unfold bind. rewrite (flush_one_eq pd n plat ct s Hp).
      exact Hrun.
    + eapply same_but_dirty_trans; eassumption.
    + intros c. rewrite Hd'.
      destruct (decide (c = ct)) as [->|Hne].
      * rewrite (bool_decide_eq_false_2 _ Hni).
        rewrite bool_decide_eq_true_2 by left. exact Hd1.
      * rewrite (Ho1 c Hne).
        rewrite (should_write_dirty_ext (obj s) (obj s1) c Hs1 (Ho1 c Hne)).
        destruct (bool_decide_reflect (c ∈ l)) as [Hin|Hin].
        -- rewrite bool_decide_eq_true_2 by (right; exact Hin). reflexivity.
        -- rewrite bool_decide_eq_false_2; [reflexivity|].
           intros Hc. apply elem_of_cons in Hc as [?|?]; congruence.
    + rewrite Hw', Hw1, Hdue.
      change (ct :: l) with ([ct] ++ l). rewrite due_writes_app, rev_app_distr.
      rewrite app_assoc. reflexivity.
    + rewrite Hf', Hf1, Hdue.
      change (ct :: l) with ([ct] ++ l). rewrite due_writes_app, foldl_app.
      reflexivity.
Qed.
End FlushLemmas.

Lemma writes_app l1 l2 : writes (l1 ++ l2) = writes l1 ++ writes l2.
Proof.
  induction l1 as [|e l1 IH]; [reflexivity|].
  destruct e; cbn; rewrite ?IH; reflexivity.
Qed.

Lemma cache_name_inj ct ct' :
  cache_name ct +:+ ".json" = cache_name ct' +:+ ".json" -> ct = ct'.
Proof. destruct ct, ct'; intros H; try reflexivity; discriminate. Qed.

Section FlushTheorem.
  Variable os_path_join : string -> string -> string.

Lemma cache_fname_inj o plat ct ct' :
  cache_fname o ct plat = cache_fname o ct' plat -> ct = ct'.
Proof.
  unfold cache_fname. intros H.
  apply cache_name_inj.
  repeat apply (inj (String.app _)) in H. exact H.
Qed.

Lemma due_writes_elem o plat l ct :
  write_of os_path_join o plat ct ∈ due_writes os_path_join o plat l
  <-> ct ∈ l /\ should_write o ct = true.
Proof.
  unfold due_writes. rewrite list_elem_of_omap. split.
  - intros (ct' & Hin & Hw). destruct (should_write o ct') eqn:E; [|discriminate].
    unfold write_of in Hw. inversion Hw as [[Hpth Hf Hd]].
    apply cache_fname_inj in Hf. subst ct'. split; assumption.
  - intros [Hin Hw]. exists ct. rewrite Hw. split; [exact Hin|reflexivity].
Qed.

Lemma due_writes_shape o plat l p f d :
  (p, f, d) ∈ due_writes os_path_join o plat l ->
  exists ct, ct ∈ l /\ should_write o ct = true /\
    f = get_filename o +:+ "__" +:+ plat +:+ "__" +:+ cache_name ct +:+ ".json" /\
    p = os_path_join (scraper_cache_dir o) f /\
    d = json_dumps (pc_get ct (disk_caches o)) /\
    StronglySorted String.le d.*1.
Proof.
  unfold due_writes. rewrite list_elem_of_omap.
  intros (ct & Hin & Hw). destruct (should_write o ct) eqn:E; [|discriminate].
  unfold write_of in Hw. inversion Hw; subst. exists ct.
  repeat split; try assumption.
  apply json_dumps_keys_sorted.
Qed.

Lemma CACHE_LIST_NoDup : NoDup CACHE_LIST.
Proof.
  unfold CACHE_LIST. repeat (apply NoDup_cons; split);
    [| | | |apply NoDup_nil_2];
    rewrite ?elem_of_cons, ?elem_of_nil; intros H; intuition discriminate.
Qed.

Lemma CACHE_LIST_all ct : ct ∈ CACHE_LIST.
Proof.
  destruct ct; unfold CACHE_LIST; rewrite !elem_of_cons; auto.
Qed.

Lemma flush_unsupported pd (s : SW) :
  supports_disk_cache (obj s) = false ->
  flush_disk_cache os_path_join pd s = (Ok tt, s).
Proof.
  intros H. unfold flush_disk_cache, bind, gets. rewrite H. reflexivity.
Qed.

Lemma flush_supported pd plat (s : SW) :
  supports_disk_cache (obj s) = true ->
  platform (obj s) = Some plat ->
  exists s',
    flush_disk_cache os_path_join pd s = (Ok tt, s') /\
    same_but_dirty (obj s) (obj s') /\
    (forall ct,
       pc_get ct (disk_caches_dirty (obj s'))
       = pc_get ct (disk_caches_dirty (obj s))
         && negb (should_write (obj s) ct)) /\
    writes (log (world s'))
      = rev (expected_writes os_path_join (obj s) plat) ++ writes (log (world s)) /\
    fs (world s')
      = foldl apply_write (fs (world s))
          (expected_writes os_path_join (obj s) plat).
Proof.
  intros Hsup Hp.
  set (s0 := if pd
             then {| obj := obj s;
                     world := emit (Ev_pdialog (startProgress
                                "Flushing scraper disk caches..."
                                (Z.of_nat (length CACHE_LIST)))) (world s) |}
             else s).
  assert (Hs0 : obj s0 = obj s /\ writes (log (world s0)) = writes (log (world s))
                /\ fs (world s0) = fs (world s)).
  { unfold s0. destruct pd; repeat split. }
  destruct Hs0 as (Ho0 & Hw0 & Hf0).
  destruct (flush_loop os_path_join pd plat CACHE_LIST 0 s0 CACHE_LIST_NoDup)
    as (n' & s1 & Hrun & Hsame & Hd & Hw & Hf).
  { rewrite Ho0. exact Hp. }
  rewrite Ho0 in *. rewrite Hw0 in Hw. rewrite Hf0 in Hf.
  exists (if pd then {| obj := obj s1;
                        world := emit (Ev_pdialog endProgress) (world s1) |}
          else s1).
  split; [|split; [|split; [|split]]].
  - unfold flush_disk_cache. unfold bind at 1, gets at 1. rewrite Hsup.
    cbn [negb]. unfold bind.
    unfold s0 in Hrun.
    destruct pd; unfold on_world, modify, ret; cbn [fst snd];
      cbv beta iota zeta in Hrun |- *; rewrite Hrun; reflexivity.
  - destruct pd; exact Hsame.
  - intros ct. specialize (Hd ct).
    rewrite (bool_decide_eq_true_2 _ (CACHE_LIST_all ct)) in Hd.
    destruct pd; exact Hd.
  - destruct pd; exact Hw.
  - destruct pd; exact Hf.
Qed.

Lemma due_writes_none o plat l :
  (forall ct, should_write o ct = false) ->
  due_writes os_path_join o plat l = [].
Proof.
  intros H. unfold due_writes. induction l as [|ct l IH]; [reflexivity|].
  cbn [omap list_omap]. rewrite H. exact IH.
Qed.

Lemma should_write_after (o o' : Scraper) :
  same_but_dirty o o' ->
  (forall ct, pc_get ct (disk_caches_dirty o')
              = pc_get ct (disk_caches_dirty o) && negb (should_write o ct)) ->
  forall ct, should_write o' ct = false.
Proof.
  intros (?&?&?&?&?&?&?&Hc&Hl&?) Hd ct. unfold should_write in *.
  rewrite Hc, Hl, Hd.
  destruct (pc_get ct (disk_caches_loaded o)),
    (truthy (PDict (pc_get ct (disk_caches o)))),
    (pc_get ct (disk_caches_dirty o)); reflexivity.
Qed.

(** C6, as the code has it.  A scraper that does not support the disk cache
    writes nothing, whatever its caches hold.  For one that does, the flush
    returns normally and writes, in the order of [CACHE_LIST], the file of a
    kind exactly when the kind is loaded, not empty and dirty; the file name
    is scraper file name, platform and kind joined by double underscores
    with the extension [.json]; the content is the map with its keys in
    order; the written kinds become clean and nothing else changes in the
    object; a second flush right after writes nothing. *)
Theorem flush_disk_cache_writes pd (s : SW) :
  (supports_disk_cache (obj s) = false ->
     flush_disk_cache os_path_join pd s = (Ok tt, s)) /\
  (supports_disk_cache (obj s) = true ->
   forall plat, platform (obj s) = Some plat ->
     let out := flush_disk_cache os_path_join pd s in
     let due := expected_writes os_path_join (obj s) plat in
     out.1 = Ok tt /\
     same_but_dirty (obj s) (obj out.2) /\
     writes (log (world out.2)) = rev due ++ writes (log (world s)) /\
     fs (world out.2) = foldl apply_write (fs (world s)) due /\
     (forall ct, write_of os_path_join (obj s) plat ct ∈ due
                 <-> should_write (obj s) ct = true) /\
     (forall p f d, (p, f, d) ∈ due ->
        exists ct,
          f = get_filename (obj s) +:+ "__" +:+ plat +:+ "__"
              +:+ cache_name ct +:+ ".json" /\
          p = os_path_join (scraper_cache_dir (obj s)) f /\
          d = json_dumps (pc_get ct (disk_caches (obj s))) /\
          StronglySorted String.le d.*1) /\
     (forall ct, pc_get ct (disk_caches_dirty (obj out.2))
                 = pc_get ct (disk_caches_dirty (obj s))
                   && negb (should_write (obj s) ct)) /\
     (let out2 := flush_disk_cache os_path_join pd out.2 in
      out2.1 = Ok tt /\
      writes (log (world out2.2)) = writes (log (world out.2)) /\
      fs (world out2.2) = fs (world out.2))).
Proof.
  split; [apply flush_unsupported|].
  intros Hsup plat Hp. cbv zeta.
  destruct (flush_supported pd plat s Hsup Hp)
    as (s' & Hrun & Hsame & Hd & Hw & Hf).
  rewrite Hrun. cbn [fst snd].
  split; [reflexivity|]. split; [exact Hsame|]. split; [exact Hw|].
  split; [exact Hf|]. split; [|split; [|split; [exact Hd|]]].
  - intros ct. unfold expected_writes. rewrite due_writes_elem.
    split; [intros [_ H]; exact H|intros H; split; [apply CACHE_LIST_all|exact H]].
  - intros p f d Hin. unfold expected_writes in Hin.
    destruct (due_writes_shape _ _ _ _ _ _ Hin) as (ct & _ & _ & H1 & H2 & H3 & H4).
    exists ct. repeat split; assumption.
  - assert (Hsup' : supports_disk_cache (obj s') = true).
    { destruct Hsame as (_ & _ & H & _). congruence. }
    assert (Hp' : platform (obj s') = Some plat).
    { destruct Hsame as (?&?&?&?&?&?&?&?&?&?&?&H). congruence. }
    destruct (flush_supported pd plat s' Hsup' Hp')
      as (s'' & Hrun2 & _ & _ & Hw2 & Hf2).
    rewrite Hrun2. cbn [fst snd].
    unfold expected_writes in Hw2, Hf2.
    rewrite (due_writes_none (obj s') plat CACHE_LIST
               (should_write_after _ _ Hsame Hd)) in Hw2, Hf2.
    split; [reflexivity|]. split; [exact Hw2|exact Hf2].
Qed.
End FlushTheorem.

Lemma flush_disk_cache_writes_witness :
  let join := fun d f => d +:+ "/" +:+ f in
  let out := flush_disk_cache join false online_with_candidate in
  out.1 = Ok tt /\
  writes (log (world out.2))
  = [("/cache/Example__Sega Genesis__candidates.json",
      "Example__Sega Genesis__candidates.json",
      [("Sonic (USA).zip", PDict [("id", PStr "42")])])].
Proof.
  cbv zeta.
  destruct (flush_disk_cache_writes (fun d f => d +:+ "/" +:+ f) false
              online_with_candidate) as [_ H].
  destruct (H eq_refl "Sega Genesis" eq_refl) as (H1 & _ & H2 & _).
  split; [exact H1|]. rewrite H2. vm_compute. reflexivity.
Defined.

(** C6 as written fails for a scraper without disk cache support: its
    candidates cache is loaded, not empty and dirty, and the flush writes
    nothing. *)
Lemma flush_unsupported_counterexample :
  ~ flush_writes_exactly_when (fun d f => d +:+ "/" +:+ f) false
      offline_with_candidate.
Proof.
  intros H.
  destruct (H CACHE_CANDIDATES "Sega Genesis" eq_refl) as [_ Hback].
  destruct Hback as (new & Hlog & Hin); [vm_compute; reflexivity|].
  rewrite flush_unsupported in Hlog by reflexivity. cbn [snd] in Hlog.
  assert (Hnil : new = []).
  { apply (f_equal length) in Hlog. rewrite length_app in Hlog.
    destruct new; [reflexivity|]. cbn in Hlog. lia. }
  subst new. cbn in Hin. inversion Hin.
Qed.


(** ** Purging a key *)

Lemma dict_mem_filter k d :
  dict_mem k (filter (fun kv : string * pyval => negb (String.eqb k kv.1)) d) = false.
Proof.
  induction d as [|[k' v] d IH]; [reflexivity|].
  rewrite filter_cons. cbn [fst].
  destruct (String.eqb k k') eqn:E.
  - rewrite decide_False by (cbn; tauto). exact IH.
  - rewrite decide_True by (cbn; tauto). cbn. rewrite E. exact IH.
Qed.

Section PurgeLemmas.
  Variable os_path_join : string -> string -> string.

Lemma purge_one_ok key plat ct (s : SW) :
  platform (obj s) = Some plat ->
  ~ cache_unreadable os_path_join ct plat s ->
  purge_one os_path_join key ct s
  = (Ok tt, purged_one os_path_join key plat ct s).
Proof.
  intros Hp Hr. unfold purge_one, _check_disk_cache, purged_one.
  unfold bind at 1 2. rewrite (lazy_load_ok os_path_join ct plat s Hp Hr).
  unfold gets at 1. cbv zeta.
  destruct (dict_mem key _) eqn:E; [|reflexivity].
  unfold _delete_from_disk_cache, bind, gets, lift_result, dict_del, on_obj,
    modify. rewrite E. reflexivity.
Qed.

Lemma purged_one_spec key plat ct (s : SW) :
  let s' := purged_one os_path_join key plat ct s in
  world s' = world s /\
  platform (obj s') = platform (obj s) /\
  get_name (obj s') = get_name (obj s) /\
  get_filename (obj s') = get_filename (obj s) /\
  scraper_cache_dir (obj s') = scraper_cache_dir (obj s) /\
  dict_mem key (pc_get ct (disk_caches (obj s'))) = false /\
  pc_get ct (disk_caches_loaded (obj s')) = true /\
  (forall ct', ct' <> ct ->
     pc_get ct' (disk_caches (obj s')) = pc_get ct' (disk_caches (obj s)) /\
     pc_get ct' (disk_caches_loaded (obj s'))
       = pc_get ct' (disk_caches_loaded (obj s))).
Proof.
  cbv zeta. unfold purged_one.
  destruct (lazy_loaded_fields os_path_join ct plat s)
    as (Hw & Hl & Hc & Hp & _ & _ & _ & Hf & Hd & Ho).
  assert (Hn : get_name (obj (lazy_loaded os_path_join ct plat s))
               = get_name (obj s)).
  { unfold lazy_loaded. destruct (pc_get ct (disk_caches_loaded (obj s)));
      reflexivity. }
  destruct (dict_mem key _) eqn:E.
  - cbn. rewrite ?pc_get_set_eq.
    split; [exact Hw|]. split; [exact Hp|]. split; [exact Hn|].
    split; [exact Hf|]. split; [exact Hd|].
    split; [apply dict_mem_filter|]. split; [exact Hl|].
    intros ct' Hne. rewrite pc_get_set_ne by congruence.
    split; apply Ho; exact Hne.
  - split; [exact Hw|]. split; [exact Hp|]. split; [exact Hn|].
    split; [exact Hf|]. split; [exact Hd|].
    split; [exact E|]. split; [exact Hl|].
    intros ct' Hne. split; apply Ho; exact Hne.
Qed.

Lemma purge_loop key plat l : forall (s : SW),
  platform (obj s) = Some plat ->
  (forall ct, ct ∈ l -> ~ cache_unreadable os_path_join ct plat s) ->
  exists s',
    for_each l (purge_one os_path_join key) s = (Ok tt, s') /\
    world s' = world s /\
    platform (obj s') = Some plat /\
    get_name (obj s') = get_name (obj s) /\
    get_filename (obj s') = get_filename (obj s) /\
    scraper_cache_dir (obj s') = scraper_cache_dir (obj s) /\
    (forall ct, ct ∈ l -> dict_mem key (pc_get ct (disk_caches (obj s'))) = false) /\
    (forall ct, dict_mem key (pc_get ct (disk_caches (obj s))) = false ->
                ct ∉ l ->
                dict_mem key (pc_get ct (disk_caches (obj s'))) = false).
Proof.
  induction l as [|ct l IH]; intros s Hp Hr.
  - exists s. split; [reflexivity|]. split; [reflexivity|].
    split; [exact Hp|]. split; [reflexivity|]. split; [reflexivity|].
    split; [reflexivity|]. split; [intros ct Hc; inversion Hc|].
    intros ct Hc _. exact Hc.
  - destruct (purged_one_spec key plat ct s)
      as (Hw & Hpl & Hn & Hf & Hd & Habs & Hld & Ho).
    set (s1 := purged_one os_path_join key plat ct s) in *.
    assert (Hp1 : platform (obj s1) = Some plat) by congruence.
    destruct (IH s1 Hp1) as (s' & Hrun & Hw' & Hp' & Hn' & Hf' & Hd' & Hin & Hout).
    { intros c Hc [Hl Hfile].
      destruct (decide (c = ct)) as [->|Hne]; [congruence|].
      apply (Hr c); [right; exact Hc|]. split.
      - rewrite <- (proj2 (Ho c Hne)). exact Hl.
      - revert Hfile. unfold cache_path, cache_fname.
        rewrite Hw, Hf, Hd. auto. }
    exists s'. split; [|repeat split; try congruence].
    + cbn [for_each]. unfold bind.
      rewrite (purge_one_ok key plat ct s Hp); [exact Hrun|].
      apply Hr. left.
    + intros c Hc. destruct (decide (c ∈ l)) as [Hcl|Hcl]; [apply Hin, Hcl|].
      apply elem_of_cons in Hc as [->|Hc]; [|contradiction].
      apply Hout; assumption.
    + intros c Hc Hnot. apply not_elem_of_cons in Hnot as [Hne Hnl].
      apply Hout; [|exact Hnl]. rewrite (proj1 (Ho c Hne)). exact Hc.
Qed.

Lemma keyed_unreadable rom_FN plat ct (s : SW) :
  cache_unreadable os_path_join ct plat (keyed rom_FN plat s)
  <-> cache_unreadable os_path_join ct plat s.
Proof. reflexivity. Qed.

Lemma clear_cache_ok rom_FN plat (s : SW) :
  (forall ct, ~ cache_unreadable os_path_join ct plat s) ->
  exists s',
    clear_cache os_path_join rom_FN plat s = (Ok tt, s') /\
    world s' = world s /\
    platform (obj s') = Some plat /\
    get_name (obj s') = get_name (obj s) /\
    purged (getBase rom_FN) (obj s').
Proof.
  intros Hr.
  destruct (purge_loop (getBase rom_FN) plat CACHE_LIST (keyed rom_FN plat s))
    as (s' & Hrun & Hw & Hp & Hn & _ & _ & Hin & _).
  { reflexivity. }
  { intros ct _. apply Hr. }
  exists s'. split; [|repeat split; try assumption].
  - unfold clear_cache, bind at 1, on_obj, modify. exact Hrun.
  - intros ct. apply Hin, CACHE_LIST_all.
Qed.

Lemma check_candidates_cache_eq rom_FN plat (s : SW) :
  ~ cache_unreadable os_path_join CACHE_CANDIDATES plat s ->
  check_candidates_cache os_path_join rom_FN plat s
  = (Ok (dict_mem (getBase rom_FN)
           (cache_contents os_path_join CACHE_CANDIDATES plat s)),
     lazy_loaded os_path_join CACHE_CANDIDATES plat (keyed rom_FN plat s)).
Proof.
  intros Hr. unfold check_candidates_cache, bind at 1, on_obj, modify.
  fold (keyed rom_FN plat s).
  unfold _check_disk_cache, bind.
  rewrite (lazy_load_ok os_path_join CACHE_CANDIDATES plat (keyed rom_FN plat s));
    [|reflexivity|exact Hr].
  unfold gets. f_equal. f_equal.
  destruct (lazy_loaded_fields os_path_join CACHE_CANDIDATES plat
              (keyed rom_FN plat s)) as (_ & _ & Hc & _).
  rewrite Hc. reflexivity.
Qed.
End PurgeLemmas.

(** ** Candidate resolution *)

Global Instance no_search_since_preorder : PreOrder no_search_since.
Proof.
  split.
  - intros s. exists []. split; [reflexivity|constructor].
  - intros s1 s2 s3 (e1 & H1 & F1) (e2 & H2 & F2).
    exists (e2 ++ e1). split.
    + rewrite H2, H1, app_assoc. reflexivity.
    + apply Forall_app. split; assumption.
Qed.

Lemma no_search_on_obj (f : Scraper -> Scraper) :
  respects no_search_since (on_obj f).
Proof. intros s. exists []. split; [reflexivity|constructor]. Qed.

Lemma no_search_say e :
  is_search e = false -> respects no_search_since (say e).
Proof.
  intros H s. exists [e]. split; [reflexivity|]. repeat constructor. exact H.
Qed.

Ltac no_search_tac :=
  repeat first
    [ apply no_search_on_obj
    | apply no_search_say; reflexivity
    | respects_step ].

Section CandidateResolution.
  Variable os_path_join : string -> string -> string.
  Variable ListDialog_select : string -> list pyval -> Z.
  Variable get_candidates_impl :
    string -> FileName -> FileName -> string -> status_dic -> Scraper ->
    option (list pyval) * status_dic * Scraper.

Lemma no_search_set_candidate rom_FN plat c :
  respects no_search_since (set_candidate os_path_join rom_FN plat c).
Proof.
  unfold set_candidate, _update_disk_cache, _lazy_load_disk_cache,
    _load_disk_cache, _get_scraper_file_name.
  no_search_tac.
Qed.

Lemma no_search_choose_candidate self ROM_path cands st :
  respects no_search_since
    (choose_candidate os_path_join ListDialog_select self ROM_path cands st).
Proof.
  unfold choose_candidate, show_error.
  repeat first
    [ apply no_search_set_candidate
    | apply no_search_on_obj
    | apply no_search_say; reflexivity
    | respects_step
    | case_decide ].
Qed.

Lemma resolve_candidate_hit self rom chk term st0 (s : SW) v :
  let ROM_path := get_file rom in
  let plat := s_platform self in
  ~ cache_unreadable os_path_join CACHE_CANDIDATES plat s ->
  dict_get (getBase ROM_path)
    (cache_contents os_path_join CACHE_CANDIDATES plat s) = Ok v ->
  exists s',
    resolve_candidate os_path_join ListDialog_select get_candidates_impl
      self rom chk term st0 s = (Ok st0, s') /\
    candidate (obj s') = v /\
    world s' = world s.
Proof.
  cbv zeta. intros Hr Hv.
  assert (Hm : dict_mem (getBase (get_file rom))
                 (cache_contents os_path_join CACHE_CANDIDATES
                    (s_platform self) s) = true).
  { destruct (dict_mem _ _) eqn:E; [reflexivity|].
    apply dict_mem_get_false in E. congruence. }
  destruct (lazy_loaded_fields os_path_join CACHE_CANDIDATES (s_platform self)
              (keyed (get_file rom) (s_platform self) s))
    as (Hw & _ & Hc & _).
  change (cache_contents os_path_join CACHE_CANDIDATES (s_platform self)
            (keyed (get_file rom) (s_platform self) s))
    with (cache_contents os_path_join CACHE_CANDIDATES (s_platform self) s)
    in Hc.
  eexists. split; [|split].
  - unfold resolve_candidate. unfold bind at 1.
    rewrite (check_candidates_cache_eq os_path_join _ _ s Hr). rewrite Hm.
    unfold retrieve_from_candidates_cache, set_candidate_from_cache,
      _retrieve_from_disk_cache, bind, on_obj, modify, gets, lift_result, ret.
    cbn -[lazy_loaded cache_contents pc_get].
    rewrite Hc, Hv. cbn -[lazy_loaded cache_contents pc_get].
    rewrite Hc, Hv. cbn -[lazy_loaded cache_contents pc_get].
    reflexivity.
  - reflexivity.
  - cbn -[lazy_loaded]. exact Hw.
Qed.

Lemma scanner_get_candidate_prefix self rom chk term st0 o w :
  _scanner_get_candidate os_path_join ListDialog_select get_candidates_impl
    self rom chk term st0 {| obj := o; world := w |}
  = resolve_candidate os_path_join ListDialog_select get_candidates_impl
      self rom chk term st0
      {| obj := o;
         world := if debugose (pdialogger self)
                  then emit (Ev_pdialog (updateMessage2
                         ("Searching games with scraper " +:+ get_name o +:+
                          "..."))) w
                  else w |}.
Proof.
  unfold _scanner_get_candidate, bind, gets, say, on_world, modify, ret.
  cbn [obj world]. destruct (debugose (pdialogger self)); reflexivity.
Qed.

End CandidateResolution.


(** ** Metadata execution *)

Section MetadataFallback.
  Variable format_ROM_title : string -> bool -> string.
  Variable get_metadata_impl :
    status_dic -> Scraper -> pyval * status_dic * Scraper.

Lemma scrap_metadata_fallback_eq (s : Scan) o :
  let title := PStr (format_ROM_title (getBaseNoExt (get_file (sc_rom s)))
                       (scan_clean_tags (sc_self s))) in
  let message :=
    if debug (pdialogger (sc_self s))
    then [Ev_pdialog (updateMessage2
            ("Scraping metadata with " +:+ get_name o +:+ "..."))]
    else [] in
  meta_scraper_obj (sc_self s) = Some o ->
  truthy (candidate o) = false ->
  exists s1,
    sc_rom s1 = set_name (sc_rom s) title /\
    fs (sc_world s1) = fs (sc_world s) /\
    log (sc_world s1) = Ev_set_name title :: message ++ log (sc_world s) /\
    scan_update_NFO_files (sc_self s1) = scan_update_NFO_files (sc_self s) /\
    _scanner_scrap_ROM_metadata format_ROM_title get_metadata_impl s
    = (if is_None (candidate o) then ret tt else _scanner_update_NFO_file) s1.
Proof.
  cbv zeta. intros Ho Ht. destruct s as [x rom w].
  cbn [sc_self sc_rom sc_world] in *.
  unfold _scanner_scrap_ROM_metadata, clean_title_only, rom_set_name,
    with_meta_scraper, bind, gets, tell, on_rom, modify, ret.
  destruct (debug (pdialogger x)) eqn:Ed, (is_None (candidate o)) eqn:En;
    repeat (progress (cbn -[_scanner_update_NFO_file];
                      rewrite ?Ho, ?Ht, ?En, ?Ed));
    eexists; (repeat split); reflexivity.
Qed.

Lemma update_NFO_file_eq (s : Scan) :
  _scanner_update_NFO_file s
  = (if scan_update_NFO_files (sc_self s) then Raise NameError else Ok tt, s).
Proof.
  unfold _scanner_update_NFO_file, bind, gets, raise, ret. cbn [fst snd].
  destruct (scan_update_NFO_files (sc_self s)); reflexivity.
Qed.

Lemma process_metadata_scraper (s : Scan) :
  metadata_action (sc_self s) = Some ACTION_META_SCRAPER ->
  _scanner_process_ROM_metadata format_ROM_title get_metadata_impl s
  = _scanner_scrap_ROM_metadata format_ROM_title get_metadata_impl s.
Proof.
  intros Ha. unfold _scanner_process_ROM_metadata, bind at 1, attr.
  rewrite Ha. reflexivity.
Qed.

(** C7, as the code has it.  With the action "query-provider" and an active
    candidate that is null or empty, the metadata execution sets the title
    of the ROM from the cleaned file name; [s1] is the state then reached.
    With a null candidate (a search error) the method returns there, and
    the NFO update routine is not called.  With an empty candidate it goes
    on with [_scanner_update_NFO_file] on that state: the routine returns
    at once when NFO updates are switched off, and stops at the undefined
    name of the export function when they are switched on.  No NFO file
    is exported in either case. *)
Theorem metadata_fallback (s : Scan) o :
  let run := _scanner_process_ROM_metadata format_ROM_title
               get_metadata_impl in
  let title := PStr (format_ROM_title (getBaseNoExt (get_file (sc_rom s)))
                       (scan_clean_tags (sc_self s))) in
  let message :=
    if debug (pdialogger (sc_self s))
    then [Ev_pdialog (updateMessage2
            ("Scraping metadata with " +:+ get_name o +:+ "..."))]
    else [] in
  metadata_action (sc_self s) = Some ACTION_META_SCRAPER ->
  meta_scraper_obj (sc_self s) = Some o ->
  truthy (candidate o) = false ->
  exists s1,
    sc_rom s1 = set_name (sc_rom s) title /\
    fs (sc_world s1) = fs (sc_world s) /\
    log (sc_world s1) = Ev_set_name title :: message ++ log (sc_world s) /\
    scan_update_NFO_files (sc_self s1) = scan_update_NFO_files (sc_self s) /\
    (is_None (candidate o) = true -> run s = (Ok tt, s1)) /\
    (is_None (candidate o) = false ->
       run s = _scanner_update_NFO_file s1 /\
       run s = (if scan_update_NFO_files (sc_self s)
                then Raise NameError else Ok tt, s1)).
Proof.
  cbv zeta. intros Ha Ho Ht. rewrite (process_metadata_scraper s Ha).
  destruct (scrap_metadata_fallback_eq s o Ho Ht)
    as (s1 & Hrom & Hfs & Hlog & Hupd & Hrun).
  exists s1. split; [exact Hrom|]. split; [exact Hfs|].
  split; [exact Hlog|]. split; [exact Hupd|].
  rewrite Hrun. split; intros Hn; rewrite Hn.
  - reflexivity.
  - split; [reflexivity|]. rewrite update_NFO_file_eq, Hupd. reflexivity.
Qed.
End MetadataFallback.

Lemma metadata_fallback_witness :
  let out := _scanner_process_ROM_metadata title_example
               (fun st o => (PNone, st, o))
               (metadata_scan_example (PDict [])) in
  out.1 = Raise NameError /\
  m_name (sc_rom out.2) = PStr "Sonic" /\
  log (sc_world out.2) = [Ev_set_name (PStr "Sonic")].
Proof.
  cbv zeta.
  destruct (metadata_fallback title_example (fun st o => (PNone, st, o))
              (metadata_scan_example (PDict []))
              (set_candidate_attr (PDict []) (scraper_example true))
              eq_refl eq_refl eq_refl)
    as (s1 & Hrom & _ & Hlog & _ & _ & Hempty).
  destruct (Hempty eq_refl) as [_ Hrun]. rewrite Hrun. cbn [fst snd].
  split; [reflexivity|]. split; [rewrite Hrom; reflexivity|].
  rewrite Hlog. reflexivity.
Defined.

(** C7 as written fails in the null case: after a search error, and with
    NFO updates asked for, no NFO file is exported. *)
Lemma null_candidate_no_NFO_counterexample :
  ~ fallback_writes_NFO title_example
      (fun st o => (PNone, st, o)) (metadata_scan_example PNone).
Proof.
  intros H.
  destruct (H (set_candidate_attr PNone (scraper_example true))
              eq_refl eq_refl eq_refl eq_refl) as [romdata Hin].
  vm_compute in Hin.
  apply elem_of_cons in Hin as [Hin|Hin]; [discriminate|inversion Hin].
Qed.


(** ** Asset execution *)

Section AssetExecution.
  Variable net_download_img : string -> string -> result unit.
  Variable ASSET_TRAILER_ID : string.
  Variable get_asset_path : AssetInfo -> string.
  Variable FN_add : string -> string -> string.
  Variable FN_append : string -> string -> string.
  Variable get_assets_impl :
    AssetInfo -> status_dic -> Scraper ->
    option (list pyval) * status_dic * Scraper.
  Variable resolve_asset_URL_impl :
    pyval -> status_dic -> Scraper ->
    option (pyval * pyval) * status_dic * Scraper.
  Variable resolve_asset_URL_extension_impl :
    pyval -> pyval -> status_dic -> Scraper -> pyval * status_dic * Scraper.
  Variable asset_id : string.

Global Instance quiet_about_preorder :
  PreOrder (quiet_about ASSET_TRAILER_ID asset_id).
Proof.
  split.
  - intros s. exists []. split; [reflexivity|constructor].
  - intros s1 s2 s3 (e1 & H1 & F1) (e2 & H2 & F2).
    exists (e2 ++ e1). split.
    + rewrite H2, H1, app_assoc. reflexivity.
    + apply Forall_app. split; assumption.
Qed.

Global Instance untouched_preorder :
  PreOrder (untouched ASSET_TRAILER_ID asset_id).
Proof.
  split.
  - intros s. repeat split. exists []. split; [reflexivity|constructor].
  - intros s1 s2 s3 (A1 & B1 & C1 & D1 & e1 & H1 & F1)
      (A2 & B2 & C2 & D2 & e2 & H2 & F2).
    split; [congruence|]. split; [congruence|]. split; [congruence|].
    split; [congruence|].
    exists (e2 ++ e1). split.
    + rewrite H2, H1, app_assoc. reflexivity.
    + apply Forall_app. split; assumption.
Qed.

Lemma quiet_on_obj (f : Scraper -> Scraper) :
  respects (quiet_about ASSET_TRAILER_ID asset_id) (on_obj f).
Proof. intros s. exists []. split; [reflexivity|constructor]. Qed.

Lemma quiet_say e :
  event_asset ASSET_TRAILER_ID e <> Some asset_id ->
  respects (quiet_about ASSET_TRAILER_ID asset_id) (say e).
Proof.
  intros H s. exists [e]. split; [reflexivity|]. repeat constructor. exact H.
Qed.

Lemma quiet_on_world_emit e :
  event_asset ASSET_TRAILER_ID e <> Some asset_id ->
  respects (quiet_about ASSET_TRAILER_ID asset_id) (on_world (emit e)).
Proof. apply quiet_say. Qed.

Lemma untouched_tell e :
  event_asset ASSET_TRAILER_ID e <> Some asset_id ->
  respects (untouched ASSET_TRAILER_ID asset_id) (tell e).
Proof.
  intros H s. repeat split. exists [e]. split; [reflexivity|].
  repeat constructor. exact H.
Qed.

Lemma untouched_with_asset_scraper {A} (c : M SW A) :
  respects (quiet_about ASSET_TRAILER_ID asset_id) c ->
  respects (untouched ASSET_TRAILER_ID asset_id) (with_asset_scraper c).
Proof.
  intros Hc s. unfold with_asset_scraper.
  destruct (asset_scraper_obj (sc_self s)) as [o|]; [|reflexivity].
  specialize (Hc {| obj := o; world := sc_world s |}).
  destruct (c _) as [r s']. cbn in *.
  repeat split. exact Hc.
Qed.

Lemma untouched_on_rom (f : ROM -> ROM) :
  (forall r, asset_slot (f r) asset_id = asset_slot r asset_id) ->
  respects (untouched ASSET_TRAILER_ID asset_id) (on_rom f).
Proof.
  intros H s. split; [apply H|]. repeat split.
  exists []. split; [reflexivity|constructor].
Qed.

Ltac untouched_tac :=
  repeat first
    [ apply untouched_tell; cbn; first [discriminate | congruence]
    | apply untouched_with_asset_scraper
    | apply quiet_on_obj
    | apply quiet_say; cbn; first [discriminate | congruence]
    | apply quiet_on_world_emit; cbn; first [discriminate | congruence]
    | respects_step
    | case_decide ].

Lemma untouched_scrap_ROM_asset asset_info local_asset_path :
  a_id asset_info <> asset_id ->
  respects (untouched ASSET_TRAILER_ID asset_id)
    (_scanner_scrap_ROM_asset net_download_img get_asset_path FN_add
       FN_append get_assets_impl resolve_asset_URL_impl
       resolve_asset_URL_extension_impl asset_info local_asset_path).
Proof.
  intros Hne.
  unfold _scanner_scrap_ROM_asset, select_asset, after_call, show_error_scan,
    get_assets, resolve_asset_URL, resolve_asset_URL_extension, download_image,
    as_str.
  untouched_tac.
Qed.

Lemma asset_slot_set_asset_ne r AInfo path :
  a_id AInfo <> asset_id ->
  asset_slot (set_asset r AInfo path) asset_id = asset_slot r asset_id.
Proof.
  intros Hne. unfold asset_slot, set_asset, with_assets. cbn.
  rewrite lookup_insert_ne by exact Hne. reflexivity.
Qed.

Lemma untouched_process_one_asset AInfo :
  a_id AInfo <> asset_id ->
  respects (untouched ASSET_TRAILER_ID asset_id)
    (process_one_asset net_download_img ASSET_TRAILER_ID get_asset_path FN_add
       FN_append get_assets_impl resolve_asset_URL_impl
       resolve_asset_URL_extension_impl AInfo).
Proof.
  intros Hne.
  unfold process_one_asset, asset_action, local_asset, rom_set_asset.
  repeat first
    [ apply untouched_scrap_ROM_asset; exact Hne
    | apply untouched_tell; cbn; first [discriminate | congruence]
    | apply untouched_on_rom; intros ?; apply asset_slot_set_asset_ne; exact Hne
    | lazymatch goal with
      | |- respects _ (if String.eqb ?a ?b then _ else _) =>
          destruct (String.eqb_spec a b)
      end
    | respects_step ].
  all: unfold rom_set_trailer;
    repeat first
      [ apply untouched_tell; cbn; congruence
      | apply untouched_on_rom; intros ?; unfold asset_slot, with_assets; cbn;
        rewrite lookup_insert_ne by congruence; reflexivity
      | respects_step ].
Qed.

(** An asset the ROM already has is passed over when nothing may be
    overwritten: the state is left as it is. *)
Lemma process_one_asset_skip AInfo (s : Scan) :
  overwrite_existing (scraper_settings (sc_self s)) = false ->
  has_asset (sc_rom s) AInfo = true ->
  (process_one_asset net_download_img ASSET_TRAILER_ID get_asset_path FN_add
     FN_append get_assets_impl resolve_asset_URL_impl
     resolve_asset_URL_extension_impl AInfo s).2 = s.
Proof.
  intros Ho Hh.
  unfold process_one_asset, asset_action, bind, attr, lift_result, gets, ret.
  destruct (asset_action_list (sc_self s)) as [acts|]; [|reflexivity].
  destruct (map_getitem acts (a_id AInfo)) as [act|e]; [|reflexivity].
  destruct (act =? ACTION_ASSET_NONE); [reflexivity|].
  rewrite Ho, Hh. reflexivity.
Qed.

Lemma process_assets_loop l : forall (s : Scan),
  overwrite_existing (scraper_settings (sc_self s)) = false ->
  asset_truthy (asset_slot (sc_rom s) asset_id) = true ->
  untouched ASSET_TRAILER_ID asset_id s
    (for_each l
       (process_one_asset net_download_img ASSET_TRAILER_ID get_asset_path
          FN_add FN_append get_assets_impl
          resolve_asset_URL_impl resolve_asset_URL_extension_impl) s).2.
Proof.
  induction l as [|b l IH]; intros s Ho Hh; [reflexivity|].
  cbn [for_each]. unfold bind.
  destruct (decide (a_id b = asset_id)) as [Heq|Hne].
  - pose proof (process_one_asset_skip b s Ho) as Hskip.
    unfold has_asset in Hskip. rewrite Heq in Hskip. specialize (Hskip Hh).
    destruct (process_one_asset _ _ _ _ _ _ _ _ b s) as [[[]|e] s1];
      cbn [snd] in *; subst s1; [apply IH; assumption|reflexivity].
  - pose proof (untouched_process_one_asset b Hne s) as H1.
    destruct (process_one_asset _ _ _ _ _ _ _ _ b s) as [[[]|e] s1];
      cbn [snd] in *; [|exact H1].
    etrans; [exact H1|]. destruct H1 as (Hslot & Hset & _).
    apply IH; [rewrite Hset; exact Ho|rewrite Hslot; exact Hh].
Qed.

End AssetExecution.

Section AssetTheorem.
  Variable net_download_img : string -> string -> result unit.
  Variable ASSET_TRAILER_ID : string.
  Variable get_asset_path : AssetInfo -> string.
  Variable FN_add : string -> string -> string.
  Variable FN_append : string -> string -> string.
  Variable get_assets_impl :
    AssetInfo -> status_dic -> Scraper ->
    option (list pyval) * status_dic * Scraper.
  Variable resolve_asset_URL_impl :
    pyval -> status_dic -> Scraper ->
    option (pyval * pyval) * status_dic * Scraper.
  Variable resolve_asset_URL_extension_impl :
    pyval -> pyval -> status_dic -> Scraper -> pyval * status_dic * Scraper.

(** C8.  When [overwrite_existing] is false and the ROM already carries an
    asset, the asset execution leaves the slot of that asset as it is and
    does nothing for it, whatever action was planned: the log gains no call
    of [set_asset] or [set_trailer] for it and no scraper or download
    operation for it.  This holds whether the execution ends normally or
    with an exception raised for another asset. *)
Theorem assets_no_overwrite (s : Scan) (AInfo : AssetInfo) :
  let out := _scanner_process_ROM_assets net_download_img ASSET_TRAILER_ID
               get_asset_path FN_add FN_append get_assets_impl
               resolve_asset_URL_impl resolve_asset_URL_extension_impl s in
  overwrite_existing (scraper_settings (sc_self s)) = false ->
  has_asset (sc_rom s) AInfo = true ->
  asset_slot (sc_rom out.2) (a_id AInfo) = asset_slot (sc_rom s) (a_id AInfo) /\
  exists evs,
    log (sc_world out.2) = evs ++ log (sc_world s) /\
    Forall (fun e => event_asset ASSET_TRAILER_ID e <> Some (a_id AInfo)) evs.
Proof.
  cbv zeta. intros Ho Hh.
  unfold _scanner_process_ROM_assets, bind, attr, gets, ret.
  destruct (asset_action_list (sc_self s)) as [acts|];
    [|split; [reflexivity|exists []; split; [reflexivity|constructor]]].
  destruct (bool_decide _);
    [split; [reflexivity|exists []; split; [reflexivity|constructor]]|].
  destruct (process_assets_loop net_download_img ASSET_TRAILER_ID
              get_asset_path FN_add FN_append get_assets_impl
              resolve_asset_URL_impl resolve_asset_URL_extension_impl
              (a_id AInfo) (enabled_asset_list (sc_self s)) s Ho Hh)
    as (Hslot & _ & _ & _ & Hev).
  split; [exact Hslot|exact Hev].
Qed.
End AssetTheorem.

Lemma assets_no_overwrite_witness :
  let out := _scanner_process_ROM_assets (fun _ _ => Ok tt) "trailer"
               (fun a => "/assets/" +:+ a_id a +:+ "/")
               String.append String.append
               (fun _ st o => (Some [], st, o))
               (fun _ st o => (None, st, o))
               (fun _ _ st o => (PNone, st, o))
               (assets_scan_example false) in
  asset_slot (sc_rom out.2) "fanart" = AFile "/old/fanart.png" /\
  asset_slot (sc_rom out.2) "snap" = AFile "/local/snap.png".
Proof.
  cbv zeta.
  destruct (assets_no_overwrite (fun _ _ => Ok tt) "trailer"
              (fun a => "/assets/" +:+ a_id a +:+ "/")
              String.append String.append
              (fun _ st o => (Some [], st, o))
              (fun _ st o => (None, st, o))
              (fun _ _ st o => (PNone, st, o))
              (assets_scan_example false) fanart eq_refl eq_refl)
    as [Hslot _].
  split; [etrans; [exact Hslot|vm_compute; reflexivity]|].
  vm_compute. reflexivity.
Defined.

(** With [overwrite_existing] set, the same plan replaces the fanart. *)
Example assets_overwrite_example :
  let out := _scanner_process_ROM_assets (fun _ _ => Ok tt) "trailer"
               (fun a => "/assets/" +:+ a_id a +:+ "/")
               String.append String.append
               (fun _ st o => (Some [], st, o))
               (fun _ st o => (None, st, o))
               (fun _ _ st o => (PNone, st, o))
               (assets_scan_example true) in
  asset_slot (sc_rom out.2) "fanart" = AFile "/new/fanart.png".
Proof. vm_compute. reflexivity. Qed.

(** ** The error counter *)

Global Instance same_errors_preorder : PreOrder same_errors.
Proof.
  split.
  - intros s. split; reflexivity.
  - intros s1 s2 s3 [H1 H2] [H3 H4]. split; congruence.
Qed.

Lemma same_errors_on_obj (f : Scraper -> Scraper) :
  (forall o, exception_counter (f o) = exception_counter o /\
             scraper_disabled (f o) = scraper_disabled o) ->
  respects same_errors (on_obj f).
Proof. intros H s. apply (H (obj s)). Qed.

Lemma same_errors_on_world (f : World -> World) :
  respects same_errors (on_world f).
Proof. intros s. split; reflexivity. Qed.

Ltac same_errors_tac :=
  repeat first
    [ apply same_errors_on_world
    | apply same_errors_on_obj; intros ?; split; reflexivity
    | respects_step ].

Section Breaker.
  Variable os_path_join : string -> string -> string.
  Variable net_download_img : string -> string -> result unit.

Lemma same_errors_lazy_load ct :
  respects same_errors (_lazy_load_disk_cache os_path_join ct).
Proof.
  unfold _lazy_load_disk_cache, _load_disk_cache, _get_scraper_file_name.
  same_errors_tac.
Qed.

Lemma same_errors_check ct key :
  respects same_errors (_check_disk_cache os_path_join ct key).
Proof.
  unfold _check_disk_cache. respects_step; [apply same_errors_lazy_load|].
  same_errors_tac.
Qed.

Lemma same_errors_retrieve ct key :
  respects same_errors (_retrieve_from_disk_cache ct key).
Proof. unfold _retrieve_from_disk_cache. same_errors_tac. Qed.

Lemma same_errors_delete ct key :
  respects same_errors (_delete_from_disk_cache ct key).
Proof. unfold _delete_from_disk_cache. same_errors_tac. Qed.

Lemma same_errors_update ct key data :
  respects same_errors (_update_disk_cache os_path_join ct key data).
Proof.
  unfold _update_disk_cache. respects_step; [apply same_errors_lazy_load|].
  same_errors_tac.
Qed.

Lemma same_errors_flush pd :
  respects same_errors (flush_disk_cache os_path_join pd).
Proof.
  unfold flush_disk_cache. same_errors_tac;
    unfold flush_one, _get_scraper_file_name; same_errors_tac.
Qed.

(** Every operation of the base class other than the error handler keeps
    the error counter and the disabled flag. *)
Lemma same_errors_run_op op :
  is_error_op op = false ->
  respects same_errors (run_op os_path_join net_download_img op).
Proof.
  destruct op; intros Hop; try discriminate; cbn [run_op];
    unfold check_candidates_cache, retrieve_from_candidates_cache,
      set_candidate_from_cache, set_candidate, clear_cache, purge_one,
      download_image, _wait_for_API_request;
    repeat first
      [ apply same_errors_check | apply same_errors_retrieve
      | apply same_errors_delete | apply same_errors_update
      | apply same_errors_flush
      | apply same_errors_on_world
      | apply same_errors_on_obj; intros ?; split; reflexivity
      | respects_step ].
Qed.

Lemma handle_error_eq st user_msg (s : SW) :
  let n := exception_counter (obj s) + 1 in
  let exceeded := EXCEPTION_COUNTER_THRESHOLD <? n in
  _handle_error st user_msg s =
    (Ok {| status := false; dialog := KODI_MESSAGE_DIALOG;
           msg := if exceeded
                  then "Maximum number of errors exceeded. Disabling scraper."
                  else user_msg |},
     {| obj := set_errors n (exceeded || scraper_disabled (obj s)) (obj s);
        world := world s |}).
Proof.
  cbv zeta. unfold _handle_error, bind, on_obj, modify, gets, ret. cbn.
  destruct (EXCEPTION_COUNTER_THRESHOLD <? exception_counter (obj s) + 1);
    reflexivity.
Qed.

Lemma run_op_error op (s : SW) :
  is_error_op op = true ->
  let s' := (run_op os_path_join net_download_img op s).2 in
  exception_counter (obj s') = exception_counter (obj s) + 1 /\
  scraper_disabled (obj s') =
    (EXCEPTION_COUNTER_THRESHOLD <? exception_counter (obj s) + 1)
    || scraper_disabled (obj s).
Proof.
  destruct op; intros Hop; try discriminate; cbv zeta; cbn [run_op];
    unfold _handle_exception, bind; rewrite handle_error_eq; cbn;
    split; reflexivity.
Qed.

Lemma run_ops_errors ops : forall s,
  0 <= exception_counter (obj s) ->
  breaker_consistent s ->
  let s' := run_ops os_path_join net_download_img ops s in
  exception_counter (obj s') = exception_counter (obj s) + count_errors ops /\
  breaker_consistent s'.
Proof.
  induction ops as [|op ops IH]; intros s Hpos Hinv; cbv zeta.
  - unfold count_errors. cbn. split; [lia|exact Hinv].
  - cbn [run_ops foldl].
    set (s1 := (run_op os_path_join net_download_img op s).2).
    assert (H1 : exception_counter (obj s1)
                 = exception_counter (obj s)
                   + (if is_error_op op then 1 else 0)
                 /\ breaker_consistent s1).
    { destruct (is_error_op op) eqn:Hop.
      - destruct (run_op_error op s Hop) as [Hc Hd]. fold s1 in Hc, Hd.
        split; [exact Hc|]. unfold breaker_consistent in *.
        rewrite Hd, Hc, Hinv. unfold EXCEPTION_COUNTER_THRESHOLD.
        destruct (Z.ltb_spec 5 (exception_counter (obj s) + 1)),
          (Z.ltb_spec 5 (exception_counter (obj s))); cbn; try reflexivity; lia.
      - destruct (same_errors_run_op op Hop s) as [Hc Hd]. fold s1 in Hc, Hd.
        split; [lia|]. unfold breaker_consistent in *. congruence. }
    destruct H1 as [Hc1 Hi1].
    destruct (IH s1) as [Hc Hi]; [destruct (is_error_op op); lia|exact Hi1|].
    fold (run_ops os_path_join net_download_img ops s1).
    split; [|exact Hi]. rewrite Hc, Hc1. unfold count_errors. cbn [filter].
    rewrite filter_cons. destruct (is_error_op op) eqn:Hop.
    + rewrite decide_True by reflexivity. cbn [length]. lia.
    + rewrite decide_False by discriminate. lia.
Qed.

Lemma run_ops_stays_disabled ops : forall s,
  scraper_disabled (obj s) = true ->
  scraper_disabled (obj (run_ops os_path_join net_download_img ops s)) = true.
Proof.
  induction ops as [|op ops IH]; intros s Hd; [exact Hd|].
  cbn [run_ops foldl]. apply IH.
  destruct (is_error_op op) eqn:Hop.
  - destruct (run_op_error op s Hop) as [_ H]. rewrite H, Hd.
    apply orb_true_r.
  - destruct (same_errors_run_op op Hop s) as [_ H]. rewrite H. exact Hd.
Qed.

Lemma download_image_eq image_url image_local_path (s : SW) :
  download_image net_download_img image_url image_local_path s
  = (match net_download_img image_url image_local_path with
     | Ok _ => Ok image_local_path
     | Raise e => Raise e
     end,
     {| obj := obj s;
        world := emit (Ev_net_download_img image_url image_local_path)
                   (world s) |}).
Proof.
  unfold download_image, bind, on_world, modify, lift_result, ret. cbn.
  destruct (net_download_img image_url image_local_path); reflexivity.
Qed.

(** C4, as the code has it.  Each call of the error handler reports a
    failure and adds one to the error counter; the disabled flag is set by
    the call that takes the counter above [EXCEPTION_COUNTER_THRESHOLD], and
    that call replaces the message by the notice that the scraper is
    disabled.  On an instance whose counter is 0 and whose flag is clear,
    after any sequence of operations of the base class the counter is the
    number of recorded errors and the flag is set exactly when that number
    exceeds 5, so after 6 errors and not after 5; on any instance no
    operation of the base class resets the flag.  The base class does not
    consult the flag: [download_image] calls the transport on every
    instance, disabled or not. *)
Theorem circuit_breaker :
  (forall st user_msg (s : SW),
     let out := _handle_error st user_msg s in
     let n := exception_counter (obj s) + 1 in
     exists st', out.1 = Ok st' /\ status st' = false /\
       exception_counter (obj out.2) = n /\
       world out.2 = world s /\
       (EXCEPTION_COUNTER_THRESHOLD < n ->
          scraper_disabled (obj out.2) = true /\
          msg st' = "Maximum number of errors exceeded. Disabling scraper.") /\
       (n <= EXCEPTION_COUNTER_THRESHOLD ->
          scraper_disabled (obj out.2) = scraper_disabled (obj s) /\
          msg st' = user_msg)) /\
  (forall ops (s0 : SW),
     exception_counter (obj s0) = 0 ->
     scraper_disabled (obj s0) = false ->
     let s := run_ops os_path_join net_download_img ops s0 in
     exception_counter (obj s) = count_errors ops /\
     scraper_disabled (obj s) = (5 <? count_errors ops)) /\
  (forall ops (s : SW),
     scraper_disabled (obj s) = true ->
     scraper_disabled (obj (run_ops os_path_join net_download_img ops s))
     = true) /\
  (forall image_url image_local_path (s : SW),
     log (world (download_image net_download_img image_url image_local_path
                   s).2)
     = Ev_net_download_img image_url image_local_path :: log (world s)).
Proof.
  split; [|split; [|split]].
  - intros st user_msg s. cbv zeta. rewrite handle_error_eq. cbv zeta.
    eexists. split; [reflexivity|]. cbn.
    repeat split; try reflexivity.
    + apply Z.ltb_lt in H. rewrite H. reflexivity.
    + apply Z.ltb_lt in H. rewrite H. reflexivity.
    + apply Z.ltb_ge in H. rewrite H. reflexivity.
    + apply Z.ltb_ge in H. rewrite H. reflexivity.
  - intros ops s0 Hc0 Hd0. cbv zeta.
    destruct (run_ops_errors ops s0) as [Hc Hi].
    { rewrite Hc0. lia. }
    { unfold breaker_consistent. rewrite Hc0, Hd0. reflexivity. }
    split.
    + rewrite Hc, Hc0. lia.
    + rewrite Hi, Hc, Hc0. cbn. reflexivity.
  - intros ops s. apply run_ops_stays_disabled.
  - intros image_url image_local_path s. rewrite download_image_eq.
    reflexivity.
Qed.
End Breaker.

Lemma run_ops_app os_path_join net_download_img ops1 ops2 (s : SW) :
  run_ops os_path_join net_download_img (ops1 ++ ops2) s
  = run_ops os_path_join net_download_img ops2
      (run_ops os_path_join net_download_img ops1 s).
Proof. unfold run_ops. apply foldl_app. Qed.

Lemma circuit_breaker_witness :
  let s0 := throttle_example 0 in
  let run := run_ops (fun d f => d +:+ "/" +:+ f) (fun _ _ => Ok tt) in
  scraper_disabled (obj (run (take 5 six_errors) s0)) = false /\
  scraper_disabled (obj (run six_errors s0)) = true /\
  scraper_disabled
    (obj (run (six_errors ++ [op_clear_cache sonic "Sega Genesis";
                             op_flush_disk_cache false]) s0)) = true.
Proof.
  cbv zeta.
  destruct (circuit_breaker (fun d f => d +:+ "/" +:+ f) (fun _ _ => Ok tt))
    as (_ & H & Hkeep & _).
  pose proof (H (take 5 six_errors) (throttle_example 0) eq_refl eq_refl)
    as H5.
  pose proof (H six_errors (throttle_example 0) eq_refl eq_refl) as H6.
  cbv zeta in H5, H6. destruct H5 as [_ H5], H6 as [_ H6].
  split; [|split].
  - rewrite H5. vm_compute. reflexivity.
  - rewrite H6. vm_compute. reflexivity.
  - rewrite run_ops_app. apply Hkeep. rewrite H6. vm_compute. reflexivity.
Defined.

(** C4 as written fails on [download_image]: on an instance disabled by six
    errors the call reaches the transport and returns the path. *)
Lemma disabled_download_counterexample :
  let s := run_ops (fun d f => d +:+ "/" +:+ f) (fun _ _ => Ok tt)
             six_errors (throttle_example 0) in
  ~ short_circuits
      (download_image (fun _ _ => Ok tt) "http://example.org/fanart.png"
         "/assets/fanart/Sonic (USA).png")
      (fun path => String.eqb path "") s.
Proof.
  cbv zeta. intros H. destruct H as [_ H]; [reflexivity|].
  vm_compute in H. discriminate.
Qed.


(** ** The throttle *)

Lemma wait_for_API_request_eq (wait : Z) (s : SW) :
  _wait_for_API_request wait s
  = (if wait =? 0 then Ok tt else Raise AttributeError, s).
Proof.
  unfold _wait_for_API_request. destruct (wait =? 0); reflexivity.
Qed.

(** C9, as the code has it.  The throttle returns at once for a zero
    interval.  For every other interval it stops at [datetime.now()], where
    the module [datetime] is asked for an attribute it does not have: the
    method raises [AttributeError] and leaves the object and the world as
    they were, so that it never compares the elapsed time with the interval
    and never sleeps, however short the time since [last_http_call].  The
    constructor, which is to record the instant of the previous call in
    [last_http_call], stops at the same expression.  So does the call with
    the default interval of 1000 ms made 900 ms after [last_http_call]:
    the clock and the log are unchanged. *)
Theorem wait_for_API_request_raises :
  (forall wait (s : SW),
     _wait_for_API_request wait s
     = (if wait =? 0 then Ok tt else Raise AttributeError, s)) /\
  (forall settings, Scraper_init settings = Raise AttributeError) /\
  (let out := _wait_for_API_request 1000 (throttle_example 900000) in
   out.1 = Raise AttributeError /\
   clock (world out.2) = 900000 /\
   log (world out.2) = []).
Proof.
  split; [exact wait_for_API_request_eq|].
  split; [reflexivity|].
  cbv zeta. rewrite wait_for_API_request_eq. repeat split.
Qed.

(** ** More on the BIOS filter *)

Lemma prefix_iff pat : forall s,
  String.prefix pat s = true <-> exists post, s = pat +:+ post.
Proof.
  induction pat as [|a pat IH]; intros s.
  - destruct s; cbn; split; eauto.
  - destruct s as [|b s]; cbn.
    + split; [discriminate|]. intros [post H]. discriminate.
    + destruct (ascii_dec a b) as [->|Hne].
      * rewrite IH. split; intros [post H]; exists post.
        -- rewrite H. reflexivity.
        -- injection H as H. exact H.
      * split; [discriminate|]. intros [post H]. injection H as H1 _.
        congruence.
Qed.

Lemma re_findall_literal_found pat : forall s,
  pat <> "" ->
  re_findall_literal pat s 0 <> []
  <-> exists pre post, s = pre +:+ pat +:+ post.
Proof.
  intros s Hpat. induction s as [|c s IH].
  - cbn. split; [congruence|]. intros (pre & post & H).
    destruct pre; [|discriminate]. destruct pat; [congruence|discriminate].
  - cbn [re_findall_literal].
    destruct (String.prefix pat (String c s)) eqn:Ep.
    + split; [|discriminate]. intros _.
      apply prefix_iff in Ep as [post Hpost]. exists "", post. exact Hpost.
    + rewrite IH. split.
      * intros (pre & post & H). exists (String c pre), post. rewrite H.
        reflexivity.
      * intros (pre & post & H). destruct pre as [|c' pre].
        -- cbn in H. assert (String.prefix pat (String c s) = true)
             by (apply prefix_iff; eauto). congruence.
        -- injection H as _ H. eauto.
Qed.

(** X1.  With the filter on and a platform other than MAME, a ROM is filtered
    exactly when ["[BIOS]"] occurs somewhere in its basename, not only at
    its start; the method never raises. *)
Theorem ROM_is_filtered_NoIntro (PLATFORM_MAME_LONG : string)
    (self : FilterROM) (basename : string) :
  scan_ignore_bios (f_settings self) = true ->
  f_platform self <> PLATFORM_MAME_LONG ->
  exists answer,
    ROM_is_filtered PLATFORM_MAME_LONG self basename = Ok answer /\
    (answer = true
     <-> exists pre post, basename = pre +:+ "[BIOS]" +:+ post).
Proof.
  intros Hon Hp. unfold ROM_is_filtered. rewrite Hon. cbn [negb].
  apply String.eqb_neq in Hp. rewrite Hp.
  pose proof (re_findall_literal_found "[BIOS]" basename) as H.
  destruct (re_findall_literal "[BIOS]" basename 0) as [|m l].
  - exists false. split; [reflexivity|]. split; [discriminate|].
    intros Hsub. apply H in Hsub; [congruence|discriminate].
  - exists true. split; [reflexivity|]. split; [|reflexivity].
    intros _. apply H; discriminate.
Qed.

Lemma ROM_is_filtered_NoIntro_witness :
  exists answer,
    ROM_is_filtered "MAME" (filter_example true "Sega 32X")
      "Doom (USA) [BIOS].zip" = Ok answer /\
    (answer = true
     <-> exists pre post, "Doom (USA) [BIOS].zip" = pre +:+ "[BIOS]" +:+ post).
Proof.
  apply ROM_is_filtered_NoIntro; [reflexivity|discriminate].
Defined.

Section FilterMAME.
Variable PLATFORM_MAME_LONG : string.
Variable os_path_join : string -> string -> string.
Variable load_JSON_file : string -> result (list string).

(** X2.  For the MAME platform, the object made by [__init__] from three
    readable lists filters, with the filter on, exactly the basenames that
    are in one of the three lists; the three sets always exist, so that the
    method never raises. *)
Theorem ROM_is_filtered_MAME (settings : Settings) BIOS Devices Mechanical :
  let data := os_path_join (scraper_aeloffline_addon_code_dir settings)
                "data-AOS" in
  load_JSON_file (os_path_join data "MAME_BIOSes.json") = Ok BIOS ->
  load_JSON_file (os_path_join data "MAME_Devices.json") = Ok Devices ->
  load_JSON_file (os_path_join data "MAME_Mechanical.json") = Ok Mechanical ->
  scan_ignore_bios settings = true ->
  exists self,
    FilterROM_init PLATFORM_MAME_LONG os_path_join load_JSON_file settings
      PLATFORM_MAME_LONG = Ok self /\
    forall basename,
      exists answer,
        ROM_is_filtered PLATFORM_MAME_LONG self basename = Ok answer /\
        (answer = true
         <-> basename ∈ BIOS \/ basename ∈ Devices \/ basename ∈ Mechanical).
Proof.
  cbv zeta. intros HB HD HM Hon.
  unfold FilterROM_init, _load_JSON. rewrite String.eqb_refl, HB, HD, HM.
  eexists. split; [reflexivity|]. intros basename.
  unfold ROM_is_filtered. cbn [f_settings f_platform BIOS_set Devices_set
    Mechanical_set in_set]. rewrite Hon, String.eqb_refl. cbn [negb].
  destruct (bool_decide_reflect (basename ∈ (list_to_set BIOS : gset string)))
    as [H1|H1].
  { exists true. split; [reflexivity|]. split; [|reflexivity]. intros _.
    left. apply elem_of_list_to_set in H1. exact H1. }
  destruct (bool_decide_reflect (basename ∈ (list_to_set Devices : gset string)))
    as [H2|H2].
  { exists true. split; [reflexivity|]. split; [|reflexivity]. intros _.
    right. left. apply elem_of_list_to_set in H2. exact H2. }
  destruct (bool_decide_reflect
              (basename ∈ (list_to_set Mechanical : gset string))) as [H3|H3].
  { exists true. split; [reflexivity|]. split; [|reflexivity]. intros _.
    right. right. apply elem_of_list_to_set in H3. exact H3. }
  exists false. split; [reflexivity|]. split; [discriminate|].
  rewrite elem_of_list_to_set in H1, H2, H3. tauto.
Qed.
End FilterMAME.

Lemma ROM_is_filtered_MAME_witness :
  exists self,
    FilterROM_init "MAME" (fun d f => d +:+ "/" +:+ f)
      (fun _ => Ok ["neogeo"; "cpzn1"]) (settings_example true) "MAME"
    = Ok self /\
    forall basename,
      exists answer,
        ROM_is_filtered "MAME" self basename = Ok answer /\
        (answer = true
         <-> basename ∈ ["neogeo"; "cpzn1"] \/ basename ∈ ["neogeo"; "cpzn1"]
             \/ basename ∈ ["neogeo"; "cpzn1"]).
Proof.
  apply (ROM_is_filtered_MAME "MAME" (fun d f => d +:+ "/" +:+ f)
           (fun _ => Ok ["neogeo"; "cpzn1"]) (settings_example true));
    reflexivity.
Defined.

(** ** More on the disk cache *)

Lemma dict_get_set_ne k k' v d :
  k' <> k -> dict_get k' (dict_set k v d) = dict_get k' d.
Proof.
  intros Hne. induction d as [|[k0 v0] d IH]; cbn.
  - apply String.eqb_neq in Hne. rewrite Hne. reflexivity.
  - destruct (String.eqb k k0) eqn:E; cbn.
    + apply String.eqb_eq in E. subst k0.
      apply String.eqb_neq in Hne. rewrite Hne. reflexivity.
    + rewrite IH. reflexivity.
Qed.

Lemma dict_get_filter_ne k k' (d : pydict) :
  k' <> k ->
  dict_get k' (filter (fun kv : string * pyval => negb (String.eqb k kv.1)) d)
  = dict_get k' d.
Proof.
  intros Hne. induction d as [|[k0 v0] d IH]; [reflexivity|].
  rewrite filter_cons. cbn [fst].
  destruct (String.eqb k k0) eqn:E.
  - rewrite decide_False by (cbn; tauto). rewrite IH. cbn.
    apply String.eqb_eq in E. subst k0.
    apply String.eqb_neq in Hne. rewrite Hne. reflexivity.
  - rewrite decide_True by (cbn; tauto). cbn. rewrite IH. reflexivity.
Qed.

Section CacheAccess.
Variable os_path_join : string -> string -> string.

(** X3.  What [_update_disk_cache] stores is what the cache answers afterwards:
    the key is present and retrieved with the stored value; every other key
    of the kind answers as before the update, the other kinds are as they
    were, and nothing is written to disk. *)
Theorem update_disk_cache_lookup ct plat key data (s : SW) :
  platform (obj s) = Some plat ->
  ~ cache_unreadable os_path_join ct plat s ->
  exists s',
    _update_disk_cache os_path_join ct key data s = (Ok tt, s') /\
    world s' = world s /\
    _check_disk_cache os_path_join ct key s' = (Ok true, s') /\
    _retrieve_from_disk_cache ct key s' = (Ok data, s') /\
    (forall key', key' <> key ->
       _retrieve_from_disk_cache ct key' s'
       = (dict_get key' (cache_contents os_path_join ct plat s), s')) /\
    (forall ct', ct' <> ct ->
       pc_get ct' (disk_caches (obj s')) = pc_get ct' (disk_caches (obj s))).
Proof.
  intros Hp Hr. rewrite (update_disk_cache_ok os_path_join ct plat key data s Hp Hr).
  destruct (lazy_loaded_fields os_path_join ct plat s)
    as (Hw & Hl & Hc & _ & _ & _ & _ & _ & _ & Ho).
  exists {| obj := cache_updated ct key data
                     (obj (lazy_loaded os_path_join ct plat s));
            world := world (lazy_loaded os_path_join ct plat s) |}.
  split; [reflexivity|]. split; [exact Hw|].
  unfold _check_disk_cache, _lazy_load_disk_cache, _retrieve_from_disk_cache,
    bind, gets, lift_result, ret, cache_updated.
  cbn -[lazy_loaded pc_get pc_set dict_mem dict_get dict_set].
  rewrite Hl. cbn -[lazy_loaded pc_get pc_set dict_mem dict_get dict_set].
  rewrite !pc_get_set_eq.
  split; [rewrite dict_mem_set_eq; reflexivity|].
  split; [rewrite dict_get_set_eq; reflexivity|].
  split.
  - intros key' Hne. rewrite (dict_get_set_ne key key' data _ Hne), Hc.
    destruct (dict_get key' _); reflexivity.
  - intros ct' Hne. rewrite pc_get_set_ne by congruence. apply Ho, Hne.
Qed.

(** X4.  A kind whose file does not exist loads as an empty cache that is clean:
    the first look-up answers false, leaves the kind loaded and touches no
    file. *)
Theorem check_disk_cache_missing_file ct plat key (s : SW) :
  platform (obj s) = Some plat ->
  pc_get ct (disk_caches_loaded (obj s)) = false ->
  fs (world s) !! cache_path os_path_join (obj s) ct plat = None ->
  exists s',
    _check_disk_cache os_path_join ct key s = (Ok false, s') /\
    world s' = world s /\
    pc_get ct (disk_caches (obj s')) = [] /\
    pc_get ct (disk_caches_loaded (obj s')) = true /\
    pc_get ct (disk_caches_dirty (obj s')) = false.
Proof.
  intros Hp Hl Hf. unfold _check_disk_cache, bind.
  rewrite (lazy_load_ok os_path_join ct plat s Hp).
  2:{ intros [_ H]. congruence. }
  unfold lazy_loaded, cache_contents. rewrite Hl, Hf.
  exists {| obj := set_caches (pc_set ct [] (disk_caches (obj s)))
                     (pc_set ct true (disk_caches_loaded (obj s)))
                     (pc_set ct false (disk_caches_dirty (obj s))) (obj s);
            world := world s |}.
  unfold gets. cbn -[pc_get pc_set]. rewrite !pc_get_set_eq.
  repeat split; reflexivity.
Qed.

(** X5.  A cache file that cannot be parsed makes every access of the kind raise
    [ValueError] and leaves the scraper as it was, the kind still unloaded:
    the next access reads the file again. *)
Theorem corrupt_cache_file_raises ct plat key data (s : SW) :
  platform (obj s) = Some plat ->
  cache_unreadable os_path_join ct plat s ->
  _check_disk_cache os_path_join ct key s = (Raise ValueError, s) /\
  _update_disk_cache os_path_join ct key data s = (Raise ValueError, s) /\
  purge_one os_path_join key ct s = (Raise ValueError, s).
Proof.
  intros Hp Hr. unfold purge_one, _check_disk_cache, _update_disk_cache, bind.
  rewrite (lazy_load_fail os_path_join ct plat s Hp Hr). repeat split.
Qed.

(** X6.  Once a kind is loaded its file is never read again: the answers come
    from memory, whatever the disk holds, and a key that is not there makes
    the retrieval raise [KeyError]. *)
Theorem loaded_cache_ignores_disk ct key (o : Scraper) (w : World) :
  pc_get ct (disk_caches_loaded o) = true ->
  let s := {| obj := o; world := w |} in
  let d := pc_get ct (disk_caches o) in
  _check_disk_cache os_path_join ct key s = (Ok (dict_mem key d), s) /\
  (dict_mem key d = false ->
   _retrieve_from_disk_cache ct key s = (Raise KeyError, s) /\
   _delete_from_disk_cache ct key s = (Raise KeyError, s)).
Proof.
  intros Hl. cbv zeta.
  unfold _check_disk_cache, _lazy_load_disk_cache, _retrieve_from_disk_cache,
    _delete_from_disk_cache, dict_del, bind, gets, lift_result, ret.
  cbn [obj world fst snd]. rewrite Hl. cbn [negb].
  split; [reflexivity|]. intros Hm.
  rewrite (dict_mem_get_false _ _ Hm), Hm. split; reflexivity.
Qed.


End CacheAccess.

Lemma update_disk_cache_lookup_witness :
  let join := fun d f => d +:+ "/" +:+ f in
  exists s',
    _update_disk_cache join CACHE_METADATA "sonic.zip" (PStr "Sonic")
      online_with_candidate = (Ok tt, s') /\
    world s' = world online_with_candidate /\
    _check_disk_cache join CACHE_METADATA "sonic.zip" s' = (Ok true, s') /\
    _retrieve_from_disk_cache CACHE_METADATA "sonic.zip" s'
    = (Ok (PStr "Sonic"), s') /\
    (forall key', key' <> "sonic.zip" ->
       _retrieve_from_disk_cache CACHE_METADATA key' s'
       = (dict_get key'
            (cache_contents join CACHE_METADATA "Sega Genesis"
               online_with_candidate), s')) /\
    (forall ct', ct' <> CACHE_METADATA ->
       pc_get ct' (disk_caches (obj s'))
       = pc_get ct' (disk_caches (obj online_with_candidate))).
Proof.
  apply (update_disk_cache_lookup (fun d f => d +:+ "/" +:+ f) CACHE_METADATA
           "Sega Genesis" "sonic.zip" (PStr "Sonic") online_with_candidate).
  - reflexivity.
  - intros [_ H]. vm_compute in H. discriminate.
Defined.

Lemma check_disk_cache_missing_file_witness :
  let join := fun d f => d +:+ "/" +:+ f in
  exists s',
    _check_disk_cache join CACHE_METADATA "Sonic (USA).zip" (session_example ∅)
    = (Ok false, s') /\
    world s' = world (session_example ∅) /\
    pc_get CACHE_METADATA (disk_caches (obj s')) = [] /\
    pc_get CACHE_METADATA (disk_caches_loaded (obj s')) = true /\
    pc_get CACHE_METADATA (disk_caches_dirty (obj s')) = false.
Proof.
  apply (check_disk_cache_missing_file (fun d f => d +:+ "/" +:+ f)
           CACHE_METADATA "Sega Genesis" "Sonic (USA).zip" (session_example ∅));
    reflexivity.
Defined.

Lemma corrupt_cache_file_raises_witness :
  let join := fun d f => d +:+ "/" +:+ f in
  let s := session_example {[ candidates_file_example := OtherFile ]} in
  _check_disk_cache join CACHE_CANDIDATES "Sonic (USA).zip" s
  = (Raise ValueError, s) /\
  _update_disk_cache join CACHE_CANDIDATES "Sonic (USA).zip" (PDict []) s
  = (Raise ValueError, s) /\
  purge_one join "Sonic (USA).zip" CACHE_CANDIDATES s = (Raise ValueError, s).
Proof.
  apply (corrupt_cache_file_raises (fun d f => d +:+ "/" +:+ f)
           CACHE_CANDIDATES "Sega Genesis" "Sonic (USA).zip" (PDict [])
           (session_example {[ candidates_file_example := OtherFile ]})).
  - reflexivity.
  - split; vm_compute; reflexivity.
Defined.

Lemma loaded_cache_ignores_disk_witness :
  let join := fun d f => d +:+ "/" +:+ f in
  let o := obj online_with_candidate in
  let s := {| obj := o;
              world := world_example
                         {[ candidates_file_example := OtherFile ]} |} in
  let d := pc_get CACHE_CANDIDATES (disk_caches o) in
  _check_disk_cache join CACHE_CANDIDATES "Other.zip" s
  = (Ok (dict_mem "Other.zip" d), s) /\
  (dict_mem "Other.zip" d = false ->
   _retrieve_from_disk_cache CACHE_CANDIDATES "Other.zip" s
   = (Raise KeyError, s) /\
   _delete_from_disk_cache CACHE_CANDIDATES "Other.zip" s
   = (Raise KeyError, s)).
Proof.
  apply (loaded_cache_ignores_disk (fun d f => d +:+ "/" +:+ f)
           CACHE_CANDIDATES "Other.zip" (obj online_with_candidate)
           (world_example {[ candidates_file_example := OtherFile ]})).
  reflexivity.
Defined.


(** ** The candidates cache across two sessions *)

Lemma dict_mem_keys k (d : pydict) : dict_mem k d = true <-> k ∈ d.*1.
Proof.
  induction d as [|[k' v] d IH]; cbn.
  - split; [discriminate|]. intros H. inversion H.
  - rewrite elem_of_cons. destruct (String.eqb k k') eqn:E.
    + apply String.eqb_eq in E. tauto.
    + apply String.eqb_neq in E. rewrite IH. tauto.
Qed.

Lemma dict_set_keys k v (d : pydict) :
  (dict_set k v d).*1 = if dict_mem k d then d.*1 else d.*1 ++ [k].
Proof.
  induction d as [|[k' v'] d IH]; cbn; [reflexivity|].
  destruct (String.eqb k k') eqn:E; cbn; [reflexivity|].
  rewrite IH. destruct (dict_mem k d); reflexivity.
Qed.

Lemma dict_set_NoDup k v (d : pydict) :
  NoDup d.*1 -> NoDup (dict_set k v d).*1.
Proof.
  intros Hnd. rewrite dict_set_keys.
  destruct (dict_mem k d) eqn:E; [exact Hnd|].
  apply NoDup_app. split; [exact Hnd|]. split; [|apply NoDup_singleton].
  intros x Hx Hk. apply list_elem_of_singleton in Hk. subst x.
  apply dict_mem_keys in Hx. congruence.
Qed.

Lemma elem_of_dict_get k v (d : pydict) :
  NoDup d.*1 -> (k, v) ∈ d -> dict_get k d = Ok v.
Proof.
  induction d as [|[k' v'] d IH]; intros Hnd Hin; [inversion Hin|].
  cbn in Hnd. apply NoDup_cons in Hnd as [Hni Hnd]. cbn.
  apply elem_of_cons in Hin as [Heq|Hin].
  - injection Heq as -> ->. rewrite String.eqb_refl. reflexivity.
  - destruct (String.eqb k k') eqn:E; [|apply IH; assumption].
    apply String.eqb_eq in E. subst k'. exfalso. apply Hni.
    apply (list_elem_of_fmap_2 fst) in Hin. exact Hin.
Qed.

Lemma dict_get_elem_of k v (d : pydict) : dict_get k d = Ok v -> (k, v) ∈ d.
Proof.
  induction d as [|[k' v'] d IH]; cbn; [discriminate|].
  destruct (String.eqb k k') eqn:E.
  - apply String.eqb_eq in E. intros [= ->]. subst. left.
  - intros H. right. apply IH, H.
Qed.

Lemma dict_get_json_dumps k v (d : pydict) :
  NoDup d.*1 -> dict_get k d = Ok v ->
  dict_get k (json_dumps d) = Ok (json_sort_keys v).
Proof.
  intros Hnd Hget. apply elem_of_dict_get.
  - rewrite json_dumps_keys. exact Hnd.
  - rewrite json_dumps_unfold, merge_sort_Permutation.
    apply dict_get_elem_of in Hget.
    apply (list_elem_of_fmap_2
             (fun kv : string * pyval => let '(k, x) := kv in (k, json_sort_keys x)))
      in Hget. exact Hget.
Qed.

Lemma foldl_apply_write_other ws : forall (m : gmap string file) p,
  p ∉ map (fun w : string * string * pydict => w.1.1) ws ->
  foldl apply_write m ws !! p = m !! p.
Proof.
  induction ws as [|w ws IH]; intros m p Hni; [reflexivity|].
  cbn in Hni. apply not_elem_of_cons in Hni as [Hne Hni].
  cbn [foldl]. rewrite (IH _ _ Hni). unfold apply_write.
  apply lookup_insert_ne. congruence.
Qed.

Lemma foldl_apply_write_lookup ws : forall (m : gmap string file) p f d,
  NoDup (map (fun w : string * string * pydict => w.1.1) ws) ->
  (p, f, d) ∈ ws ->
  foldl apply_write m ws !! p = Some (CacheFile d).
Proof.
  induction ws as [|w ws IH]; intros m p f d Hnd Hin; [inversion Hin|].
  cbn in Hnd. apply NoDup_cons in Hnd as [Hni Hnd]. cbn [foldl].
  apply elem_of_cons in Hin as [<-|Hin].
  - rewrite foldl_apply_write_other by exact Hni.
    unfold apply_write. cbn. apply lookup_insert_eq.
  - eapply IH; eassumption.
Qed.

Section Restart.
Variable os_path_join : string -> string -> string.
Hypothesis os_path_join_inj :
  forall dir f f', os_path_join dir f = os_path_join dir f' -> f = f'.

Lemma due_writes_paths_NoDup o plat l :
  NoDup l ->
  NoDup (map (fun w : string * string * pydict => w.1.1)
           (due_writes os_path_join o plat l)).
Proof.
  induction l as [|ct l IH]; intros Hnd; [constructor|].
  apply NoDup_cons in Hnd as [Hni Hnd]. unfold due_writes.
  cbn [omap list_omap]. fold (due_writes os_path_join o plat l).
  destruct (should_write o ct); [|apply IH, Hnd].
  cbn. apply NoDup_cons. split; [|apply IH, Hnd].
  intros Hin. apply list_elem_of_fmap in Hin as ([[p f] d] & Hp & Hin).
  cbn in Hp. destruct (due_writes_shape os_path_join o plat l p f d Hin)
    as (ct' & Hct' & _ & Hf & Hpath & _).
  rewrite Hpath, Hf in Hp. unfold cache_path, cache_fname in Hp.
  apply os_path_join_inj in Hp. fold (cache_fname o ct plat) in Hp.
  fold (cache_fname o ct' plat) in Hp.
  apply (cache_fname_inj o plat) in Hp. congruence.
Qed.

(** X8.  A candidate that one session stores and flushes is found again by a new
    instance of the same scraper that reads the same cache directory: the
    look-up answers true and the retrieval gives the candidate as JSON
    returns it, its keys in order.  The file names of the kinds must be
    kept apart by the path join, and the keys of the cache are unique, as in
    any dictionary. *)
Theorem candidate_survives_restart rom_FN plat c pd (s : SW) (fresh : Scraper) :
  supports_disk_cache (obj s) = true ->
  c <> PNone ->
  ~ cache_unreadable os_path_join CACHE_CANDIDATES plat s ->
  NoDup (cache_contents os_path_join CACHE_CANDIDATES plat s).*1 ->
  get_filename fresh = get_filename (obj s) ->
  scraper_cache_dir fresh = scraper_cache_dir (obj s) ->
  pc_get CACHE_CANDIDATES (disk_caches_loaded fresh) = false ->
  exists s1 s2 s3,
    set_candidate os_path_join rom_FN plat c s = (Ok tt, s1) /\
    flush_disk_cache os_path_join pd s1 = (Ok tt, s2) /\
    check_candidates_cache os_path_join rom_FN plat
      {| obj := fresh; world := world s2 |} = (Ok true, s3) /\
    (retrieve_from_candidates_cache rom_FN plat s3).1
    = Ok (json_sort_keys c).
Proof.
  intros Hsup Hc Hr Hnd Hfn Hdir Hfresh.
  rewrite (set_candidate_value os_path_join rom_FN plat c s Hc Hr). cbv zeta.
  set (s0 := lazy_loaded os_path_join CACHE_CANDIDATES plat
               (candidate_recorded rom_FN plat c s)).
  destruct (lazy_loaded_fields os_path_join CACHE_CANDIDATES plat
              (candidate_recorded rom_FN plat c s))
    as (Hw0 & Hl0 & Hc0 & Hp0 & _ & _ & Hsup0 & Hf0 & Hd0 & _).
  fold s0 in Hw0, Hl0, Hc0, Hp0, Hsup0, Hf0, Hd0.
  set (d' := dict_set (getBase rom_FN) c
               (cache_contents os_path_join CACHE_CANDIDATES plat s)).
  set (s1 := {| obj := cache_updated CACHE_CANDIDATES (getBase rom_FN) c (obj s0);
                world := world s0 |}).
  assert (Hcaches : pc_get CACHE_CANDIDATES (disk_caches (obj s1)) = d').
  { unfold s1, cache_updated. cbn -[pc_get pc_set]. rewrite pc_get_set_eq, Hc0.
    reflexivity. }
  assert (Hsw : should_write (obj s1) CACHE_CANDIDATES = true).
  { assert (Hld : pc_get CACHE_CANDIDATES (disk_caches_loaded (obj s1)) = true)
      by exact Hl0.
    assert (Hdt : pc_get CACHE_CANDIDATES (disk_caches_dirty (obj s1)) = true).
    { unfold s1, cache_updated. cbn -[pc_get pc_set].
      apply pc_get_set_eq. }
    unfold should_write. rewrite Hcaches, Hld, Hdt. unfold d'.
    rewrite dict_set_nonempty. reflexivity. }
  destruct (flush_supported os_path_join pd plat s1)
    as (s2 & Hflush & _ & _ & _ & Hfs).
  { change (supports_disk_cache (obj s0) = true). rewrite Hsup0. exact Hsup. }
  { change (platform (obj s0) = Some plat). rewrite Hp0. reflexivity. }
  exists s1, s2.
  assert (Hfile : fs (world s2) !! cache_path os_path_join fresh CACHE_CANDIDATES plat
                  = Some (CacheFile (json_dumps d'))).
  { rewrite Hfs.
    replace (cache_path os_path_join fresh CACHE_CANDIDATES plat)
      with (cache_path os_path_join (obj s1) CACHE_CANDIDATES plat).
    2:{ unfold cache_path, cache_fname, s1, cache_updated. cbn.
        rewrite Hf0, Hd0, Hfn, Hdir. reflexivity. }
    rewrite <- Hcaches.
    eapply foldl_apply_write_lookup.
    - apply due_writes_paths_NoDup, CACHE_LIST_NoDup.
    - apply (due_writes_elem os_path_join (obj s1) plat CACHE_LIST
               CACHE_CANDIDATES).
      split; [apply CACHE_LIST_all|exact Hsw]. }
  set (s3' := {| obj := fresh; world := world s2 |}).
  assert (Hr3 : ~ cache_unreadable os_path_join CACHE_CANDIDATES plat s3').
  { intros [_ H]. unfold s3' in H. cbn [obj world] in H. congruence. }
  assert (Hcont : cache_contents os_path_join CACHE_CANDIDATES plat s3'
                  = json_dumps d').
  { unfold cache_contents, s3'. cbn [obj world]. rewrite Hfresh, Hfile.
    reflexivity. }
  assert (Hget : dict_get (getBase rom_FN) (json_dumps d')
                 = Ok (json_sort_keys c)).
  { apply dict_get_json_dumps.
    - apply dict_set_NoDup.
      exact Hnd.
    - apply dict_get_set_eq. }
  exists (lazy_loaded os_path_join CACHE_CANDIDATES plat (keyed rom_FN plat s3')).
  split; [reflexivity|]. split; [exact Hflush|]. split.
  - rewrite (check_candidates_cache_eq os_path_join rom_FN plat s3' Hr3), Hcont.
    f_equal. f_equal. apply dict_mem_keys.
    apply dict_get_elem_of in Hget.
    apply (list_elem_of_fmap_2 fst) in Hget. exact Hget.
  - destruct (lazy_loaded_fields os_path_join CACHE_CANDIDATES plat
                (keyed rom_FN plat s3')) as (_ & _ & Hc3 & _).
    unfold retrieve_from_candidates_cache, _retrieve_from_disk_cache, bind,
      on_obj, modify, gets, lift_result.
    cbn -[lazy_loaded pc_get json_dumps d'].
    change (cache_contents os_path_join CACHE_CANDIDATES plat (keyed rom_FN plat s3'))
      with (cache_contents os_path_join CACHE_CANDIDATES plat s3') in Hc3.
    rewrite Hc3, Hcont, Hget. reflexivity.
Qed.
End Restart.

Lemma candidate_survives_restart_witness :
  let join := fun d f => d +:+ "/" +:+ f in
  let first := {| obj := scraper_example true; world := world_example ∅ |} in
  exists s1 s2 s3,
    set_candidate join sonic "Sega Genesis"
      (PDict [("id", PStr "42"); ("display_name", PStr "Sonic")]) first
    = (Ok tt, s1) /\
    flush_disk_cache join false s1 = (Ok tt, s2) /\
    check_candidates_cache join sonic "Sega Genesis"
      {| obj := scraper_example true; world := world s2 |} = (Ok true, s3) /\
    (retrieve_from_candidates_cache sonic "Sega Genesis" s3).1
    = Ok (json_sort_keys
            (PDict [("id", PStr "42"); ("display_name", PStr "Sonic")])).
Proof.
  apply (candidate_survives_restart (fun d f => d +:+ "/" +:+ f)).
  - intros dir f f' H. repeat apply (inj (String.app _)) in H. exact H.
  - reflexivity.
  - discriminate.
  - intros [_ H]. vm_compute in H. discriminate.
  - vm_compute. constructor.
  - reflexivity.
  - reflexivity.
  - reflexivity.
Defined.

(** ** More on [clear_cache] *)

Lemma same_but_caches_refl o : same_but_caches o o.
Proof. destruct o; reflexivity. Qed.

Lemma same_but_caches_trans o1 o2 o3 :
  same_but_caches o1 o2 -> same_but_caches o2 o3 -> same_but_caches o1 o3.
Proof.
  unfold same_but_caches. intros H1 H2. rewrite H2 at 1. rewrite H1 at 1.
  reflexivity.
Qed.

Lemma same_but_caches_set_caches d l y o :
  same_but_caches o (set_caches d l y o).
Proof. reflexivity. Qed.

Lemma same_but_caches_fields o o' :
  same_but_caches o o' ->
  get_name o' = get_name o /\
  get_filename o' = get_filename o /\
  supports_disk_cache o' = supports_disk_cache o /\
  scraper_cache_dir o' = scraper_cache_dir o /\
  candidate o' = candidate o /\
  cache_key o' = cache_key o /\
  platform o' = platform o /\
  exception_counter o' = exception_counter o /\
  scraper_disabled o' = scraper_disabled o.
Proof. intros ->. repeat split. Qed.

Lemma same_but_caches_keyed k p o o1 :
  same_but_caches (set_cache_key_platform k p o) o1 ->
  same_but_caches (set_cache_key_platform k p o)
    (set_cache_key_platform k p o1).
Proof.
  unfold same_but_caches. destruct o, o1. cbn. intros H.
  injection H as -> -> -> -> -> -> -> -> -> -> ->. reflexivity.
Qed.

Section ClearCache.
Variable os_path_join : string -> string -> string.

Lemma lazy_loaded_same_but_caches ct plat (s : SW) :
  same_but_caches (obj s) (obj (lazy_loaded os_path_join ct plat s)).
Proof.
  unfold lazy_loaded.
  destruct (pc_get ct (disk_caches_loaded (obj s)));
    [apply same_but_caches_refl|apply same_but_caches_set_caches].
Qed.

Lemma lazy_loaded_dirty ct plat (s : SW) :
  pc_get ct (disk_caches_dirty (obj (lazy_loaded os_path_join ct plat s)))
  = pc_get ct (disk_caches_loaded (obj s))
    && pc_get ct (disk_caches_dirty (obj s)).
Proof.
  unfold lazy_loaded.
  destruct (pc_get ct (disk_caches_loaded (obj s))) eqn:E; [reflexivity|].
  cbn -[pc_get pc_set]. apply pc_get_set_eq.
Qed.

Lemma cache_contents_ext ct plat (s s' : SW) :
  world s' = world s ->
  get_filename (obj s') = get_filename (obj s) ->
  scraper_cache_dir (obj s') = scraper_cache_dir (obj s) ->
  pc_get ct (disk_caches (obj s')) = pc_get ct (disk_caches (obj s)) ->
  pc_get ct (disk_caches_loaded (obj s')) = pc_get ct (disk_caches_loaded (obj s)) ->
  cache_contents os_path_join ct plat s' = cache_contents os_path_join ct plat s.
Proof.
  intros Hw Hf Hd Hc Hl. unfold cache_contents, cache_path, cache_fname.
  rewrite Hw, Hf, Hd, Hc, Hl. reflexivity.
Qed.

Lemma cache_contents_lazy_loaded ct ct0 plat (s : SW) :
  cache_contents os_path_join ct plat (lazy_loaded os_path_join ct0 plat s)
  = cache_contents os_path_join ct plat s.
Proof.
  destruct (lazy_loaded_fields os_path_join ct0 plat s)
    as (Hw & Hl & Hc & _ & _ & _ & _ & Hf & Hd & Ho).
  destruct (decide (ct = ct0)) as [->|Hne].
  - unfold cache_contents at 1. rewrite Hl. exact Hc.
  - destruct (Ho ct Hne) as (Hc' & Hl' & _).
    apply cache_contents_ext; assumption.
Qed.

Lemma cache_unreadable_ext ct plat (s s' : SW) :
  world s' = world s ->
  get_filename (obj s') = get_filename (obj s) ->
  scraper_cache_dir (obj s') = scraper_cache_dir (obj s) ->
  pc_get ct (disk_caches_loaded (obj s')) = pc_get ct (disk_caches_loaded (obj s)) ->
  cache_unreadable os_path_join ct plat s'
  <-> cache_unreadable os_path_join ct plat s.
Proof.
  intros Hw Hf Hd Hl. unfold cache_unreadable, cache_path, cache_fname.
  rewrite Hw, Hf, Hd, Hl. reflexivity.
Qed.

(** What one step of the loop of [clear_cache] leaves of a kind. *)
Lemma purged_one_frame key plat ct (s : SW) :
  let s' := purged_one os_path_join key plat ct s in
  let before := cache_contents os_path_join ct plat s in
  world s' = world s /\
  same_but_caches (obj s) (obj s') /\
  pc_get ct (disk_caches_loaded (obj s')) = true /\
  dict_mem key (pc_get ct (disk_caches (obj s'))) = false /\
  (forall key', key' <> key ->
     dict_get key' (pc_get ct (disk_caches (obj s'))) = dict_get key' before) /\
  pc_get ct (disk_caches_dirty (obj s'))
  = dict_mem key before
    || pc_get ct (disk_caches_loaded (obj s))
       && pc_get ct (disk_caches_dirty (obj s)) /\
  (forall ct', ct' <> ct ->
     pc_get ct' (disk_caches (obj s')) = pc_get ct' (disk_caches (obj s)) /\
     pc_get ct' (disk_caches_loaded (obj s'))
       = pc_get ct' (disk_caches_loaded (obj s)) /\
     pc_get ct' (disk_caches_dirty (obj s'))
       = pc_get ct' (disk_caches_dirty (obj s))).
Proof.
  cbv zeta. unfold purged_one.
  destruct (lazy_loaded_fields os_path_join ct plat s)
    as (Hw & Hl & Hc & _ & _ & _ & _ & _ & _ & Ho).
  pose proof (lazy_loaded_same_but_caches ct plat s) as Hs.
  pose proof (lazy_loaded_dirty ct plat s) as Hd.
  rewrite Hc.
  destruct (dict_mem key (cache_contents os_path_join ct plat s)) eqn:E.
  - cbn -[lazy_loaded pc_get pc_set cache_contents]. rewrite ?pc_get_set_eq.
    split; [exact Hw|]. split.
    { eapply same_but_caches_trans; [exact Hs|apply same_but_caches_set_caches]. }
    split; [exact Hl|]. split; [apply dict_mem_filter|].
    split; [intros key' Hne; apply dict_get_filter_ne, Hne|].
    split; [reflexivity|].
    intros ct' Hne. rewrite !pc_get_set_ne by congruence. apply Ho, Hne.
  - split; [exact Hw|]. split; [exact Hs|]. split; [exact Hl|].
    rewrite Hc. split; [exact E|]. split; [reflexivity|].
    split; [exact Hd|]. exact Ho.
Qed.

Lemma purge_loop_frame key plat l : forall (s : SW),
  NoDup l ->
  platform (obj s) = Some plat ->
  (forall ct, ct ∈ l -> ~ cache_unreadable os_path_join ct plat s) ->
  exists s',
    for_each l (purge_one os_path_join key) s = (Ok tt, s') /\
    world s' = world s /\
    same_but_caches (obj s) (obj s') /\
    (forall ct, ct ∈ l ->
       let before := cache_contents os_path_join ct plat s in
       pc_get ct (disk_caches_loaded (obj s')) = true /\
       dict_mem key (pc_get ct (disk_caches (obj s'))) = false /\
       (forall key', key' <> key ->
          dict_get key' (pc_get ct (disk_caches (obj s')))
          = dict_get key' before) /\
       pc_get ct (disk_caches_dirty (obj s'))
       = dict_mem key before
         || pc_get ct (disk_caches_loaded (obj s))
            && pc_get ct (disk_caches_dirty (obj s))) /\
    (forall ct, ct ∉ l ->
       pc_get ct (disk_caches (obj s')) = pc_get ct (disk_caches (obj s)) /\
       pc_get ct (disk_caches_loaded (obj s'))
         = pc_get ct (disk_caches_loaded (obj s)) /\
       pc_get ct (disk_caches_dirty (obj s'))
         = pc_get ct (disk_caches_dirty (obj s))).
Proof.
  induction l as [|ct l IH]; intros s Hnd Hp Hr.
  - exists s. split; [reflexivity|]. split; [reflexivity|].
    split; [apply same_but_caches_refl|].
    split; [intros ct Hc; inversion Hc|]. intros ct _. repeat split.
  - apply NoDup_cons in Hnd as [Hni Hnd].
    destruct (purged_one_frame key plat ct s)
      as (Hw & Hs & Hld & Habs & Hfr & Hdt & Ho).
    set (s1 := purged_one os_path_join key plat ct s) in *.
    destruct (same_but_caches_fields _ _ Hs)
      as (_ & Hfn & _ & Hdir & _ & _ & Hpl & _).
    assert (Hp1 : platform (obj s1) = Some plat) by congruence.
    destruct (IH s1 Hnd Hp1) as (s' & Hrun & Hw' & Hs' & Hin & Hout).
    { intros c Hc. assert (Hne : c <> ct) by (intros ->; contradiction).
      rewrite (cache_unreadable_ext c plat s s1 Hw Hfn Hdir
                 (proj1 (proj2 (Ho c Hne)))).
      apply Hr. right. exact Hc. }
    exists s'. split; [|split; [|split; [|split]]].
    + cbn [for_each]. unfold bind.
      rewrite (purge_one_ok os_path_join key plat ct s Hp); [exact Hrun|].
      apply Hr. left.
    + congruence.
    + eapply same_but_caches_trans; eassumption.
    + intros c Hc. cbv zeta.
      destruct (decide (c = ct)) as [->|Hne].
      * destruct (Hout ct Hni) as (Hc1 & Hl1 & Hd1).
        rewrite Hc1, Hl1, Hd1. repeat split; assumption.
      * assert (Hcl : c ∈ l).
        { apply elem_of_cons in Hc as [?|?]; [contradiction|assumption]. }
        destruct (Ho c Hne) as (Hc1 & Hl1 & Hd1).
        destruct (Hin c Hcl) as (Ha & Hb & Hc' & Hd'). cbv zeta in Hc', Hd'.
        rewrite (cache_contents_ext c plat s s1 Hw Hfn Hdir Hc1 Hl1) in Hc', Hd'.
        rewrite Hl1, Hd1 in Hd'. repeat split; assumption.
    + intros c Hc. apply not_elem_of_cons in Hc as [Hne Hnl].
      destruct (Hout c Hnl) as (Hc1 & Hl1 & Hd1).
      destruct (Ho c Hne) as (Hc2 & Hl2 & Hd2).
      repeat split; congruence.
Qed.

(** X9.  [clear_cache] records the ROM's key and the platform, loads every kind
    and removes the key from each: afterwards no kind holds the key, every
    other key answers as before, a kind that held the key is dirty, and
    nothing has been written or deleted on disk; that is left to the next
    flush. *)
Theorem clear_cache_purges rom_FN plat (s : SW) :
  (forall ct, ~ cache_unreadable os_path_join ct plat s) ->
  exists s',
    clear_cache os_path_join rom_FN plat s = (Ok tt, s') /\
    world s' = world s /\
    same_but_caches (obj (keyed rom_FN plat s)) (obj s') /\
    forall ct,
      let before := cache_contents os_path_join ct plat s in
      pc_get ct (disk_caches_loaded (obj s')) = true /\
      _check_disk_cache os_path_join ct (getBase rom_FN) s' = (Ok false, s') /\
      (forall key', key' <> getBase rom_FN ->
         _retrieve_from_disk_cache ct key' s' = (dict_get key' before, s')) /\
      (dict_mem (getBase rom_FN) before = true ->
         pc_get ct (disk_caches_dirty (obj s')) = true).
Proof.
  intros Hr.
  destruct (purge_loop_frame (getBase rom_FN) plat CACHE_LIST
              (keyed rom_FN plat s) CACHE_LIST_NoDup)
    as (s' & Hrun & Hw & Hs & Hin & _).
  { reflexivity. }
  { intros ct _. apply Hr. }
  exists s'. split; [|split; [exact Hw|split; [exact Hs|]]].
  - unfold clear_cache, bind at 1, on_obj, modify. exact Hrun.
  - intros ct. cbv zeta.
    destruct (Hin ct (CACHE_LIST_all ct)) as (Hl & Hm & Hfr & Hd).
    cbv zeta in Hfr, Hd.
    change (cache_contents os_path_join ct plat (keyed rom_FN plat s))
      with (cache_contents os_path_join ct plat s) in Hfr, Hd.
    split; [exact Hl|]. split; [|split].
    + unfold _check_disk_cache, _lazy_load_disk_cache, bind, gets, ret.
      rewrite Hl. cbn [negb fst snd]. rewrite Hm. reflexivity.
    + intros key' Hne. unfold _retrieve_from_disk_cache, bind, gets,
        lift_result. cbn [fst snd]. rewrite (Hfr key' Hne).
      destruct (dict_get key' _); reflexivity.
    + intros Hb. rewrite Hd, Hb. reflexivity.
Qed.
End ClearCache.

Lemma clear_cache_purges_witness :
  let join := fun d f => d +:+ "/" +:+ f in
  exists s',
    clear_cache join sonic "Sega Genesis" online_with_candidate = (Ok tt, s') /\
    world s' = world online_with_candidate /\
    same_but_caches (obj (keyed sonic "Sega Genesis" online_with_candidate))
      (obj s') /\
    forall ct,
      let before := cache_contents join ct "Sega Genesis"
                      online_with_candidate in
      pc_get ct (disk_caches_loaded (obj s')) = true /\
      _check_disk_cache join ct (getBase sonic) s' = (Ok false, s') /\
      (forall key', key' <> getBase sonic ->
         _retrieve_from_disk_cache ct key' s' = (dict_get key' before, s')) /\
      (dict_mem (getBase sonic) before = true ->
         pc_get ct (disk_caches_dirty (obj s')) = true).
Proof.
  apply (clear_cache_purges (fun d f => d +:+ "/" +:+ f) sonic "Sega Genesis"
           online_with_candidate).
  intros ct [Hl Hf]. destruct ct; vm_compute in Hl, Hf; discriminate.
Defined.

(** ** More on the candidate search *)

(** No method of the base class clears a loaded flag: a search that is
    built from them unloads no kind. *)
Global Instance keeps_loaded_preorder : PreOrder keeps_loaded.
Proof.
  split.
  - intros s ct H. exact H.
  - intros s1 s2 s3 H1 H2 ct H. apply H2, H1, H.
Qed.

Lemma keeps_loaded_on_obj (f : Scraper -> Scraper) :
  (forall o ct, pc_get ct (disk_caches_loaded o) = true ->
                pc_get ct (disk_caches_loaded (f o)) = true) ->
  respects keeps_loaded (on_obj f).
Proof. intros H s ct Hl. apply (H (obj s) ct Hl). Qed.

Lemma keeps_loaded_on_world (f : World -> World) :
  respects keeps_loaded (on_world f).
Proof. intros s ct H. exact H. Qed.

Ltac keeps_loaded_tac :=
  repeat first
    [ apply keeps_loaded_on_world
    | apply keeps_loaded_on_obj; intros ? ? ?; cbn -[pc_get pc_set];
      first
        [ assumption
        | lazymatch goal with
          | |- pc_get ?a (pc_set ?b true _) = true =>
              destruct (decide (a = b)) as [->|?];
              [apply pc_get_set_eq
              |rewrite pc_get_set_ne by congruence; assumption]
          end ]
    | respects_step ].

Lemma base_op_keeps_loaded os_path_join net_download_img op :
  respects keeps_loaded (run_op os_path_join net_download_img op).
Proof.
  destruct op; cbn [run_op];
    unfold check_candidates_cache, retrieve_from_candidates_cache,
      set_candidate_from_cache, set_candidate, clear_cache, purge_one,
      download_image, _wait_for_API_request, _handle_exception, _handle_error,
      flush_disk_cache, flush_one, _check_disk_cache, _update_disk_cache,
      _retrieve_from_disk_cache, _delete_from_disk_cache,
      _lazy_load_disk_cache, _load_disk_cache, _get_scraper_file_name;
    keeps_loaded_tac.
Qed.

Lemma base_ops_keep_loaded os_path_join net_download_img ops : forall s,
  keeps_loaded s (run_ops os_path_join net_download_img ops s).
Proof.
  induction ops as [|op ops IH]; intros s; [reflexivity|].
  cbn [run_ops foldl]. etrans; [|apply IH].
  apply base_op_keeps_loaded.
Qed.

Section CandidateHit.
Variable os_path_join : string -> string -> string.
Variable ListDialog_select : string -> list pyval -> Z.
Variable get_candidates_impl :
  string -> FileName -> FileName -> string -> status_dic -> Scraper ->
  option (list pyval) * status_dic * Scraper.

(** The world once the progress message of the search is out. *)
Lemma searching_world self (o : Scraper) (w : World) :
  let w' := if debugose (pdialogger self)
            then emit (Ev_pdialog (updateMessage2
                   ("Searching games with scraper " +:+ get_name o +:+ "...")))
                   w
            else w in
  log w' = searching_message self o ++ log w /\ fs w' = fs w.
Proof.
  cbv zeta. unfold searching_message.
  destruct (debugose (pdialogger self)); split; reflexivity.
Qed.

(** On a hit the cached value becomes the candidate and nothing but the
    progress message is added to the log. *)
Lemma scanner_get_candidate_hit self rom chk term st0 (s : SW) v :
  let ROM_path := get_file rom in
  let plat := s_platform self in
  ~ cache_unreadable os_path_join CACHE_CANDIDATES plat s ->
  dict_get (getBase ROM_path)
    (cache_contents os_path_join CACHE_CANDIDATES plat s) = Ok v ->
  exists s',
    _scanner_get_candidate os_path_join ListDialog_select get_candidates_impl
      self rom chk term st0 s = (Ok st0, s') /\
    candidate (obj s') = v /\
    log (world s') = searching_message self (obj s) ++ log (world s).
Proof.
  cbv zeta. destruct s as [o w]. intros Hr Hv.
  rewrite scanner_get_candidate_prefix.
  destruct (searching_world self o w) as [Hlogm Hfsm].
  set (w_m := if debugose (pdialogger self)
              then emit (Ev_pdialog (updateMessage2
                     ("Searching games with scraper " +:+ get_name o +:+ "...")))
                     w
              else w) in *.
  destruct (resolve_candidate_hit os_path_join ListDialog_select
              get_candidates_impl self rom chk term st0
              {| obj := o; world := w_m |} v) as (s' & Hrun & Hc & Hw).
  { intros [Hl Hf]. apply Hr. split; [exact Hl|].
    cbn [obj world] in Hf |- *. rewrite <- Hfsm. exact Hf. }
  { unfold cache_contents in Hv |- *. cbn [obj world] in Hv |- *.
    rewrite Hfsm. exact Hv. }
  exists s'. split; [exact Hrun|]. split; [exact Hc|].
  rewrite Hw. exact Hlogm.
Qed.

End CandidateHit.

Section CandidateSearch.
Variable os_path_join : string -> string -> string.
Variable ListDialog_select : string -> list pyval -> Z.
Variable get_candidates_impl :
  string -> FileName -> FileName -> string -> status_dic -> Scraper ->
  option (list pyval) * status_dic * Scraper.

(** On a miss the scanner purges the key and then runs the search on the
    purged object; what follows is [choose_candidate] on the answer. *)
Lemma scanner_get_candidate_miss_eq self rom chk term st0 (s : SW) :
  let ROM_path := get_file rom in
  let plat := s_platform self in
  (forall ct, ~ cache_unreadable os_path_join ct plat s) ->
  dict_mem (getBase ROM_path)
    (cache_contents os_path_join CACHE_CANDIDATES plat s) = false ->
  exists s2,
    log (world s2) = searching_message self (obj s) ++ log (world s) /\
    fs (world s2) = fs (world s) /\
    same_but_caches (obj (keyed ROM_path plat s)) (obj s2) /\
    (forall ct,
       pc_get ct (disk_caches_loaded (obj s2)) = true /\
       dict_mem (getBase ROM_path) (pc_get ct (disk_caches (obj s2))) = false /\
       (forall key', key' <> getBase ROM_path ->
          dict_get key' (pc_get ct (disk_caches (obj s2)))
          = dict_get key' (cache_contents os_path_join ct plat s)) /\
       (dict_mem (getBase ROM_path) (cache_contents os_path_join ct plat s)
        = true ->
        pc_get ct (disk_caches_dirty (obj s2)) = true)) /\
    _scanner_get_candidate os_path_join ListDialog_select get_candidates_impl
      self rom chk term st0 s
    = choose_candidate os_path_join ListDialog_select self ROM_path
        (get_candidates_impl term ROM_path chk plat st0 (obj s2)).1.1
        (get_candidates_impl term ROM_path chk plat st0 (obj s2)).1.2
        {| obj := (get_candidates_impl term ROM_path chk plat st0 (obj s2)).2;
           world := emit (Ev_get_candidates term ROM_path chk plat (obj s2))
                      (world s2) |}.
Proof.
  cbv zeta. destruct s as [o w]. intros Hr Hm.
  rewrite scanner_get_candidate_prefix.
  destruct (searching_world self o w) as [Hlogm Hfsm].
  set (w_m := if debugose (pdialogger self)
              then emit (Ev_pdialog (updateMessage2
                     ("Searching games with scraper " +:+ get_name o +:+ "...")))
                     w
              else w) in *.
  set (s_m := {| obj := o; world := w_m |}).
  set (plat := s_platform self) in *. set (ROM_path := get_file rom) in *.
  assert (Hcont : forall ct, cache_contents os_path_join ct plat s_m
                             = cache_contents os_path_join ct plat
                                 {| obj := o; world := w |}).
  { intros ct. unfold cache_contents, s_m. cbn [obj world]. rewrite Hfsm.
    reflexivity. }
  assert (Hrm : forall ct, ~ cache_unreadable os_path_join ct plat s_m).
  { intros ct [Hl Hf]. apply (Hr ct). split; [exact Hl|].
    unfold s_m in Hf. cbn [obj world] in Hf |- *. rewrite <- Hfsm. exact Hf. }
  set (s1 := lazy_loaded os_path_join CACHE_CANDIDATES plat
               (keyed ROM_path plat s_m)).
  destruct (lazy_loaded_fields os_path_join CACHE_CANDIDATES plat
              (keyed ROM_path plat s_m))
    as (Hw1 & Hld1 & _ & Hp1 & _ & _ & _ & Hfn1 & Hd1 & Ho1).
  fold s1 in Hw1, Hld1, Hp1, Hfn1, Hd1, Ho1.
  pose proof (lazy_loaded_same_but_caches os_path_join CACHE_CANDIDATES plat
                (keyed ROM_path plat s_m)) as Hs1. fold s1 in Hs1.
  assert (Hr1 : forall ct, ~ cache_unreadable os_path_join ct plat s1).
  { intros ct [Hl Hf].
    destruct (decide (ct = CACHE_CANDIDATES)) as [->|Hne]; [congruence|].
    apply (Hrm ct). split.
    - rewrite (proj1 (proj2 (Ho1 ct Hne))) in Hl. exact Hl.
    - revert Hf. unfold cache_path, cache_fname. rewrite Hw1, Hfn1, Hd1.
      intros Hf. exact Hf. }
  destruct (purge_loop_frame os_path_join (getBase ROM_path) plat CACHE_LIST
              (keyed ROM_path plat s1) CACHE_LIST_NoDup)
    as (s2 & Hrun & Hw2 & Hs2 & Hin & _).
  { reflexivity. }
  { intros ct _. apply Hr1. }
  exists s2. split; [|split; [|split; [|split]]].
  - rewrite Hw2. cbn [keyed world]. rewrite Hw1. exact Hlogm.
  - rewrite Hw2. cbn [keyed world]. rewrite Hw1. exact Hfsm.
  - eapply same_but_caches_trans; [|exact Hs2].
    apply same_but_caches_keyed. exact Hs1.
  - intros ct. destruct (Hin ct (CACHE_LIST_all ct)) as (Ha & Hb & Hc & Hd).
    cbv zeta in Hc, Hd.
    assert (Hsame : cache_contents os_path_join ct plat (keyed ROM_path plat s1)
                    = cache_contents os_path_join ct plat
                        {| obj := o; world := w |}).
    { change (cache_contents os_path_join ct plat (keyed ROM_path plat s1))
        with (cache_contents os_path_join ct plat s1).
      unfold s1. rewrite cache_contents_lazy_loaded.
      change (cache_contents os_path_join ct plat (keyed ROM_path plat s_m))
        with (cache_contents os_path_join ct plat s_m).
      apply Hcont. }
    rewrite Hsame in Hc, Hd.
    split; [exact Ha|]. split; [exact Hb|]. split; [exact Hc|].
    intros Hheld. rewrite Hd, Hheld. reflexivity.
  - subst plat ROM_path. unfold resolve_candidate. unfold bind at 1.
    rewrite (check_candidates_cache_eq os_path_join _ _ s_m
               (Hrm CACHE_CANDIDATES)).
    rewrite Hcont, Hm. fold s1.
    unfold bind at 1, ret at 1. unfold bind at 1.
    unfold clear_cache, bind at 1, on_obj at 1, modify at 1.
    fold (keyed (get_file rom) (s_platform self) s1). rewrite Hrun.
    unfold bind at 1.
    unfold get_candidates at 1, bind at 1 2 3, gets at 1, say, on_world, on_obj,
      modify. cbn [fst snd obj world].
    destruct (get_candidates_impl term (get_file rom) chk (s_platform self)
                st0 (obj s2)) as [[cands st] o3]. reflexivity.
Qed.


(** C5.  In [_scanner_get_candidate] the candidates cache is looked at
    first.  When it holds the ROM's key, the cached value, whatever it is
    (an empty marker too), becomes the active candidate, the method returns
    normally and the log gains nothing but the progress message:
    [get_candidates] is not called.  When it does not hold the key, all
    four cache kinds are purged of the key first and only then
    [get_candidates] is called, once.  The object [o2] it is called on is
    the scraper with the key and the platform recorded and with every kind
    loaded: no kind holds the key, every other key of every kind answers as
    it did before (from memory or from the file of the kind), and a kind
    that did hold the key is dirty, so that the next flush rewrites its
    file. *)
Theorem scanner_get_candidate_cache_first self rom chk term st0 (s : SW) :
  let ROM_path := get_file rom in
  let key := getBase ROM_path in
  let plat := s_platform self in
  let cached := cache_contents os_path_join CACHE_CANDIDATES plat s in
  let out := _scanner_get_candidate os_path_join ListDialog_select
               get_candidates_impl self rom chk term st0 s in
  (~ cache_unreadable os_path_join CACHE_CANDIDATES plat s ->
   forall v, dict_get key cached = Ok v ->
     out.1 = Ok st0 /\
     candidate (obj out.2) = v /\
     log (world out.2) = searching_message self (obj s) ++ log (world s)) /\
  ((forall ct, ~ cache_unreadable os_path_join ct plat s) ->
   dict_mem key cached = false ->
     exists o2 evs,
       purged key o2 /\
       same_but_caches (obj (keyed ROM_path plat s)) o2 /\
       (forall ct,
          pc_get ct (disk_caches_loaded o2) = true /\
          (forall key', key' <> key ->
             dict_get key' (pc_get ct (disk_caches o2))
             = dict_get key' (cache_contents os_path_join ct plat s)) /\
          (dict_mem key (cache_contents os_path_join ct plat s) = true ->
           pc_get ct (disk_caches_dirty o2) = true)) /\
       log (world out.2)
       = evs ++ Ev_get_candidates term ROM_path chk plat o2
              :: searching_message self (obj s) ++ log (world s) /\
       Forall (fun e => is_search e = false) evs).
Proof.
  cbv zeta. split.
  - intros Hr v Hv.
    destruct (scanner_get_candidate_hit os_path_join ListDialog_select
                get_candidates_impl self rom chk term st0 s v Hr Hv)
      as (s' & Hrun & Hc & Hlog).
    rewrite Hrun. cbn [fst snd]. repeat split; assumption.
  - intros Hr Hm.
    destruct (scanner_get_candidate_miss_eq self rom chk term st0 s Hr Hm)
      as (s2 & Hlog & _ & Hsame & Hall & Hrun).
    rewrite Hrun.
    destruct (no_search_choose_candidate os_path_join ListDialog_select self
                (get_file rom)
                (get_candidates_impl term (get_file rom) chk (s_platform self)
                   st0 (obj s2)).1.1
                (get_candidates_impl term (get_file rom) chk (s_platform self)
                   st0 (obj s2)).1.2
                {| obj := (get_candidates_impl term (get_file rom) chk
                             (s_platform self) st0 (obj s2)).2;
                   world := emit (Ev_get_candidates term (get_file rom) chk
                                    (s_platform self) (obj s2)) (world s2) |})
      as (evs & Hl & Hnone).
    exists (obj s2), evs.
    split; [intros ct; apply (Hall ct)|].
    split; [exact Hsame|].
    split.
    { intros ct. destruct (Hall ct) as (Ha & _ & Hc & Hd).
      split; [exact Ha|]. split; [exact Hc|exact Hd]. }
    split; [|exact Hnone].
    rewrite Hl. cbn [world log emit]. rewrite Hlog. reflexivity.
Qed.










(** X14.  A candidates file that cannot be parsed stops the scan of the ROM before
    any search: [_scanner_get_candidate] raises [ValueError] after its
    progress message, and the file is as unreadable afterwards, so that
    every ROM of the platform fails in the same way until the file is
    repaired or removed. *)
Theorem corrupt_candidates_cache_blocks_scan self rom chk term st0 (s : SW) :
  let plat := s_platform self in
  cache_unreadable os_path_join CACHE_CANDIDATES plat s ->
  exists s',
    _scanner_get_candidate os_path_join ListDialog_select get_candidates_impl
      self rom chk term st0 s = (Raise ValueError, s') /\
    log (world s') = searching_message self (obj s) ++ log (world s) /\
    candidate (obj s') = candidate (obj s) /\
    cache_unreadable os_path_join CACHE_CANDIDATES plat s'.
Proof.
  cbv zeta. destruct s as [o w]. intros [Hl Hf].
  rewrite scanner_get_candidate_prefix.
  destruct (searching_world self o w) as [Hlogm Hfsm].
  set (w_m := if debugose (pdialogger self)
              then emit (Ev_pdialog (updateMessage2
                     ("Searching games with scraper " +:+ get_name o +:+ "...")))
                     w
              else w) in *.
  assert (Hu : cache_unreadable os_path_join CACHE_CANDIDATES (s_platform self)
                 (keyed (get_file rom) (s_platform self)
                    {| obj := o; world := w_m |})).
  { split; [exact Hl|]. cbn [keyed obj world] in Hf |- *.
    unfold cache_path, cache_fname in Hf |- *. cbn. rewrite Hfsm. exact Hf. }
  exists (keyed (get_file rom) (s_platform self) {| obj := o; world := w_m |}).
  split; [|split; [exact Hlogm|split; [reflexivity|exact Hu]]].
  unfold resolve_candidate, bind at 1.
  unfold check_candidates_cache, bind at 1, on_obj at 1, modify at 1.
  fold (keyed (get_file rom) (s_platform self) {| obj := o; world := w_m |}).
  unfold _check_disk_cache, bind at 1.
  rewrite (lazy_load_fail os_path_join CACHE_CANDIDATES (s_platform self)
             (keyed (get_file rom) (s_platform self)
                {| obj := o; world := w_m |}) eq_refl Hu).
  reflexivity.
Qed.
End CandidateSearch.

Lemma scanner_get_candidate_cache_first_witness :
  let join := fun d f => d +:+ "/" +:+ f in
  let self := strategy_example SCRAPE_POLICY_SCRAPE_ONLY
                SCRAPE_POLICY_LOCAL_ONLY false None None in
  let run := _scanner_get_candidate join (fun _ _ => 0)
               (fun _ _ _ _ st o => (None, st, o)) self (rom_example ∅) sonic
               "Sonic" (new_status_dic "No error") in
  let hit := run online_with_candidate in
  let miss := run (scan_start_example ∅) in
  (hit.1 = Ok (new_status_dic "No error") /\
   candidate (obj hit.2) = PDict [("id", PStr "42")] /\
   log (world hit.2) = []) /\
  exists o2 evs,
    purged (getBase sonic) o2 /\
    (forall ct, pc_get ct (disk_caches_loaded o2) = true) /\
    log (world miss.2)
    = evs ++ [Ev_get_candidates "Sonic" sonic sonic "Sega Genesis" o2] /\
    Forall (fun e => is_search e = false) evs.
Proof.
  cbv zeta. split.
  - destruct (scanner_get_candidate_cache_first (fun d f => d +:+ "/" +:+ f)
                (fun _ _ => 0) (fun _ _ _ _ st o => (None, st, o))
                (strategy_example SCRAPE_POLICY_SCRAPE_ONLY
                   SCRAPE_POLICY_LOCAL_ONLY false None None)
                (rom_example ∅) sonic "Sonic" (new_status_dic "No error")
                online_with_candidate) as [H _].
    apply H.
    + intros [Hl _]. vm_compute in Hl. discriminate.
    + vm_compute. reflexivity.
  - destruct (scanner_get_candidate_cache_first (fun d f => d +:+ "/" +:+ f)
                (fun _ _ => 0) (fun _ _ _ _ st o => (None, st, o))
                (strategy_example SCRAPE_POLICY_SCRAPE_ONLY
                   SCRAPE_POLICY_LOCAL_ONLY false None None)
                (rom_example ∅) sonic "Sonic" (new_status_dic "No error")
                (scan_start_example ∅)) as [_ H].
    destruct H as (o2 & evs & Hp & _ & Hall & Hlog & Hnone).
    + intros ct [_ Hf]. destruct ct; vm_compute in Hf; discriminate.
    + reflexivity.
    + exists o2, evs. split; [exact Hp|].
      split; [intros ct; apply (Hall ct)|]. split; [exact Hlog|exact Hnone].
Defined.





Lemma corrupt_candidates_cache_blocks_scan_witness :
  let join := fun d f => d +:+ "/" +:+ f in
  let select := fun (_ : string) (_ : list pyval) => 0 in
  let impl := fun (_ : string) (_ _ : FileName) (_ : string)
                  (st : status_dic) (o : Scraper) =>
                (Some [candidate_example "1" "Sonic"], st, o) in
  let self := strategy_with_mode SCRAPE_AUTOMATIC in
  let s := scan_start_example {[ candidates_file_example := OtherFile ]} in
  exists s',
    _scanner_get_candidate join select impl self (rom_example ∅) sonic "Sonic"
      (new_status_dic "No error") s = (Raise ValueError, s') /\
    log (world s') = searching_message self (obj s) ++ log (world s) /\
    candidate (obj s') = candidate (obj s) /\
    cache_unreadable join CACHE_CANDIDATES "Sega Genesis" s'.
Proof.
  apply (corrupt_candidates_cache_blocks_scan (fun d f => d +:+ "/" +:+ f)
           (fun _ _ => 0)
           (fun _ _ _ _ st o => (Some [candidate_example "1" "Sonic"], st, o))
           (strategy_with_mode SCRAPE_AUTOMATIC) (rom_example ∅) sonic "Sonic"
           (new_status_dic "No error")
           (scan_start_example {[ candidates_file_example := OtherFile ]})).
  split; vm_compute; reflexivity.
Defined.

(** ** More on the metadata scrape *)

Section MetadataScrape.
Variable format_ROM_title : string -> bool -> string.
Variable get_metadata_impl :
  status_dic -> Scraper -> pyval * status_dic * Scraper.

(** The scrape up to the answer of [get_metadata], for a candidate that is
    neither null nor empty. *)
Lemma scrap_metadata_call (x : ScrapeStrategy) (rom : ROM) (w : World) o
    game_data st o' :
  meta_scraper_obj x = Some o ->
  truthy (candidate o) = true ->
  get_metadata_impl (new_status_dic "No error") o = (game_data, st, o') ->
  exists w1,
    log w1 = Ev_get_metadata o :: scraping_message x o ++ log w /\
    fs w1 = fs w /\
    _scanner_scrap_ROM_metadata format_ROM_title get_metadata_impl
      {| sc_self := x; sc_rom := rom; sc_world := w |}
    = (if negb (status st) then
         tell (Ev_pdialog pd_close) ;;
         tell (Ev_dialog_yesno_timer (msg st) 60000) ;;
         tell (Ev_pdialog pd_reopen)
       else
         _ <- _apply_candidate_on_metadata format_ROM_title game_data ;;
         _scanner_update_NFO_file)
        {| sc_self := set_scraper_objs (Some o') (asset_scraper_obj x) x;
           sc_rom := rom; sc_world := w1 |}.
Proof.
  intros Ho Ht Himpl.
  assert (Hn : is_None (candidate o) = false)
    by (destruct (candidate o); try reflexivity; discriminate).
  exists (emit (Ev_get_metadata o)
            (if debug (pdialogger x)
             then emit (Ev_pdialog (updateMessage2
                    ("Scraping metadata with " +:+ get_name o +:+ "..."))) w
             else w)).
  unfold scraping_message.
  split; [destruct (debug (pdialogger x)); reflexivity|].
  split; [destruct (debug (pdialogger x)); reflexivity|].
  unfold _scanner_scrap_ROM_metadata, with_meta_scraper, get_metadata, say,
    on_world, on_obj, bind, gets, tell, modify, ret.
  destruct (debug (pdialogger x)) eqn:Ed;
    repeat (progress (cbn -[_apply_candidate_on_metadata
                           _scanner_update_NFO_file];
                      rewrite ?Ed, ?Ho, ?Ht, ?Hn, ?Himpl));
    destruct (status st); reflexivity.
Qed.

Lemma dict_get_raises k (d : pydict) e :
  dict_get k d = Raise e -> e = KeyError.
Proof.
  induction d as [|[k' v] d IH]; cbn; [congruence|].
  destruct (String.eqb k k'); [discriminate|exact IH].
Qed.

(** [_apply_candidate_on_metadata] once the title is set: the six other
    fields are read and applied one after the other. *)
Lemma apply_candidate_title (x : ScrapeStrategy) (rom : ROM) (w : World) d
    name :
  (if scan_ignore_scrap_title x
   then name = PStr (format_ROM_title (getBaseNoExt (get_file rom))
                       (scan_clean_tags x))
   else dict_get "title" d = Ok name) ->
  d <> [] ->
  _apply_candidate_on_metadata format_ROM_title (PDict d)
    {| sc_self := x; sc_rom := rom; sc_world := w |}
  = (y <- lift_result (dict_get "year" d) ;;
     on_rom (fun r => set_scraped_fields r y (m_genre r) (m_developer r)
                        (m_nplayers r) (m_esrb r) (m_plot r)) ;;
     g <- lift_result (dict_get "genre" d) ;;
     on_rom (fun r => set_scraped_fields r (m_year r) g (m_developer r)
                        (m_nplayers r) (m_esrb r) (m_plot r)) ;;
     dv <- lift_result (dict_get "developer" d) ;;
     on_rom (fun r => set_scraped_fields r (m_year r) (m_genre r) dv
                        (m_nplayers r) (m_esrb r) (m_plot r)) ;;
     n <- lift_result (dict_get "nplayers" d) ;;
     on_rom (fun r => set_scraped_fields r (m_year r) (m_genre r)
                        (m_developer r) n (m_esrb r) (m_plot r)) ;;
     e <- lift_result (dict_get "esrb" d) ;;
     on_rom (fun r => set_scraped_fields r (m_year r) (m_genre r)
                        (m_developer r) (m_nplayers r) e (m_plot r)) ;;
     p <- lift_result (dict_get "plot" d) ;;
     on_rom (fun r => set_scraped_fields r (m_year r) (m_genre r)
                        (m_developer r) (m_nplayers r) (m_esrb r) p) ;;
     ret true)
      {| sc_self := x; sc_rom := set_name rom name;
         sc_world := emit (Ev_set_name name) w |}.
Proof.
  intros Hname Hne.
  assert (Htr : truthy (PDict d) = true)
    by (destruct d; [congruence|reflexivity]).
  unfold _apply_candidate_on_metadata. rewrite Htr. cbn [negb].
  unfold bind at 1, gets at 1. cbn [sc_self].
  destruct (scan_ignore_scrap_title x).
  - subst name. unfold bind at 1. reflexivity.
  - unfold bind at 1. unfold bind at 1, py_getitem at 1, lift_result at 1.
    rewrite Hname. reflexivity.
Qed.

(** The record is applied in full when it holds the six fields. *)
Lemma apply_candidate_ok (x : ScrapeStrategy) (rom : ROM) (w : World) d name
    y g dv n e p :
  (if scan_ignore_scrap_title x
   then name = PStr (format_ROM_title (getBaseNoExt (get_file rom))
                       (scan_clean_tags x))
   else dict_get "title" d = Ok name) ->
  dict_get "year" d = Ok y ->
  dict_get "genre" d = Ok g ->
  dict_get "developer" d = Ok dv ->
  dict_get "nplayers" d = Ok n ->
  dict_get "esrb" d = Ok e ->
  dict_get "plot" d = Ok p ->
  _apply_candidate_on_metadata format_ROM_title (PDict d)
    {| sc_self := x; sc_rom := rom; sc_world := w |}
  = (Ok true,
     {| sc_self := x;
        sc_rom := set_scraped_fields (set_name rom name) y g dv n e p;
        sc_world := emit (Ev_set_name name) w |}).
Proof.
  intros Hname Hy Hg Hd Hn He Hp.
  rewrite (apply_candidate_title x rom w d name Hname)
    by (destruct d; [discriminate|congruence]).
  rewrite Hy, Hg, Hd, Hn, He, Hp. reflexivity.
Qed.

(** The first of the six fields that the record lacks stops the
    application with [KeyError], after the title. *)
Lemma apply_candidate_missing (x : ScrapeStrategy) (rom : ROM) (w : World) d
    name k :
  (if scan_ignore_scrap_title x
   then name = PStr (format_ROM_title (getBaseNoExt (get_file rom))
                       (scan_clean_tags x))
   else dict_get "title" d = Ok name) ->
  d <> [] ->
  k ∈ gamedata_fields ->
  dict_mem k d = false ->
  exists rom',
    _apply_candidate_on_metadata format_ROM_title (PDict d)
      {| sc_self := x; sc_rom := rom; sc_world := w |}
    = (Raise KeyError,
       {| sc_self := x; sc_rom := rom';
          sc_world := emit (Ev_set_name name) w |}) /\
    m_name rom' = name.
Proof.
  intros Hname Hne Hk Hmiss.
  rewrite (apply_candidate_title x rom w d name Hname Hne).
  apply dict_mem_get_false in Hmiss.
  assert (Hcase : forall key,
            (exists v, dict_get key d = Ok v) \/ dict_get key d = Raise KeyError).
  { intros key. destruct (dict_get key d) as [v|e] eqn:E; [left; eauto|].
    right. f_equal. eapply dict_get_raises, E. }
  unfold gamedata_fields in Hk.
  destruct (Hcase "year") as [[y Hy]|Hy]; rewrite Hy;
    [|eexists; split; reflexivity].
  destruct (Hcase "genre") as [[g Hg]|Hg]; rewrite Hg;
    [|eexists; split; reflexivity].
  destruct (Hcase "developer") as [[dv Hd]|Hd]; rewrite Hd;
    [|eexists; split; reflexivity].
  destruct (Hcase "nplayers") as [[n Hn]|Hn]; rewrite Hn;
    [|eexists; split; reflexivity].
  destruct (Hcase "esrb") as [[e He]|He]; rewrite He;
    [|eexists; split; reflexivity].
  destruct (Hcase "plot") as [[p Hp]|Hp]; rewrite Hp;
    [|eexists; split; reflexivity].
  exfalso. repeat (apply elem_of_cons in Hk as [->|Hk]; [congruence|]).
  inversion Hk.
Qed.


(** X15.  When [get_metadata] reports an error, the scanner shows it and leaves
    the item exactly as it was: the title is not even cleaned and no NFO
    file is exported. *)
Theorem scrap_metadata_provider_error (s : Scan) o game_data st o' :
  meta_scraper_obj (sc_self s) = Some o ->
  truthy (candidate o) = true ->
  get_metadata_impl (new_status_dic "No error") o = (game_data, st, o') ->
  status st = false ->
  exists s',
    _scanner_scrap_ROM_metadata format_ROM_title get_metadata_impl s
    = (Ok tt, s') /\
    sc_rom s' = sc_rom s /\
    meta_scraper_obj (sc_self s') = Some o' /\
    fs (sc_world s') = fs (sc_world s) /\
    log (sc_world s')
    = [Ev_pdialog pd_reopen; Ev_dialog_yesno_timer (msg st) 60000;
       Ev_pdialog pd_close; Ev_get_metadata o]
      ++ scraping_message (sc_self s) o ++ log (sc_world s).
Proof.
  intros Ho Ht Himpl Hst. destruct s as [x rom w].
  cbn [sc_self sc_rom sc_world] in *.
  destruct (scrap_metadata_call x rom w o game_data st o' Ho Ht Himpl)
    as (w1 & Hlog & Hfs & Hrun).
  rewrite Hrun, Hst. cbn [negb].
  unfold bind, tell, modify. cbn [fst snd sc_self sc_rom sc_world].
  eexists. split; [reflexivity|]. cbn [sc_self sc_rom sc_world emit log fs].
  rewrite Hlog, Hfs. repeat split.
Qed.

(** X16.  When [get_metadata] succeeds with a complete record, the seven fields
    of the item are set from it, the title being the cleaned file name
    instead when the user ignores scraped titles.  The NFO update routine
    runs afterwards on the updated item: the scrape returns normally when
    NFO updates are switched off and ends with the [NameError] of the
    export call when they are switched on, the item keeping the scraped
    fields; no NFO file is exported. *)
Theorem scrap_metadata_applied (s : Scan) o d st o' name y g dv n e p :
  let rom' := set_scraped_fields (set_name (sc_rom s) name) y g dv n e p in
  meta_scraper_obj (sc_self s) = Some o ->
  truthy (candidate o) = true ->
  get_metadata_impl (new_status_dic "No error") o = (PDict d, st, o') ->
  status st = true ->
  (if scan_ignore_scrap_title (sc_self s)
   then name = PStr (format_ROM_title (getBaseNoExt (get_file (sc_rom s)))
                       (scan_clean_tags (sc_self s)))
   else dict_get "title" d = Ok name) ->
  dict_get "year" d = Ok y ->
  dict_get "genre" d = Ok g ->
  dict_get "developer" d = Ok dv ->
  dict_get "nplayers" d = Ok n ->
  dict_get "esrb" d = Ok e ->
  dict_get "plot" d = Ok p ->
  exists s',
    _scanner_scrap_ROM_metadata format_ROM_title get_metadata_impl s
    = (NFO_update_result (sc_self s), s') /\
    sc_rom s' = rom' /\
    log (sc_world s')
    = Ev_set_name name :: Ev_get_metadata o
      :: scraping_message (sc_self s) o ++ log (sc_world s).
Proof.
  cbv zeta. intros Ho Ht Himpl Hst Hname Hy Hg Hd Hn He Hp.
  destruct s as [x rom w]. cbn [sc_self sc_rom sc_world] in *.
  destruct (scrap_metadata_call x rom w o (PDict d) st o' Ho Ht Himpl)
    as (w1 & Hlog & Hfs & Hrun).
  rewrite Hrun, Hst. cbn [negb]. unfold bind.
  rewrite (apply_candidate_ok (set_scraper_objs (Some o') (asset_scraper_obj x) x)
             rom w1 d name y g dv n e p Hname Hy Hg Hd Hn He Hp).
  rewrite update_NFO_file_eq. eexists. split; [reflexivity|].
  split; [reflexivity|]. cbn [sc_world log emit]. rewrite Hlog. reflexivity.
Qed.

(** X17.  When [get_metadata] succeeds without data ([None] or an empty record),
    the item is left as it was, and the NFO update routine runs all the
    same: the scrape returns normally when NFO updates are switched off
    and ends with the [NameError] of the export call when they are
    switched on. *)
Theorem scrap_metadata_no_data (s : Scan) o game_data st o' :
  meta_scraper_obj (sc_self s) = Some o ->
  truthy (candidate o) = true ->
  get_metadata_impl (new_status_dic "No error") o = (game_data, st, o') ->
  status st = true ->
  truthy game_data = false ->
  exists s',
    _scanner_scrap_ROM_metadata format_ROM_title get_metadata_impl s
    = (NFO_update_result (sc_self s), s') /\
    sc_rom s' = sc_rom s /\
    log (sc_world s')
    = Ev_get_metadata o :: scraping_message (sc_self s) o
      ++ log (sc_world s).
Proof.
  intros Ho Ht Himpl Hst Hempty.
  destruct s as [x rom w]. cbn [sc_self sc_rom sc_world] in *.
  destruct (scrap_metadata_call x rom w o game_data st o' Ho Ht Himpl)
    as (w1 & Hlog & Hfs & Hrun).
  rewrite Hrun, Hst. cbn [negb].
  unfold _apply_candidate_on_metadata. rewrite Hempty. cbn [negb].
  unfold bind at 1, ret at 1. rewrite update_NFO_file_eq.
  eexists. split; [reflexivity|]. split; [reflexivity|].
  cbn [sc_world]. exact Hlog.
Qed.

(** X18.  A record that lacks one of the fields after the title makes the scrape
    raise [KeyError] half-way: the title of the item has already been
    changed, the rest of the scan step is skipped and no NFO file is
    exported. *)
Theorem scrap_metadata_incomplete (s : Scan) o d st o' name k :
  meta_scraper_obj (sc_self s) = Some o ->
  truthy (candidate o) = true ->
  get_metadata_impl (new_status_dic "No error") o = (PDict d, st, o') ->
  status st = true ->
  (if scan_ignore_scrap_title (sc_self s)
   then name = PStr (format_ROM_title (getBaseNoExt (get_file (sc_rom s)))
                       (scan_clean_tags (sc_self s)))
   else dict_get "title" d = Ok name) ->
  d <> [] ->
  k ∈ gamedata_fields ->
  dict_mem k d = false ->
  exists s',
    _scanner_scrap_ROM_metadata format_ROM_title get_metadata_impl s
    = (Raise KeyError, s') /\
    m_name (sc_rom s') = name /\
    log (sc_world s')
    = Ev_set_name name :: Ev_get_metadata o
      :: scraping_message (sc_self s) o ++ log (sc_world s).
Proof.
  intros Ho Ht Himpl Hst Hname Hne Hk Hmiss.
  destruct s as [x rom w]. cbn [sc_self sc_rom sc_world] in *.
  destruct (scrap_metadata_call x rom w o (PDict d) st o' Ho Ht Himpl)
    as (w1 & Hlog & Hfs & Hrun).
  rewrite Hrun, Hst. cbn [negb]. unfold bind.
  destruct (apply_candidate_missing
              (set_scraper_objs (Some o') (asset_scraper_obj x) x)
              rom w1 d name k Hname Hne Hk Hmiss) as (rom' & Happly & Hn).
  rewrite Happly. eexists. split; [reflexivity|].
  split; [exact Hn|]. cbn [sc_world log emit]. rewrite Hlog. reflexivity.
Qed.
End MetadataScrape.

Lemma scrap_metadata_provider_error_witness :
  let impl := fun (_ : status_dic) (o : Scraper) =>
                (PNone, error_status_example, o) in
  let s := metadata_scrape_example in
  let o := metadata_scraper_example in
  exists s',
    _scanner_scrap_ROM_metadata title_example impl s = (Ok tt, s') /\
    sc_rom s' = sc_rom s /\
    meta_scraper_obj (sc_self s') = Some o /\
    fs (sc_world s') = fs (sc_world s) /\
    log (sc_world s')
    = [Ev_pdialog pd_reopen;
       Ev_dialog_yesno_timer (msg error_status_example) 60000;
       Ev_pdialog pd_close; Ev_get_metadata o]
      ++ scraping_message (sc_self s) o ++ log (sc_world s).
Proof.
  apply (scrap_metadata_provider_error title_example
           (fun _ o => (PNone, error_status_example, o))
           metadata_scrape_example metadata_scraper_example PNone
           error_status_example metadata_scraper_example);
    reflexivity.
Defined.

Lemma scrap_metadata_applied_witness :
  let impl := fun (st : status_dic) (o : Scraper) =>
                (gamedata_example, st, o) in
  let s := metadata_scrape_example in
  let o := metadata_scraper_example in
  let rom' := set_scraped_fields
                (set_name (sc_rom s) (PStr "Sonic The Hedgehog"))
                (PStr "1991") (PStr "Platform") (PStr "Sonic Team") (PStr "1")
                (PStr "E") (PStr "Rings.") in
  exists s',
    _scanner_scrap_ROM_metadata title_example impl s
    = (NFO_update_result (sc_self s), s') /\
    sc_rom s' = rom' /\
    log (sc_world s')
    = Ev_set_name (PStr "Sonic The Hedgehog") :: Ev_get_metadata o
      :: scraping_message (sc_self s) o ++ log (sc_world s).
Proof.
  apply (scrap_metadata_applied title_example
           (fun st o => (gamedata_example, st, o))
           metadata_scrape_example metadata_scraper_example
           [("title", PStr "Sonic The Hedgehog"); ("year", PStr "1991");
            ("genre", PStr "Platform"); ("developer", PStr "Sonic Team");
            ("nplayers", PStr "1"); ("esrb", PStr "E"); ("plot", PStr "Rings.")]
           (new_status_dic "No error") metadata_scraper_example
           (PStr "Sonic The Hedgehog") (PStr "1991") (PStr "Platform")
           (PStr "Sonic Team") (PStr "1") (PStr "E") (PStr "Rings."));
    reflexivity.
Defined.

Lemma scrap_metadata_no_data_witness :
  let impl := fun (st : status_dic) (o : Scraper) => (PDict [], st, o) in
  let s := metadata_scrape_example in
  let o := metadata_scraper_example in
  exists s',
    _scanner_scrap_ROM_metadata title_example impl s
    = (NFO_update_result (sc_self s), s') /\
    sc_rom s' = sc_rom s /\
    log (sc_world s')
    = Ev_get_metadata o :: scraping_message (sc_self s) o
      ++ log (sc_world s).
Proof.
  apply (scrap_metadata_no_data title_example
           (fun st o => (PDict [], st, o))
           metadata_scrape_example metadata_scraper_example (PDict [])
           (new_status_dic "No error") metadata_scraper_example);
    reflexivity.
Defined.

Lemma scrap_metadata_incomplete_witness :
  let record := [("title", PStr "Sonic The Hedgehog");
                 ("year", PStr "1991")] in
  let impl := fun (st : status_dic) (o : Scraper) => (PDict record, st, o) in
  let s := metadata_scrape_example in
  let o := metadata_scraper_example in
  exists s',
    _scanner_scrap_ROM_metadata title_example impl s = (Raise KeyError, s') /\
    m_name (sc_rom s') = PStr "Sonic The Hedgehog" /\
    log (sc_world s')
    = Ev_set_name (PStr "Sonic The Hedgehog") :: Ev_get_metadata o
      :: scraping_message (sc_self s) o ++ log (sc_world s).
Proof.
  apply (scrap_metadata_incomplete title_example
           (fun st o =>
              (PDict [("title", PStr "Sonic The Hedgehog");
                      ("year", PStr "1991")], st, o))
           metadata_scrape_example metadata_scraper_example
           [("title", PStr "Sonic The Hedgehog"); ("year", PStr "1991")]
           (new_status_dic "No error") metadata_scraper_example
           (PStr "Sonic The Hedgehog") "genre");
    try reflexivity.
  - discriminate.
  - unfold gamedata_fields. rewrite !elem_of_cons. auto.
Defined.

(** ** More on the asset scrape *)

Section AssetScrape.
Variable net_download_img : string -> string -> result unit.
Variable get_asset_path : AssetInfo -> string.
Variable FN_add : string -> string -> string.
Variable FN_append : string -> string -> string.
Variable get_assets_impl :
  AssetInfo -> status_dic -> Scraper ->
  option (list pyval) * status_dic * Scraper.
Variable resolve_asset_URL_impl :
  pyval -> status_dic -> Scraper ->
  option (pyval * pyval) * status_dic * Scraper.
Variable resolve_asset_URL_extension_impl :
  pyval -> pyval -> status_dic -> Scraper -> pyval * status_dic * Scraper.

(** X19.  Without a candidate (null after a search error, empty after a search
    without result) and for an asset the scraper does not support, the local
    asset is returned at once: no operation of the scraper is called and
    nothing is shown. *)
Theorem scrap_asset_without_scraper_call (s : Scan) o asset_info local :
  asset_scraper_obj (sc_self s) = Some o ->
  truthy (candidate o) = false
  \/ supports_asset_ID o (a_id asset_info) = false ->
  exists s',
    _scanner_scrap_ROM_asset net_download_img get_asset_path FN_add FN_append
      get_assets_impl resolve_asset_URL_impl
      resolve_asset_URL_extension_impl asset_info local s = (Ok local, s') /\
    sc_world s' = sc_world s /\
    sc_rom s' = sc_rom s /\
    asset_scraper_obj (sc_self s') = Some o.
Proof.
  intros Ho Hcase. destruct s as [x rom w]. cbn [sc_self sc_rom sc_world] in *.
  unfold _scanner_scrap_ROM_asset, with_asset_scraper, bind, gets, ret.
  destruct (is_None (candidate o)) eqn:En.
  { repeat (progress (cbn; rewrite ?Ho, ?En)).
    eexists. split; [reflexivity|]. repeat split. }
  destruct (truthy (candidate o)) eqn:Et.
  2:{ repeat (progress (cbn; rewrite ?Ho, ?En, ?Et)).
      eexists. split; [reflexivity|]. repeat split. }
  destruct Hcase as [Hc|Hsup]; [discriminate|].
  repeat (progress (cbn; rewrite ?Ho, ?En, ?Et, ?Hsup)).
  eexists. split; [reflexivity|]. repeat split.
Qed.

(** X20.  When [get_assets] returns no image ([None] or an empty list), the local
    asset is returned; the error of the call, if any, is shown, and neither
    a URL is resolved nor anything downloaded. *)
Theorem scrap_asset_no_images (s : Scan) o asset_info local r st o' :
  asset_scraper_obj (sc_self s) = Some o ->
  truthy (candidate o) = true ->
  supports_asset_ID o (a_id asset_info) = true ->
  get_assets_impl asset_info (new_status_dic "No error") o = (r, st, o') ->
  r = None \/ r = Some [] ->
  exists s',
    _scanner_scrap_ROM_asset net_download_img get_asset_path FN_add FN_append
      get_assets_impl resolve_asset_URL_impl
      resolve_asset_URL_extension_impl asset_info local s = (Ok local, s') /\
    sc_rom s' = sc_rom s /\
    asset_scraper_obj (sc_self s') = Some o' /\
    log (sc_world s')
    = error_dialog st ++ Ev_get_assets asset_info
      :: verbose_message (sc_self s)
           ("Getting " +:+ a_name asset_info +:+ " images from "
            +:+ get_name o +:+ "...")
      ++ log (sc_world s).
Proof.
  intros Ho Ht Hsup Himpl Hr. destruct s as [x rom w].
  cbn [sc_self sc_rom sc_world] in *.
  assert (En : is_None (candidate o) = false)
    by (destruct (candidate o); try reflexivity; discriminate).
  unfold _scanner_scrap_ROM_asset, with_asset_scraper, get_assets, after_call,
    show_error_scan, say, on_world, on_obj, bind, gets, tell, modify, ret,
    error_dialog, verbose_message.
  destruct (debugose (pdialogger x)) eqn:Ed, (status st) eqn:Es,
    Hr as [-> | ->];
    repeat (progress (cbn; rewrite ?Ho, ?En, ?Ht, ?Hsup, ?Ed, ?Himpl, ?Es));
    eexists; (split; [reflexivity|]); repeat split.
Qed.

(** X21.  In the asset selection mode [SCRAPE_AUTOMATIC] the first image that
    [get_assets] returns is resolved and downloaded.  The method returns the
    path the image is downloaded to, the asset path of the item with the
    resolved extension, whether or not the download succeeded: a download
    that raises only adds the timeout dialog, and the path of the local
    asset is not returned. *)
Theorem scrap_asset_download (s : Scan) o asset_info local a rest st1 o1
    url url_log st2 o2 ext st3 o3 :
  let name := get_name o in
  let asset_name := a_name asset_info in
  let path := FN_append
                (FN_add (get_asset_path asset_info)
                   (getBaseNoExt (get_file (sc_rom s)))) ("." +:+ ext) in
  asset_scraper_obj (sc_self s) = Some o ->
  truthy (candidate o) = true ->
  supports_asset_ID o (a_id asset_info) = true ->
  asset_selection_mode (scraper_settings (sc_self s)) = SCRAPE_AUTOMATIC ->
  get_assets_impl asset_info (new_status_dic "No error") o
  = (Some (a :: rest), st1, o1) ->
  resolve_asset_URL_impl a st1 o1 = (Some (PStr url, url_log), st2, o2) ->
  resolve_asset_URL_extension_impl a (PStr url) st2 o2 = (PStr ext, st3, o3) ->
  status st1 = true -> status st2 = true -> status st3 = true ->
  url <> "" -> ext <> "" ->
  exists s',
    _scanner_scrap_ROM_asset net_download_img get_asset_path FN_add FN_append
      get_assets_impl resolve_asset_URL_impl
      resolve_asset_URL_extension_impl asset_info local s
    = (Ok (AFile path), s') /\
    sc_rom s' = sc_rom s /\
    asset_scraper_obj (sc_self s') = Some o3 /\
    log (sc_world s')
    = (match net_download_img url path with
       | Ok _ => []
       | Raise _ => download_error_dialog asset_name
       end)
      ++ Ev_net_download_img url path
      :: Ev_download_image asset_info (PStr url) path
      :: verbose_message (sc_self s)
           ("Downloading " +:+ asset_name +:+ " from " +:+ name +:+ "...")
      ++ Ev_resolve_asset_URL_extension asset_info a (PStr url)
      :: Ev_resolve_asset_URL asset_info a
      :: verbose_message (sc_self s)
           ("Scraping " +:+ asset_name +:+ " with " +:+ name
            +:+ " (Resolving URL...)")
      ++ Ev_get_assets asset_info
      :: verbose_message (sc_self s)
           ("Getting " +:+ asset_name +:+ " images from " +:+ name +:+ "...")
      ++ log (sc_world s).
Proof.
  cbv zeta. intros Ho Ht Hsup Hmode Hga Hurl Hext Hs1 Hs2 Hs3 Hu He.
  destruct s as [x rom w]. cbn [sc_self sc_rom sc_world] in *.
  assert (En : is_None (candidate o) = false)
    by (destruct (candidate o); try reflexivity; discriminate).
  apply String.eqb_neq in Hu, He.
  unfold _scanner_scrap_ROM_asset, select_asset, with_asset_scraper, get_assets,
    resolve_asset_URL, resolve_asset_URL_extension, download_image, after_call,
    show_error_scan, as_str, try_except, lift_result, list_getitem,
    say, on_world, on_obj, bind, gets, tell, modify, ret,
    download_error_dialog, verbose_message.
  destruct (debugose (pdialogger x)) eqn:Ed;
    destruct (net_download_img url
                (FN_append (FN_add (get_asset_path asset_info)
                              (getBaseNoExt (get_file rom))) ("." +:+ ext)))
      eqn:Edl;
    repeat (progress (cbn -[String.append];
                      rewrite ?Ho, ?En, ?Ht, ?Hsup, ?Ed, ?Hga, ?Hs1, ?Hmode,
                        ?Hurl, ?Hs2, ?Hu, ?Hext, ?Hs3, ?He, ?Edl;
                      repeat (case_decide; try congruence);
                      try change ((a :: rest) !! Z.to_nat 0) with (Some a)));
    eexists; (split; [reflexivity|]); cbn -[String.append]; repeat split.
Qed.
End AssetScrape.

Lemma scrap_asset_without_scraper_call_witness :
  let s := asset_scrape_example in
  exists s',
    _scanner_scrap_ROM_asset (fun _ _ => Ok tt) (fun _ => "/assets")
      (fun d f => d +:+ "/" +:+ f) (fun p e => p +:+ e)
      (fun _ st o => (None, st, o)) (fun _ st o => (None, st, o))
      (fun _ _ st o => (PNone, st, o)) snap (AFile "/local/snap.png") s
    = (Ok (AFile "/local/snap.png"), s') /\
    sc_world s' = sc_world s /\
    sc_rom s' = sc_rom s /\
    asset_scraper_obj (sc_self s') = Some metadata_scraper_example.
Proof.
  apply (scrap_asset_without_scraper_call (fun _ _ => Ok tt)
           (fun _ => "/assets") (fun d f => d +:+ "/" +:+ f)
           (fun p e => p +:+ e) (fun _ st o => (None, st, o))
           (fun _ st o => (None, st, o)) (fun _ _ st o => (PNone, st, o))
           asset_scrape_example metadata_scraper_example snap
           (AFile "/local/snap.png")).
  - reflexivity.
  - right. reflexivity.
Defined.

Lemma scrap_asset_no_images_witness :
  let s := asset_scrape_example in
  let o := metadata_scraper_example in
  exists s',
    _scanner_scrap_ROM_asset (fun _ _ => Ok tt) (fun _ => "/assets")
      (fun d f => d +:+ "/" +:+ f) (fun p e => p +:+ e)
      (fun _ _ o => (Some [], error_status_example, o))
      (fun _ st o => (None, st, o))
      (fun _ _ st o => (PNone, st, o)) fanart (AFile "/local/fanart.png") s
    = (Ok (AFile "/local/fanart.png"), s') /\
    sc_rom s' = sc_rom s /\
    asset_scraper_obj (sc_self s') = Some o /\
    log (sc_world s')
    = error_dialog error_status_example ++ Ev_get_assets fanart
      :: verbose_message (sc_self s)
           ("Getting " +:+ a_name fanart +:+ " images from "
            +:+ get_name o +:+ "...")
      ++ log (sc_world s).
Proof.
  apply (scrap_asset_no_images (fun _ _ => Ok tt)
           (fun _ => "/assets") (fun d f => d +:+ "/" +:+ f)
           (fun p e => p +:+ e)
           (fun _ _ o => (Some [], error_status_example, o))
           (fun _ st o => (None, st, o)) (fun _ _ st o => (PNone, st, o))
           asset_scrape_example metadata_scraper_example fanart
           (AFile "/local/fanart.png") (Some []) error_status_example
           metadata_scraper_example).
  - reflexivity.
  - reflexivity.
  - reflexivity.
  - reflexivity.
  - right. reflexivity.
Defined.

Lemma scrap_asset_download_witness :
  let s := asset_scrape_example in
  let o := metadata_scraper_example in
  let first := assetdata_example "Fanart 1" "http://img/1" in
  let second := assetdata_example "Fanart 2" "http://img/2" in
  let transport := fun (_ _ : string) => @Raise unit IOError in
  let path := "/assets/Sonic (USA).png" in
  exists s',
    _scanner_scrap_ROM_asset transport (fun _ => "/assets")
      (fun d f => d +:+ "/" +:+ f) (fun p e => p +:+ e)
      (fun _ st o => (Some [first; second], st, o))
      (fun _ st o => (Some (PStr "http://img/1", PStr "http://img/1"), st, o))
      (fun _ _ st o => (PStr "png", st, o)) fanart
      (AFile "/local/fanart.png") s
    = (Ok (AFile path), s') /\
    sc_rom s' = sc_rom s /\
    asset_scraper_obj (sc_self s') = Some o /\
    log (sc_world s')
    = (match transport "http://img/1" path with
       | Ok _ => []
       | Raise _ => download_error_dialog (a_name fanart)
       end)
      ++ Ev_net_download_img "http://img/1" path
      :: Ev_download_image fanart (PStr "http://img/1") path
      :: verbose_message (sc_self s)
           ("Downloading " +:+ a_name fanart +:+ " from " +:+ get_name o
            +:+ "...")
      ++ Ev_resolve_asset_URL_extension fanart first (PStr "http://img/1")
      :: Ev_resolve_asset_URL fanart first
      :: verbose_message (sc_self s)
           ("Scraping " +:+ a_name fanart +:+ " with " +:+ get_name o
            +:+ " (Resolving URL...)")
      ++ Ev_get_assets fanart
      :: verbose_message (sc_self s)
           ("Getting " +:+ a_name fanart +:+ " images from " +:+ get_name o
            +:+ "...")
      ++ log (sc_world s).
Proof.
  apply (scrap_asset_download (fun _ _ => Raise IOError)
           (fun _ => "/assets") (fun d f => d +:+ "/" +:+ f)
           (fun p e => p +:+ e)
           (fun _ st o =>
              (Some [assetdata_example "Fanart 1" "http://img/1";
                     assetdata_example "Fanart 2" "http://img/2"], st, o))
           (fun _ st o =>
              (Some (PStr "http://img/1", PStr "http://img/1"), st, o))
           (fun _ _ st o => (PStr "png", st, o))
           asset_scrape_example metadata_scraper_example fanart
           (AFile "/local/fanart.png")
           (assetdata_example "Fanart 1" "http://img/1")
           [assetdata_example "Fanart 2" "http://img/2"]
           (new_status_dic "No error") metadata_scraper_example
           "http://img/1" (PStr "http://img/1")
           (new_status_dic "No error") metadata_scraper_example
           "png" (new_status_dic "No error") metadata_scraper_example);
    try reflexivity; discriminate.
Defined.

(** ** The execution of a plan of local assets *)

Section LocalPlan.
Variable net_download_img : string -> string -> result unit.
Variable ASSET_TRAILER_ID : string.
Variable get_asset_path : AssetInfo -> string.
Variable FN_add : string -> string -> string.
Variable FN_append : string -> string -> string.
Variable get_assets_impl :
  AssetInfo -> status_dic -> Scraper ->
  option (list pyval) * status_dic * Scraper.
Variable resolve_asset_URL_impl :
  pyval -> status_dic -> Scraper ->
  option (pyval * pyval) * status_dic * Scraper.
Variable resolve_asset_URL_extension_impl :
  pyval -> pyval -> status_dic -> Scraper -> pyval * status_dic * Scraper.

Lemma asset_slot_set_asset r AInfo path k :
  asset_slot (set_asset r AInfo path) k
  = if decide (k = a_id AInfo) then path else asset_slot r k.
Proof.
  unfold asset_slot, set_asset, with_assets. cbn [rom_assets].
  case_decide as Hk.
  - subst k. rewrite lookup_insert_eq. reflexivity.
  - rewrite lookup_insert_ne by congruence. reflexivity.
Qed.

(** One step of the loop on an asset whose action is "use local". *)
Lemma process_one_asset_local AInfo (x : ScrapeStrategy) (rom : ROM)
    (w : World) L m loc :
  local_asset_list x = Some L ->
  asset_action_list x = Some m ->
  m !! a_id AInfo = Some ACTION_ASSET_LOCAL_ASSET ->
  L !! a_id AInfo = Some loc ->
  process_one_asset net_download_img ASSET_TRAILER_ID get_asset_path FN_add
    FN_append get_assets_impl resolve_asset_URL_impl
    resolve_asset_URL_extension_impl AInfo
    {| sc_self := x; sc_rom := rom; sc_world := w |}
  = (Ok tt,
     if negb (overwrite_existing (scraper_settings x)) && has_asset rom AInfo
     then {| sc_self := x; sc_rom := rom; sc_world := w |}
     else {| sc_self := x; sc_rom := set_asset rom AInfo loc;
             sc_world := emit (Ev_set_asset AInfo loc) w |}).
Proof.
  intros HL Hm Hact Hloc.
  unfold process_one_asset, asset_action, local_asset, rom_set_asset, bind,
    attr, lift_result, map_getitem, gets, tell, on_rom, modify, ret.
  cbn [sc_self sc_rom sc_world fst snd]. rewrite Hm, Hact.
  cbn [fst snd sc_self sc_rom sc_world].
  change (ACTION_ASSET_LOCAL_ASSET =? ACTION_ASSET_NONE) with false.
  cbv iota. cbn [sc_self sc_rom sc_world].
  destruct (negb (overwrite_existing (scraper_settings x)) && has_asset rom AInfo);
    [reflexivity|].
  cbn [sc_self sc_rom sc_world fst snd].
  rewrite Hm, Hact. cbn [fst snd sc_self sc_rom sc_world].
  change (ACTION_ASSET_LOCAL_ASSET =? ACTION_ASSET_LOCAL_ASSET) with true.
  cbv iota. cbn [sc_self sc_rom sc_world fst snd].
  rewrite HL. cbn [sc_self sc_rom sc_world fst snd]. rewrite Hloc. reflexivity.
Qed.

Lemma local_plan_loop L m l : forall (s : Scan),
  local_asset_list (sc_self s) = Some L ->
  asset_action_list (sc_self s) = Some m ->
  (forall a, a ∈ l ->
     m !! a_id a = Some ACTION_ASSET_LOCAL_ASSET /\ is_Some (L !! a_id a)) ->
  exists s',
    for_each l
      (process_one_asset net_download_img ASSET_TRAILER_ID get_asset_path
         FN_add FN_append get_assets_impl
         resolve_asset_URL_impl resolve_asset_URL_extension_impl) s
    = (Ok tt, s') /\
    sc_self s' = sc_self s /\
    (forall k,
       asset_slot (sc_rom s') k
       = if bool_decide (k ∈ map a_id l)
         then local_plan_slot (overwrite_existing (scraper_settings (sc_self s)))
                L (sc_rom s) k
         else asset_slot (sc_rom s) k) /\
    exists evs,
      log (sc_world s') = evs ++ log (sc_world s) /\
      Forall (fun e => is_set_asset e = true) evs.
Proof.
  induction l as [|a l IH]; intros s HL Hm Hall.
  - exists s. split; [reflexivity|]. split; [reflexivity|]. split.
    + intros k. rewrite bool_decide_eq_false_2; [reflexivity|].
      cbn. apply not_elem_of_nil.
    + exists []. split; [reflexivity|constructor].
  - destruct s as [x rom w]. cbn [sc_self sc_rom sc_world] in *.
    destruct (Hall a) as [Hact [loc Hloc]]; [left|].
    pose proof (process_one_asset_local a x rom w L m loc HL Hm Hact Hloc)
      as Hstep.
    set (skip := negb (overwrite_existing (scraper_settings x))
                 && has_asset rom a) in *.
    set (s1 := if skip then {| sc_self := x; sc_rom := rom; sc_world := w |}
               else {| sc_self := x; sc_rom := set_asset rom a loc;
                       sc_world := emit (Ev_set_asset a loc) w |}) in *.
    assert (Hx1 : sc_self s1 = x) by (unfold s1; destruct skip; reflexivity).
    destruct (IH s1) as (s' & Hrun & Hself & Hslots & evs & Hlog & Hevs).
    { rewrite Hx1. exact HL. }
    { rewrite Hx1. exact Hm. }
    { intros b Hb. apply Hall. right. exact Hb. }
    exists s'. split; [|split; [|split]].
    + cbn [for_each]. unfold bind. rewrite Hstep. exact Hrun.
    + rewrite Hself. exact Hx1.
    + intros k. rewrite Hslots, Hx1. cbn [map].
      assert (Hs1 : asset_slot (sc_rom s1) k
                    = if decide (k = a_id a)
                      then local_plan_slot
                             (overwrite_existing (scraper_settings x)) L rom k
                      else asset_slot rom k).
      { unfold s1, skip, local_plan_slot, has_asset.
        case_decide as Hk.
        - subst k. rewrite Hloc. cbn [default].
          destruct (overwrite_existing (scraper_settings x)),
            (asset_truthy (asset_slot rom (a_id a))) eqn:E;
            cbn [negb andb orb sc_rom];
            rewrite ?asset_slot_set_asset, ?decide_True by reflexivity;
            reflexivity.
        - destruct (negb _ && _); cbn [sc_rom];
            rewrite ?asset_slot_set_asset, ?decide_False by exact Hk;
            reflexivity. }
      destruct (bool_decide_reflect (k ∈ map a_id l)) as [Hin|Hin].
      * rewrite bool_decide_eq_true_2 by (right; exact Hin).
        unfold local_plan_slot at 1. rewrite Hs1.
        case_decide as Hk; [|reflexivity].
        unfold local_plan_slot.
        destruct (overwrite_existing (scraper_settings x)); [reflexivity|].
        cbn [orb].
        destruct (asset_truthy (asset_slot rom k)) eqn:E; cbn [negb].
        -- rewrite E. reflexivity.
        -- destruct (asset_truthy (default ANone (L !! k))); reflexivity.
      * rewrite Hs1. case_decide as Hk.
        -- rewrite bool_decide_eq_true_2 by (subst k; left). reflexivity.
        -- rewrite bool_decide_eq_false_2; [reflexivity|].
           intros Hc. apply elem_of_cons in Hc as [?|?]; contradiction.
    + assert (Hw1 : exists e1, log (sc_world s1) = e1 ++ log w /\
                      Forall (fun e => is_set_asset e = true) e1).
      { unfold s1. destruct skip.
        - exists []. split; [reflexivity|constructor].
        - exists [Ev_set_asset a loc]. split; [reflexivity|].
          repeat constructor. }
      destruct Hw1 as (e1 & Hl1 & He1).
      exists (evs ++ e1). split.
      * rewrite Hlog, Hl1, app_assoc. reflexivity.
      * apply Forall_app. split; assumption.
Qed.

(** X22.  When every enabled asset is planned as "use local", the execution sets
    each of their slots to the located local asset if the item may be
    overwritten or has nothing in the slot, and leaves the slot alone
    otherwise; the other slots keep their value, the plan is unchanged, and
    nothing but [set_asset] calls reach the outside: the scraper is not
    consulted. *)
Theorem process_assets_local_plan (s : Scan) L m :
  let enabled := enabled_asset_list (sc_self s) in
  let overwrite := overwrite_existing (scraper_settings (sc_self s)) in
  local_asset_list (sc_self s) = Some L ->
  asset_action_list (sc_self s) = Some m ->
  (forall a, a ∈ enabled ->
     m !! a_id a = Some ACTION_ASSET_LOCAL_ASSET /\ is_Some (L !! a_id a)) ->
  exists s',
    _scanner_process_ROM_assets net_download_img ASSET_TRAILER_ID
      get_asset_path FN_add FN_append get_assets_impl
      resolve_asset_URL_impl resolve_asset_URL_extension_impl s
    = (Ok tt, s') /\
    sc_self s' = sc_self s /\
    (forall a, a ∈ enabled ->
       asset_slot (sc_rom s') (a_id a)
       = local_plan_slot overwrite L (sc_rom s) (a_id a)) /\
    (forall k, k ∉ map a_id enabled ->
       asset_slot (sc_rom s') k = asset_slot (sc_rom s) k) /\
    exists evs,
      log (sc_world s') = evs ++ log (sc_world s) /\
      Forall (fun e => is_set_asset e = true) evs.
Proof.
  cbv zeta. intros HL Hm Hall.
  destruct (local_plan_loop L m (enabled_asset_list (sc_self s)) s HL Hm Hall)
    as (s' & Hrun & Hself & Hslots & Hlog).
  unfold _scanner_process_ROM_assets, bind at 1, attr. rewrite Hm.
  case_bool_decide as Hnone.
  - (* no enabled asset: the plan holds nothing to do *)
    assert (Hnil : enabled_asset_list (sc_self s) = []).
    { destruct (enabled_asset_list (sc_self s)) as [|a l] eqn:E; [reflexivity|].
      destruct (Hall a) as [Hact _]; [left|].
      specialize (Hnone _ _ Hact). discriminate. }
    exists s. split; [reflexivity|]. split; [reflexivity|].
    rewrite Hnil. split; [intros a Ha; inversion Ha|].
    split; [reflexivity|]. exists []. split; [reflexivity|constructor].
  - exists s'. split; [|split; [exact Hself|split; [|split; [|exact Hlog]]]].
    + unfold bind, gets. exact Hrun.
    + intros a Ha. rewrite Hslots.
      rewrite bool_decide_eq_true_2; [reflexivity|].
      apply list_elem_of_fmap. exists a. split; [reflexivity|exact Ha].
    + intros k Hk. rewrite Hslots.
      rewrite bool_decide_eq_false_2 by exact Hk. reflexivity.
Qed.
End LocalPlan.

Lemma process_assets_local_plan_witness :
  let s := assets_scan_example true in
  let L := <["fanart" := AFile "/new/fanart.png"]>
             (<["snap" := AFile "/local/snap.png"]> (∅ : gmap string asset_val)) in
  exists s',
    _scanner_process_ROM_assets (fun _ _ => Ok tt) "trailer" (fun _ => "/assets")
      (fun d f => d +:+ "/" +:+ f) (fun p e => p +:+ e)
      (fun _ st o => (None, st, o)) (fun _ st o => (None, st, o))
      (fun _ _ st o => (PNone, st, o)) s
    = (Ok tt, s') /\
    sc_self s' = sc_self s /\
    (forall a, a ∈ enabled_asset_list (sc_self s) ->
       asset_slot (sc_rom s') (a_id a)
       = local_plan_slot true L (sc_rom s) (a_id a)) /\
    (forall k, k ∉ map a_id (enabled_asset_list (sc_self s)) ->
       asset_slot (sc_rom s') k = asset_slot (sc_rom s) k) /\
    exists evs,
      log (sc_world s') = evs ++ log (sc_world s) /\
      Forall (fun e => is_set_asset e = true) evs.
Proof.
  apply (process_assets_local_plan (fun _ _ => Ok tt) "trailer"
           (fun _ => "/assets") (fun d f => d +:+ "/" +:+ f)
           (fun p e => p +:+ e) (fun _ st o => (None, st, o))
           (fun _ st o => (None, st, o)) (fun _ _ st o => (PNone, st, o))
           (assets_scan_example true)
           (<["fanart" := AFile "/new/fanart.png"]>
              (<["snap" := AFile "/local/snap.png"]> ∅))
           (<["fanart" := ACTION_ASSET_LOCAL_ASSET]>
              (<["snap" := ACTION_ASSET_LOCAL_ASSET]> ∅))).
  - reflexivity.
  - reflexivity.
  - intros a Ha. cbn in Ha.
    apply elem_of_cons in Ha as [->|Ha];
      [|apply elem_of_cons in Ha as [->|Ha]; [|inversion Ha]];
      (split; [reflexivity|eexists; reflexivity]).
Defined.

(** ** The global disk caches *)

Section GlobalCacheLemmas.
Variable os_path_join : string -> string -> string.
Variable cache_dir : string.

Lemma load_global_cache_raises ct (s : GW) :
  _load_global_cache os_path_join cache_dir ct s = (Raise AttributeError, s).
Proof. reflexivity. Qed.

Lemma run_global_op_loaded op (s : GW) :
  global_disk_caches_loaded (gobj (run_global_op os_path_join cache_dir op s))
  = global_disk_caches_loaded (gobj s) /\
  gworld (run_global_op os_path_join cache_dir op s) = gworld s.
Proof.
  destruct op as [ct|ct|ct|ct|ct|ct data]; cbn [run_global_op].
  - split; reflexivity.
  - unfold _lazy_load_global_disk_cache, bind, gets, lift_result, map_getitem,
      ret. cbn [fst snd].
    destruct (global_disk_caches_loaded (gobj s) !! ct) as [[]|];
      split; reflexivity.
  - unfold _check_global_cache, _lazy_load_global_disk_cache, bind, gets,
      lift_result, map_getitem, ret. cbn [fst snd].
    destruct (global_disk_caches_loaded (gobj s) !! ct) as [[]|];
      cbn [negb fst snd]; split; reflexivity.
  - unfold _retrieve_global_cache, bind, gets, lift_result, map_getitem.
    cbn [fst snd].
    destruct (global_disk_caches (gobj s) !! ct); split; reflexivity.
  - split; reflexivity.
  - unfold _update_global_cache, _lazy_load_global_disk_cache, bind, gets,
      lift_result, map_getitem, ret. cbn [fst snd].
    destruct (global_disk_caches_loaded (gobj s) !! ct) as [[]|];
      split; reflexivity.
Qed.

Lemma run_global_ops_loaded ops : forall (s : GW),
  global_disk_caches_loaded (gobj (run_global_ops os_path_join cache_dir ops s))
  = global_disk_caches_loaded (gobj s) /\
  gworld (run_global_ops os_path_join cache_dir ops s) = gworld s.
Proof.
  induction ops as [|op ops IH]; intros s; [split; reflexivity|].
  cbn [run_global_ops foldl]. fold (run_global_ops os_path_join cache_dir ops).
  destruct (IH (run_global_op os_path_join cache_dir op s)) as [H1 H2].
  destruct (run_global_op_loaded op s) as [H3 H4].
  unfold run_global_ops in H1, H2 |- *.
  split; [rewrite H1; exact H3|rewrite H2; exact H4].
Qed.

(** X23.  The global caches of the base class cannot be loaded.  A direct
    [_load_global_cache] raises [AttributeError] on every object, at the
    [decode] of a [str] in [_get_global_file_name], and no method ever
    changes a loaded flag or touches the world: after any sequence of
    calls the flags and the world are as before.  So
    [_check_global_cache] and [_update_global_cache] raise [KeyError] for
    a cache type that has no flag, raise [AttributeError] (storing
    nothing) for a type whose flag is [False], and work on the slot in
    memory only for a type whose flag is [True] already. *)
Theorem global_cache_never_loads ops ct data (s : GW) :
  let s' := run_global_ops os_path_join cache_dir ops s in
  global_disk_caches_loaded (gobj s') = global_disk_caches_loaded (gobj s) /\
  gworld s' = gworld s /\
  _load_global_cache os_path_join cache_dir ct s = (Raise AttributeError, s) /\
  _check_global_cache os_path_join cache_dir ct s
  = match global_disk_caches_loaded (gobj s) !! ct with
    | None => (Raise KeyError, s)
    | Some false => (Raise AttributeError, s)
    | Some true =>
        (match global_disk_caches (gobj s) !! ct with
         | Some v => Ok v
         | None => Raise KeyError
         end, s)
    end /\
  _update_global_cache os_path_join cache_dir ct data s
  = match global_disk_caches_loaded (gobj s) !! ct with
    | None => (Raise KeyError, s)
    | Some false => (Raise AttributeError, s)
    | Some true =>
        (Ok tt,
         {| gobj :=
              {| global_disk_caches := <[ct := data]> (global_disk_caches (gobj s));
                 global_disk_caches_loaded := global_disk_caches_loaded (gobj s);
                 global_disk_caches_dirty :=
                   <[ct := true]> (global_disk_caches_dirty (gobj s)) |};
            gworld := gworld s |})
    end.
Proof.
  cbv zeta.
  destruct (run_global_ops_loaded ops s) as [Hl Hw].
  split; [exact Hl|]. split; [exact Hw|]. split; [reflexivity|].
  unfold _check_global_cache, _update_global_cache,
    _lazy_load_global_disk_cache, bind, gets, lift_result, map_getitem,
    on_gobj, modify, ret.
  cbn [fst snd].
  destruct (global_disk_caches_loaded (gobj s) !! ct) as [[]|];
    cbn [negb fst snd]; [|split; reflexivity|split; reflexivity].
  destruct (global_disk_caches (gobj s) !! ct); split; reflexivity.
Qed.

(** X24.  What does work is the slot in memory: after [_reset_global_cache] the
    retrieval gives the empty dictionary and the type is dirty, nothing
    being read or written and no loaded flag being touched; in general a
    retrieval answers from the slot, and raises [KeyError] for a type that
    has none. *)
Theorem reset_global_cache_retrieve ct ct' (s : GW) :
  let s' := (_reset_global_cache ct s).2 in
  _retrieve_global_cache ct s' = (Ok (PDict []), s') /\
  global_disk_caches_dirty (gobj s') !! ct = Some true /\
  global_disk_caches_loaded (gobj s') = global_disk_caches_loaded (gobj s) /\
  gworld s' = gworld s /\
  _retrieve_global_cache ct' s
  = (match global_disk_caches (gobj s) !! ct' with
     | Some v => Ok v
     | None => Raise KeyError
     end, s).
Proof.
  cbv zeta. unfold _reset_global_cache, _retrieve_global_cache, on_gobj, bind,
    gets, modify, lift_result, map_getitem.
  cbn [fst snd gobj gworld global_disk_caches global_disk_caches_dirty
       global_disk_caches_loaded].
  rewrite !lookup_insert_eq.
  destruct (global_disk_caches (gobj s) !! ct'); repeat split.
Qed.
End GlobalCacheLemmas.

(** ** The scraper settings object *)

Section ScraperSettingsLemmas.
Variable SCRAPER_NULL_ID : string.
Variable ROM_ASSET_ID_LIST : list string.

(** X25.  The dictionary that [get_data_dic] makes cannot be read back by
    [from_settings_dict]: the two methods name the policies differently
    ([scrape_metadata_policy] against [scan_metadata_policy]), so that the
    reading raises [KeyError] whatever the settings object was. *)
Theorem settings_round_trip_fails (self : ScraperSettings) :
  from_settings_dict SCRAPER_NULL_ID ROM_ASSET_ID_LIST (get_data_dic self)
  = Raise KeyError.
Proof.
  unfold from_settings_dict, get_data_dic, ScraperSettings_init, map_getitem.
  rewrite !lookup_insert_ne by discriminate. rewrite lookup_empty.
  reflexivity.
Qed.

(** X26.  [from_settings_dict] on a dictionary that holds the four keys it reads:
    the two policies and the two selection modes are taken from it, under
    the names [get_data_dic] then gives them; everything else is as the
    constructor leaves it: existing assets are not overwritten and the
    search term mode is automatic. *)
Theorem from_settings_dict_reads (settings : gmap string scrape_const)
    mp ap gm am :
  settings !! "scan_metadata_policy" = Some mp ->
  settings !! "scan_asset_policy" = Some ap ->
  settings !! "game_selection_mode" = Some gm ->
  settings !! "asset_selection_mode" = Some am ->
  exists x,
    from_settings_dict SCRAPER_NULL_ID ROM_ASSET_ID_LIST settings
    = Ok (x, (ScraperSettings_init SCRAPER_NULL_ID ROM_ASSET_ID_LIST).2) /\
    get_data_dic x !! "scrape_metadata_policy" = Some mp /\
    get_data_dic x !! "scrape_assets_policy" = Some ap /\
    get_data_dic x !! "game_selection_mode" = Some gm /\
    get_data_dic x !! "asset_selection_mode" = Some am /\
    overwrite_existing x = false /\
    search_term_mode x = SCRAPE_AUTOMATIC /\
    show_info_verbose x = false.
Proof.
  intros H1 H2 H3 H4.
  unfold from_settings_dict, ScraperSettings_init, map_getitem.
  rewrite H1, H2, H3, H4. eexists. split; [reflexivity|].
  unfold get_data_dic. cbn [scrape_metadata_policy scrape_assets_policy
    game_selection_mode asset_selection_mode overwrite_existing
    search_term_mode show_info_verbose].
  repeat split;
    repeat (rewrite lookup_insert_ne by discriminate);
    apply lookup_insert_eq.
Qed.

(** X27.  A missing key makes [from_settings_dict] raise [KeyError]. *)
Theorem from_settings_dict_missing_key (settings : gmap string scrape_const) k :
  k ∈ ["scan_metadata_policy"; "scan_asset_policy"; "game_selection_mode";
       "asset_selection_mode"] ->
  settings !! k = None ->
  from_settings_dict SCRAPER_NULL_ID ROM_ASSET_ID_LIST settings
  = Raise KeyError.
Proof.
  intros Hk Hnone.
  unfold from_settings_dict, ScraperSettings_init, map_getitem.
  repeat (apply elem_of_cons in Hk as [->|Hk];
          [rewrite ?Hnone;
           repeat match goal with
                  | |- context [settings !! ?key] =>
                      destruct (settings !! key); try reflexivity
                  end; congruence|]).
  inversion Hk.
Qed.
End ScraperSettingsLemmas.

Lemma from_settings_dict_reads_witness :
  exists x,
    from_settings_dict "NULL" ["fanart"; "snap"] settings_dict_example
    = Ok (x, (ScraperSettings_init "NULL" ["fanart"; "snap"]).2) /\
    get_data_dic x !! "scrape_metadata_policy" = Some SCRAPE_POLICY_SCRAPE_ONLY /\
    get_data_dic x !! "scrape_assets_policy"
    = Some SCRAPE_POLICY_LOCAL_AND_SCRAPE /\
    get_data_dic x !! "game_selection_mode" = Some SCRAPE_MANUAL /\
    get_data_dic x !! "asset_selection_mode" = Some SCRAPE_AUTOMATIC /\
    overwrite_existing x = false /\
    search_term_mode x = SCRAPE_AUTOMATIC /\
    show_info_verbose x = false.
Proof.
  apply (from_settings_dict_reads "NULL" ["fanart"; "snap"]
           settings_dict_example); reflexivity.
Defined.

Lemma from_settings_dict_missing_key_witness :
  from_settings_dict "NULL" ["fanart"; "snap"]
    (delete "scan_asset_policy" settings_dict_example)
  = Raise KeyError.
Proof.
  apply (from_settings_dict_missing_key "NULL" ["fanart"; "snap"]
           (delete "scan_asset_policy" settings_dict_example)
           "scan_asset_policy").
  - rewrite !elem_of_cons. auto.
  - reflexivity.
Defined.

(** ** The record templates *)

Lemma dict_mem_set_other k k' v (d : pydict) :
  dict_mem k d = true -> dict_mem k (dict_set k' v d) = true.
Proof.
  induction d as [|[k0 v0] d IH]; cbn; [discriminate|].
  destruct (String.eqb k' k0) eqn:E'; cbn; destruct (String.eqb k k0);
    auto.
Qed.

Lemma dict_mem_filled_in k updates : forall template,
  dict_mem k template = true ->
  dict_mem k (filled_in template updates) = true.
Proof.
  induction updates as [|[k' v] updates IH]; intros template H; [exact H|].
  cbn [filled_in foldl]. apply IH. cbn [fst snd].
  apply dict_mem_set_other, H.
Qed.

Lemma templates_hold_keys_aux updates k :
  k ∈ "title" :: gamedata_fields ->
  dict_mem k (filled_in _new_gamedata_dic updates) = true.
Proof.
  intros Hk. apply dict_mem_filled_in. unfold gamedata_fields in Hk.
  repeat (apply elem_of_cons in Hk as [->|Hk]; [reflexivity|]).
  inversion Hk.
Qed.

(** X28.  The records that a scraper makes from the templates, by assignments to
    their keys, hold every key that the scanner reads: the display name of
    a candidate, the display name and the thumbnail of an image, and the
    seven fields of a game. *)
Theorem templates_hold_the_keys_read updates :
  dict_mem "display_name" (filled_in _new_candidate_dic updates) = true /\
  dict_mem "display_name" (filled_in _new_assetdata_dic updates) = true /\
  dict_mem "url_thumb" (filled_in _new_assetdata_dic updates) = true /\
  forall k, k ∈ "title" :: gamedata_fields ->
    dict_mem k (filled_in _new_gamedata_dic updates) = true.
Proof.
  split; [|split; [|split]]; try (apply dict_mem_filled_in; reflexivity).
  intros k Hk. apply templates_hold_keys_aux, Hk.
Qed.

Section TemplateApplied.
Variable format_ROM_title : string -> bool -> string.

(** X29.  A game record made from the template is always applied in full:
    [_apply_candidate_on_metadata] returns [True], never raises [KeyError],
    and the six fields after the title are those of the record. *)
Theorem gamedata_template_applies updates (s : Scan) :
  let record := filled_in _new_gamedata_dic updates in
  exists s',
    _apply_candidate_on_metadata format_ROM_title (PDict record) s
    = (Ok true, s') /\
    sc_self s' = sc_self s /\
    dict_get "year" record = Ok (m_year (sc_rom s')) /\
    dict_get "genre" record = Ok (m_genre (sc_rom s')) /\
    dict_get "developer" record = Ok (m_developer (sc_rom s')) /\
    dict_get "nplayers" record = Ok (m_nplayers (sc_rom s')) /\
    dict_get "esrb" record = Ok (m_esrb (sc_rom s')) /\
    dict_get "plot" record = Ok (m_plot (sc_rom s')) /\
    (if scan_ignore_scrap_title (sc_self s)
     then m_name (sc_rom s')
          = PStr (format_ROM_title (getBaseNoExt (get_file (sc_rom s)))
                    (scan_clean_tags (sc_self s)))
     else dict_get "title" record = Ok (m_name (sc_rom s'))).
Proof.
  cbv zeta. set (record := filled_in _new_gamedata_dic updates).
  assert (Hkey : forall k, k ∈ "title" :: gamedata_fields ->
                   exists v, dict_get k record = Ok v).
  { intros k Hk. apply dict_mem_get.
    apply (templates_hold_keys_aux updates k Hk). }
  unfold gamedata_fields in Hkey.
  destruct (Hkey "title") as [t Ht]; [rewrite !elem_of_cons; auto 10|].
  destruct (Hkey "year") as [y Hy]; [rewrite !elem_of_cons; auto 10|].
  destruct (Hkey "genre") as [g Hg]; [rewrite !elem_of_cons; auto 10|].
  destruct (Hkey "developer") as [dv Hd]; [rewrite !elem_of_cons; auto 10|].
  destruct (Hkey "nplayers") as [n Hn]; [rewrite !elem_of_cons; auto 10|].
  destruct (Hkey "esrb") as [e He]; [rewrite !elem_of_cons; auto 10|].
  destruct (Hkey "plot") as [p Hp]; [rewrite !elem_of_cons; auto 10|].
  destruct s as [x rom w]. cbn [sc_self sc_rom sc_world].
  set (name := if scan_ignore_scrap_title x
               then PStr (format_ROM_title (getBaseNoExt (get_file rom))
                            (scan_clean_tags x))
               else t).
  assert (Hname : if scan_ignore_scrap_title x
                  then name = PStr (format_ROM_title
                                      (getBaseNoExt (get_file rom))
                                      (scan_clean_tags x))
                  else dict_get "title" record = Ok name).
  { unfold name. destruct (scan_ignore_scrap_title x); [reflexivity|exact Ht]. }
  rewrite (apply_candidate_ok format_ROM_title x rom w record name y g dv n e p
             Hname Hy Hg Hd Hn He Hp).
  eexists. split; [reflexivity|]. cbn [sc_self sc_rom m_year m_genre m_developer
    m_nplayers m_esrb m_plot m_name set_scraped_fields set_name].
  repeat (split; [first [reflexivity|assumption]|]).
  unfold name. destruct (scan_ignore_scrap_title x); [reflexivity|exact Ht].
Qed.
End TemplateApplied.

(** ** The order of insertion does not show on disk *)

Section FlushOrder.
Variable os_path_join : string -> string -> string.

Lemma truthy_Permutation (d1 d2 : pydict) :
  d1 ≡ₚ d2 -> truthy (PDict d1) = truthy (PDict d2).
Proof.
  intros H. destruct d1, d2; try reflexivity.
  - apply Permutation_nil_cons in H. contradiction.
  - symmetry in H. apply Permutation_nil_cons in H. contradiction.
Qed.

Lemma expected_writes_reordered reordered plat (s : SW) :
  (forall ct, pc_get ct reordered ≡ₚ pc_get ct (disk_caches (obj s))) ->
  (forall ct, NoDup (pc_get ct reordered).*1) ->
  expected_writes os_path_join (obj (reordered_caches reordered s)) plat
  = expected_writes os_path_join (obj s) plat.
Proof.
  intros Hperm Hnd. unfold expected_writes, due_writes.
  apply list_omap_ext, Forall_Forall2_diag, Forall_forall. intros ct _.
  unfold should_write, write_of, cache_path, cache_fname, reordered_caches.
  cbn -[pc_get truthy json_dumps].
  rewrite (truthy_Permutation _ _ (Hperm ct)).
  rewrite (json_dumps_deterministic _ _ (Hperm ct) (Hnd ct)). reflexivity.
Qed.

(** X30.  The files that a flush writes depend on the entries of the caches, not
    on the order in which they were inserted: two scrapers that differ only
    in that order write the same files with the same content. *)
Theorem flush_ignores_insertion_order pd reordered plat (s : SW) :
  supports_disk_cache (obj s) = true ->
  platform (obj s) = Some plat ->
  (forall ct, pc_get ct reordered ≡ₚ pc_get ct (disk_caches (obj s))) ->
  (forall ct, NoDup (pc_get ct reordered).*1) ->
  let out := flush_disk_cache os_path_join pd s in
  let out' := flush_disk_cache os_path_join pd (reordered_caches reordered s) in
  out'.1 = Ok tt /\ out.1 = Ok tt /\
  fs (world out'.2) = fs (world out.2) /\
  writes (log (world out'.2)) = writes (log (world out.2)).
Proof.
  cbv zeta. intros Hsup Hp Hperm Hnd.
  destruct (flush_supported os_path_join pd plat s Hsup Hp)
    as (s1 & Hrun & _ & _ & Hw & Hf).
  destruct (flush_supported os_path_join pd plat (reordered_caches reordered s)
              Hsup Hp) as (s2 & Hrun' & _ & _ & Hw' & Hf').
  rewrite Hrun, Hrun'. cbn [fst snd].
  rewrite (expected_writes_reordered reordered plat s Hperm Hnd) in Hw', Hf'.
  split; [reflexivity|]. split; [reflexivity|].
  split; [rewrite Hf', Hf|rewrite Hw', Hw]; reflexivity.
Qed.
End FlushOrder.

Lemma flush_ignores_insertion_order_witness :
  let join := fun d f => d +:+ "/" +:+ f in
  let out := flush_disk_cache join false two_candidates_example in
  let out' := flush_disk_cache join false
                (reordered_caches reordered_example two_candidates_example) in
  out'.1 = Ok tt /\ out.1 = Ok tt /\
  fs (world out'.2) = fs (world out.2) /\
  writes (log (world out'.2)) = writes (log (world out.2)).
Proof.
  apply (flush_ignores_insertion_order (fun d f => d +:+ "/" +:+ f) false
           reordered_example "Sega Genesis" two_candidates_example).
  - reflexivity.
  - reflexivity.
  - intros ct. destruct ct; vm_compute; [apply perm_swap|constructor..].
  - intros ct. destruct ct; vm_compute; repeat constructor;
      rewrite ?elem_of_cons, ?elem_of_nil; intros H;
      repeat destruct H as [H|H]; try discriminate; exact H.
Defined.
